(** * weaviate-benchmarking: the benchmarker commands, embedded and verified

    The Go sources are [benchmarker/cmd/random_vectors.go] (which also carries
    the ann-benchmark command and the metrics helpers), an earlier revision of
    the random-vectors command, and two shell drivers.  The definitions below
    follow those sources function by function; what the sources call in other
    packages (encoding/binary, google/uuid, fmt, encoding/json, protobuf) is
    modelled next to its caller and marked as such. *)

From Stdlib Require Import ZArith List Bool Lia QArith.
From Stdlib Require Import Strings.String Strings.Ascii.
From stdpp Require Import base list strings gmap relations pretty.

Local Open Scope string_scope.
Local Open Scope Z_scope.
Local Open Scope list_scope.

(* ===================================================================== *)
(** * Part I: definitions                                                 *)
(* ===================================================================== *)

(** ** Go values *)

Module Go.

(** A Go call that returns [(value, error)]. *)
Inductive result (A : Type) : Type :=
| Ok (a : A)
| Err (msg : string).
Arguments Ok {A} a.
Arguments Err {A} msg.

(** A Go call that either returns or panics. *)
Inductive exec (A : Type) : Type :=
| Done (a : A)
| Panicked (msg : string).
Arguments Done {A} a.
Arguments Panicked {A} msg.

Definition bind {A B} (m : exec A) (k : A -> exec B) : exec B :=
  match m with
  | Done a => k a
  | Panicked msg => Panicked msg
  end.

(** Integer conversions: [uint64(x)], [uint32(x)], [int32(x)], [byte(x)]. *)
Definition to_uint64 (z : Z) : Z := z mod 2 ^ 64.
Definition to_uint32 (z : Z) : Z := z mod 2 ^ 32.
Definition to_int32 (z : Z) : Z := (z + 2 ^ 31) mod 2 ^ 32 - 2 ^ 31.
Definition to_byte (z : Z) : Z := Z.land z 255.

(** The characters that cannot be written inside a string literal. *)
Definition dquote : string := String "034"%char EmptyString.
Definition backslash : string := String "092"%char EmptyString.
Definition newline : string := String "010"%char EmptyString.
Definition tab : string := String "009"%char EmptyString.

(** [s[i]] on a string; [None] where Go panics, out of range. *)
Definition index (s : string) (i : nat) : option ascii := String.get i s.

(** [s[from:]]. *)
Definition drop_prefix (from : nat) (s : string) : string :=
  String.substring from (String.length s - from) s.

(** [fmt.Sprintf("%d", n)] for a Go [int]. *)
Definition fmt_d (n : Z) : string := pretty n.

End Go.

Notation "x <- m ;; k" := (Go.bind m (fun x => k))
  (at level 100, m at next level, right associativity, only parsing).

(** ** encoding/binary and google/uuid, as used by the id conversions *)

Module Binary.

(** [binary.BigEndian.PutUint64(b, v)]: the eight bytes written. *)
Definition BigEndian_PutUint64 (v : Z) : list Z :=
  [ Go.to_byte (Z.shiftr v 56); Go.to_byte (Z.shiftr v 48);
    Go.to_byte (Z.shiftr v 40); Go.to_byte (Z.shiftr v 32);
    Go.to_byte (Z.shiftr v 24); Go.to_byte (Z.shiftr v 16);
    Go.to_byte (Z.shiftr v 8);  Go.to_byte v ].

(** [binary.BigEndian.Uint64(b)]: panics (bounds check on [b[7]]) when the
    slice is shorter than eight bytes. *)
Definition BigEndian_Uint64 (b : list Z) : Go.exec Z :=
  match b with
  | b0 :: b1 :: b2 :: b3 :: b4 :: b5 :: b6 :: b7 :: _ =>
      Go.Done
        (Z.lor b7
        (Z.lor (Z.shiftl b6 8)
        (Z.lor (Z.shiftl b5 16)
        (Z.lor (Z.shiftl b4 24)
        (Z.lor (Z.shiftl b3 32)
        (Z.lor (Z.shiftl b2 40)
        (Z.lor (Z.shiftl b1 48) (Z.shiftl b0 56))))))))
  | _ => Go.Panicked "index out of range"
  end.

End Binary.

Module UUID.

(** [type UUID [16]byte]; the bytes are kept as integers in [0, 256). *)
Definition UUID : Type := list Z.

(** [uuid.FromBytes]. *)
Definition FromBytes (b : list Z) : Go.result UUID :=
  if (length b =? 16)%nat then Go.Ok b else Go.Err "invalid UUID".

(** [hextable[n]] of encoding/hex. *)
Definition hexchar (n : Z) : ascii :=
  match String.get (Z.to_nat n) "0123456789abcdef" with
  | Some c => c
  | None => "000"%char
  end.

(** [hex.Encode]. *)
Fixpoint hex_Encode (src : list Z) : string :=
  match src with
  | [] => EmptyString
  | v :: rest =>
      String (hexchar (Z.shiftr v 4))
        (String (hexchar (Z.land v 15)) (hex_Encode rest))
  end.

(** [(uuid UUID) String()], through [encodeHex]:
    xxxxxxxx-xxxx-xxxx-xxxx-xxxxxxxxxxxx. *)
Definition String_ (u : UUID) : string :=
  hex_Encode (take 4 u) +:+ "-" +:+
  hex_Encode (take 2 (drop 4 u)) +:+ "-" +:+
  hex_Encode (take 2 (drop 6 u)) +:+ "-" +:+
  hex_Encode (take 2 (drop 8 u)) +:+ "-" +:+
  hex_Encode (drop 10 u).

(** The [xvalues] table: the value of a hexadecimal digit, 255 otherwise. *)
Definition xvalues (c : ascii) : Z :=
  let n := Z.of_nat (nat_of_ascii c) in
  if (48 <=? n) && (n <=? 57) then n - 48
  else if (65 <=? n) && (n <=? 70) then n - 55
  else if (97 <=? n) && (n <=? 102) then n - 87
  else 255.

(** [xtob]: two hexadecimal characters to a byte. *)
Definition xtob (x1 x2 : ascii) : Z * bool :=
  let b1 := xvalues x1 in
  let b2 := xvalues x2 in
  (Go.to_byte (Z.lor (Z.shiftl b1 4) b2),
   negb (b1 =? 255) && negb (b2 =? 255)).

(** The loop of [Parse] over the positions of the sixteen byte pairs. *)
Fixpoint parse_pairs (s : string) (offsets : list nat) : Go.result UUID :=
  match offsets with
  | [] => Go.Ok []
  | x :: rest =>
      match Go.index s x, Go.index s (S x) with
      | Some c1, Some c2 =>
          let '(v, ok) := xtob c1 c2 in
          if ok then
            match parse_pairs s rest with
            | Go.Ok u => Go.Ok (v :: u)
            | Go.Err e => Go.Err e
            end
          else Go.Err "invalid UUID format"
      | _, _ => Go.Err "invalid UUID format"
      end
  end.

Definition dashed_offsets : list nat :=
  [0; 2; 4; 6; 9; 11; 14; 16; 19; 21; 24; 26; 28; 30; 32; 34]%nat.

Definition plain_offsets : list nat :=
  [0; 2; 4; 6; 8; 10; 12; 14; 16; 18; 20; 22; 24; 26; 28; 30]%nat.

Definition is_dash (o : option ascii) : bool :=
  match o with
  | Some c => (nat_of_ascii c =? 45)%nat
  | None => false
  end.

(** The tail of [Parse], once [s] starts with the 36-character form. *)
Definition parse_dashed (s : string) : Go.result UUID :=
  if is_dash (Go.index s 8) && is_dash (Go.index s 13)
     && is_dash (Go.index s 18) && is_dash (Go.index s 23)
  then parse_pairs s dashed_offsets
  else Go.Err "invalid UUID format".

Definition lower (c : ascii) : ascii :=
  let n := nat_of_ascii c in
  if ((65 <=? n) && (n <=? 90))%nat then ascii_of_nat (n + 32) else c.

Fixpoint lower_string (s : string) : string :=
  match s with
  | EmptyString => EmptyString
  | String c r => String (lower c) (lower_string r)
  end.

(** [strings.EqualFold] against the all-ASCII constant ["urn:uuid:"]. *)
Definition EqualFold_urn (s : string) : bool :=
  String.eqb (lower_string s) "urn:uuid:".

(** [uuid.Parse]: the four accepted lengths. *)
Definition Parse (s : string) : Go.result UUID :=
  let n := String.length s in
  if (n =? 36)%nat then parse_dashed s
  else if (n =? 36 + 9)%nat then
    if EqualFold_urn (String.substring 0 9 s)
    then parse_dashed (Go.drop_prefix 9 s)
    else Go.Err "invalid urn prefix"
  else if (n =? 36 + 2)%nat then parse_dashed (Go.drop_prefix 1 s)
  else if (n =? 32)%nat then parse_pairs s plain_offsets
  else Go.Err "invalid UUID length".

End UUID.

(** A byte value. *)
Definition is_byte (b : Z) : Prop := 0 <= b < 256.

(** ** ann_benchmark: ids *)

(** [uuidFromInt]: sixteen zero bytes, the value big-endian in the last
    eight, formatted as a UUID. *)
Definition uuidFromInt (val : Z) : Go.exec string :=
  let bytes := replicate 16 0 in
  let bytes := take 8 bytes ++ Binary.BigEndian_PutUint64 (Go.to_uint64 val) in
  match UUID.FromBytes bytes with
  | Go.Err e => Go.Panicked e
  | Go.Ok id => Go.Done (UUID.String_ id)
  end.

(** [int32FromUUID]: parse, read the last eight bytes big-endian, truncate. *)
Definition int32FromUUID (uuidStr : string) : Go.exec Z :=
  match UUID.Parse uuidStr with
  | Go.Err e => Go.Panicked e
  | Go.Ok id =>
      val <- Binary.BigEndian_Uint64 (drop 8 id) ;;
      Go.Done (Go.to_int32 val)
  end.

(** ** Configuration and query descriptors

    [Config], [QueryWithNeighbors], [Queries], [Neighbors] and [Results] are
    declared in files of the package that are not among the sources; the
    records below carry the fields the functions embedded here read or
    write, with the types those uses give them. *)

(** A [float32], by its IEEE-754 bit pattern; arithmetic on it is not needed
    by anything below. *)
Definition float32 : Type := Z.

(** A [float64], by its IEEE-754 bit pattern. *)
Definition float64 : Type := Z.

Record Config : Type := {
  Mode : string;
  Queries : Z;
  Parallel : Z;
  Limit : Z;
  Dimensions : Z;
  WhereFilter : string;
  ClassName : string;
  DB : string;
  API : string;
  Origin : string;
  OutputFormat : string;
  OutputFile : string;
  Tenant : string;
  BenchmarkFile : string;
  QueryOnly : bool;
  EfConstruction : Z;
  MaxConnections : Z;
  Shards : Z;
  DistanceMetric : string;
  BatchSize : Z
}.

(** [cfg.Mode = m], [cfg.WhereFilter = f] and [cfg.Queries = n]. *)
Definition set_Mode (m : string) (c : Config) : Config :=
  {| Mode := m; Queries := Queries c; Parallel := Parallel c;
     Limit := Limit c; Dimensions := Dimensions c;
     WhereFilter := WhereFilter c; ClassName := ClassName c; DB := DB c;
     API := API c; Origin := Origin c; OutputFormat := OutputFormat c;
     OutputFile := OutputFile c; Tenant := Tenant c;
     BenchmarkFile := BenchmarkFile c; QueryOnly := QueryOnly c;
     EfConstruction := EfConstruction c; MaxConnections := MaxConnections c;
     Shards := Shards c; DistanceMetric := DistanceMetric c;
     BatchSize := BatchSize c |}.

Definition set_WhereFilter (f : string) (c : Config) : Config :=
  {| Mode := Mode c; Queries := Queries c; Parallel := Parallel c;
     Limit := Limit c; Dimensions := Dimensions c;
     WhereFilter := f; ClassName := ClassName c; DB := DB c;
     API := API c; Origin := Origin c; OutputFormat := OutputFormat c;
     OutputFile := OutputFile c; Tenant := Tenant c;
     BenchmarkFile := BenchmarkFile c; QueryOnly := QueryOnly c;
     EfConstruction := EfConstruction c; MaxConnections := MaxConnections c;
     Shards := Shards c; DistanceMetric := DistanceMetric c;
     BatchSize := BatchSize c |}.

Definition set_Queries (n : Z) (c : Config) : Config :=
  {| Mode := Mode c; Queries := n; Parallel := Parallel c;
     Limit := Limit c; Dimensions := Dimensions c;
     WhereFilter := WhereFilter c; ClassName := ClassName c; DB := DB c;
     API := API c; Origin := Origin c; OutputFormat := OutputFormat c;
     OutputFile := OutputFile c; Tenant := Tenant c;
     BenchmarkFile := BenchmarkFile c; QueryOnly := QueryOnly c;
     EfConstruction := EfConstruction c; MaxConnections := MaxConnections c;
     Shards := Shards c; DistanceMetric := DistanceMetric c;
     BatchSize := BatchSize c |}.

(** The gRPC search request of the Weaviate protocol, with the fields the
    builder fills in. *)
Record MetadataRequest : Type := {
  Certainty : bool;
  Distance : bool;
  Uuid : bool
}.

Record SearchRequest : Type := {
  Collection : string;
  SearchLimit : Z;
  VectorBytes : list Z;
  Metadata : MetadataRequest;
  SearchTenant : string
}.

(** The [[]byte] a generator hands to the engine: JSON text, or the
    protobuf encoding of a search request.  [proto.Marshal] belongs to the
    protobuf library; the bytes it returns for [m] are written [Proto m]. *)
Inductive payload : Type :=
| NoPayload
| Text (s : string)
| Proto (m : SearchRequest).

Record QueryWithNeighbors : Type := {
  Query : payload;
  Neighbors : list Z
}.

Record Results : Type := {
  Mean : Z;
  QueriesPerSecond : float64;
  Recall : float64;
  Total : Z;
  Failed : Z
}.

(** The callback handed to [benchmark]: a Go closure, that is a function of
    the class name together with the variables it captured.  [gen_call]
    gives the value returned (or the panic) and the captured state after
    the call. *)
Record Generator : Type := {
  gen_state : Type;
  gen_init : gen_state;
  gen_call : gen_state -> string -> Go.exec QueryWithNeighbors * gen_state
}.

(** One call [benchmark(cfg, getQueryFn)]. *)
Record BenchmarkCall : Type := {
  call_cfg : Config;
  call_gen : Generator
}.

(** The callback invoked once for each class name of [args], in order. *)
Fixpoint invoke_from (g : Generator) (st : gen_state g) (args : list string)
  : list (Go.exec QueryWithNeighbors) :=
  match args with
  | [] => []
  | a :: rest =>
      let '(r, st') := gen_call g st a in
      r :: invoke_from g st' rest
  end.

Definition invoke_all (g : Generator) (args : list string)
  : list (Go.exec QueryWithNeighbors) :=
  invoke_from g (gen_init g) args.

(** ** random_vectors: query builders *)

(** [randomVector]: [dims] draws of [rand.Float32()*2-1].  [draw k] is the
    value of the k-th draw of the process; the state is the number of draws
    made so far. *)
Definition randomVector (draw : nat -> float32) (dims : Z) (drawn : nat)
  : list float32 * nat :=
  let n := Z.to_nat dims in
  (map draw (seq drawn n), (drawn + n)%nat).

Section Builders.

(** How encoding/json prints one [float32]; [None] for the values it
    refuses (NaN and the infinities). *)
Variable json_float32 : float32 -> option string.

Fixpoint json_floats (vec : list float32) : option (list string) :=
  match vec with
  | [] => Some []
  | f :: rest =>
      match json_float32 f, json_floats rest with
      | Some s, Some l => Some (s :: l)
      | _, _ => None
      end
  end.

Fixpoint join_comma (l : list string) : string :=
  match l with
  | [] => EmptyString
  | [s] => s
  | s :: rest => s +:+ "," +:+ join_comma rest
  end.

(** [json.Marshal(vec)] for a non-nil [[]float32]. *)
Definition json_Marshal (vec : list float32) : Go.result string :=
  match json_floats vec with
  | Some l => Go.Ok ("[" +:+ join_comma l +:+ "]")
  | None => Go.Err "json: unsupported value"
  end.

(** [vecJSON, _ := json.Marshal(vec)] followed by [string(vecJSON)]: the
    error is dropped and the nil slice prints as the empty string. *)
Definition vecJSON_string (vec : list float32) : string :=
  match json_Marshal vec with
  | Go.Ok s => s
  | Go.Err _ => EmptyString
  end.

Definition nearVectorQueryJSONGraphQLRaw (raw : string) : string :=
  "{" +:+ Go.newline +:+
  Go.dquote +:+ "query" +:+ Go.dquote +:+ ": " +:+
  Go.dquote +:+ raw +:+ Go.dquote +:+ Go.newline +:+
  "}".

Definition nearVectorQueryJSONGraphQL
    (className : string) (vec : list float32) (limit : Z)
    (whereFilter : string) : string :=
  "{" +:+ Go.newline +:+
  Go.dquote +:+ "query" +:+ Go.dquote +:+ ": " +:+
  Go.dquote +:+ "{ Get { " +:+ className +:+
  "(limit: " +:+ Go.fmt_d limit +:+
  ", nearVector: {vector:" +:+ vecJSON_string vec +:+ "}" +:+
  whereFilter +:+ ") { _additional { id } } } }" +:+
  Go.dquote +:+ Go.newline +:+
  "}".

Definition nearVectorQueryJSONRest
    (className : string) (vec : list float32) (limit : Z) : string :=
  "{" +:+ Go.newline +:+
  Go.tab +:+ Go.tab +:+
  Go.dquote +:+ "nearVector" +:+ Go.dquote +:+ ":{" +:+
  Go.dquote +:+ "vector" +:+ Go.dquote +:+ ":" +:+
  vecJSON_string vec +:+ "}," +:+ Go.newline +:+
  Go.tab +:+ Go.tab +:+
  Go.dquote +:+ "limit" +:+ Go.dquote +:+ ":" +:+
  Go.fmt_d limit +:+ Go.newline +:+
  "}".

(** The builders of the earlier revision of the file. *)
Definition old_nearVectorQueryJSONGraphQL
    (className : string) (vec : list float32) (limit : Z) : string :=
  "{" +:+ Go.newline +:+
  Go.dquote +:+ "query" +:+ Go.dquote +:+ ": " +:+
  Go.dquote +:+ "{ Get { " +:+ className +:+
  "(limit: " +:+ Go.fmt_d limit +:+
  ", nearVector: {vector:" +:+ vecJSON_string vec +:+
  "}) { _additional { id } } } }" +:+
  Go.dquote +:+ " " +:+ Go.newline +:+
  "}".

Definition old_nearVectorQueryJSONRest
    (className : string) (vec : list float32) (limit : Z) : string :=
  "{" +:+ Go.newline +:+
  Go.tab +:+ Go.tab +:+
  Go.dquote +:+ "nearVector" +:+ Go.dquote +:+ ":{" +:+
  Go.dquote +:+ "vector" +:+ Go.dquote +:+ ":" +:+
  vecJSON_string vec +:+ "}," +:+ Go.newline +:+
  Go.tab +:+ Go.tab +:+
  Go.dquote +:+ "limit" +:+ Go.dquote +:+ ":" +:+
  Go.fmt_d limit +:+ Go.newline +:+
  "}".

End Builders.

(** The four bytes of one [float32] in memory, on a little-endian host. *)
Definition float32_bytes (f : float32) : list Z :=
  [ Go.to_byte f; Go.to_byte (Z.shiftr f 8);
    Go.to_byte (Z.shiftr f 16); Go.to_byte (Z.shiftr f 24) ].

(** [encodeUnsafe]: the memory of the slice, read as bytes.  [&fs[0]] is
    bounds-checked, so an empty slice panics. *)
Definition encodeUnsafe (fs : list float32) : Go.exec (list Z) :=
  match fs with
  | [] => Go.Panicked "index out of range [0] with length 0"
  | _ :: _ => Go.Done (concat (map float32_bytes fs))
  end.

(** [nearVectorQueryGrpc].  When [proto.Marshal] reports an error the
    function prints it and returns the bytes it got all the same:
    [Proto searchRequest] stands for the bytes [proto.Marshal] returned for
    the request, in full or not, so that two requests that differ need not
    differ in their bytes. *)
Definition nearVectorQueryGrpc
    (className : string) (vec : list float32) (limit : Z) (tenant : string)
  : Go.exec payload :=
  bytes <- encodeUnsafe vec ;;
  let searchRequest :=
    {| Collection := className;
       SearchLimit := Go.to_uint32 limit;
       VectorBytes := bytes;
       Metadata := {| Certainty := false; Distance := false; Uuid := true |};
       SearchTenant := EmptyString |} in
  let searchRequest :=
    if negb (String.eqb tenant EmptyString)
    then {| Collection := Collection searchRequest;
            SearchLimit := SearchLimit searchRequest;
            VectorBytes := VectorBytes searchRequest;
            Metadata := Metadata searchRequest;
            SearchTenant := tenant |}
    else searchRequest in
  Go.Done (Proto searchRequest).

(** The callback of [benchmarkNearVector]; it ignores its argument and
    captures [cfg] and the random source. *)
Definition benchmarkNearVector_callback
    (json_float32 : float32 -> option string) (draw : nat -> float32)
    (cfg : Config) (drawn : nat) (className : string)
  : Go.exec QueryWithNeighbors * nat :=
  if String.eqb (API cfg) "graphql" then
    let '(vec, drawn') := randomVector draw (Dimensions cfg) drawn in
    (Go.Done {| Query := Text (nearVectorQueryJSONGraphQL json_float32
                                 (ClassName cfg) vec (Limit cfg)
                                 (WhereFilter cfg));
                Neighbors := [] |}, drawn')
  else if String.eqb (API cfg) "rest" then
    let '(vec, drawn') := randomVector draw (Dimensions cfg) drawn in
    (Go.Done {| Query := Text (nearVectorQueryJSONRest json_float32
                                 (ClassName cfg) vec (Limit cfg));
                Neighbors := [] |}, drawn')
  else if String.eqb (API cfg) "grpc" then
    let '(vec, drawn') := randomVector draw (Dimensions cfg) drawn in
    (q <- nearVectorQueryGrpc (ClassName cfg) vec (Limit cfg) (Tenant cfg) ;;
     Go.Done {| Query := q; Neighbors := [] |}, drawn')
  else (Go.Done {| Query := NoPayload; Neighbors := [] |}, drawn).

Definition benchmarkNearVector
    (json_float32 : float32 -> option string) (draw : nat -> float32)
    (cfg : Config) : BenchmarkCall :=
  {| call_cfg := cfg;
     call_gen := {| gen_state := nat;
                    gen_init := 0%nat;
                    gen_call := benchmarkNearVector_callback
                                  json_float32 draw cfg |} |}.

(** ** ann_benchmark: the ground-truth generator *)

(** [s[i]] on a slice. *)
Definition slice_at {A} (s : list A) (i : nat) : Go.exec A :=
  match s !! i with
  | Some a => Go.Done a
  | None => Go.Panicked "index out of range"
  end.

(** The callback of [benchmarkANN].  It captures the counter [i], which the
    deferred [i++] advances when the call ends, by return or by panic.  The
    call of [nearVectorQueryGrpc] there gives three arguments and no
    tenant, so the request is the one built without a tenant. *)
Definition benchmarkANN_callback
    (cfg : Config) (queries : list (list float32))
    (neighbors : list (list Z)) (i : nat) (className : string)
  : Go.exec QueryWithNeighbors * nat :=
  (vec <- slice_at queries i ;;
   q <- nearVectorQueryGrpc (ClassName cfg) vec (Limit cfg) EmptyString ;;
   ns <- slice_at neighbors i ;;
   Go.Done {| Query := q; Neighbors := ns |},
   S i).

Definition benchmarkANN
    (cfg : Config) (queries : list (list float32))
    (neighbors : list (list Z)) : BenchmarkCall :=
  let cfg := set_Queries (Z.of_nat (length queries)) cfg in
  {| call_cfg := cfg;
     call_gen := {| gen_state := nat;
                    gen_init := 0%nat;
                    gen_call := benchmarkANN_callback cfg queries neighbors |} |}.

(** ** ann_benchmark: the result records *)

(** A JSON object as encoding/json lays it out: the members in the order of
    the struct fields, each under the name of its [json] tag. *)
Inductive json_value : Type :=
| JString (s : string)
| JInt (n : Z)
| JFloat (f : float64).

Definition json_object : Type := list (string * json_value).

Definition json_keys (o : json_object) : list string := map fst o.

Record ResultsJSONBenchmark : Type := {
  Api : string;
  Ef : Z;
  RJEfConstruction : Z;
  RJMaxConnections : Z;
  RJMean : float64;
  RJQueriesPerSecond : float64;
  RJShards : Z;
  Parallelization : Z;
  RunID : string;
  Dataset : string;
  RJRecall : float64
}.

(** [json.Marshal] of one [ResultsJSONBenchmark], from its struct tags. *)
Definition marshal_ResultsJSONBenchmark (r : ResultsJSONBenchmark)
  : json_object :=
  [ ("api", JString (Api r));
    ("ef", JInt (Ef r));
    ("efConstruction", JInt (RJEfConstruction r));
    ("maxConnections", JInt (RJMaxConnections r));
    ("mean", JFloat (RJMean r));
    ("qps", JFloat (RJQueriesPerSecond r));
    ("shards", JInt (RJShards r));
    ("parallelization", JInt (Parallelization r));
    ("run_id", JString (RunID r));
    ("dataset_file", JString (Dataset r));
    ("recall", JFloat (RJRecall r)) ].

(** ** The call sites of the gRPC builder *)

Module CallSites.














End CallSites.

(** ** The commands, as traces of what they do outside the process *)

Module Cmd.

Inductive event : Type :=
| Print (s : string)
| CreateFile (name : string)
| OpenHdf5 (name : string)
| CreateSchema
| ImportTrain
| LogWaiting (d : Z)
| Sleep (d : Z)
| UpdateEf (ef : Z)
| RunBenchmark (call : BenchmarkCall)
| WriteJSONTo (r : Results)
| WriteTextTo (r : Results)
| Mkdir (name : string)
| WriteFile (name : string) (records : list json_object).

Inductive outcome (A : Type) : Type :=
| Returned (a : A)
| Exited (code : Z)
| Panics (msg : string).
Arguments Returned {A} a.
Arguments Exited {A} code.
Arguments Panics {A} msg.

(** A run: what happened, and how it ended. *)
Definition M (A : Type) : Type := list event * outcome A.

Definition ret {A} (a : A) : M A := ([], Returned a).

Definition bind {A B} (m : M A) (k : A -> M B) : M B :=
  match m with
  | (t, Returned a) => let '(t', o) := k a in (t ++ t', o)
  | (t, Exited c) => (t, Exited c)
  | (t, Panics msg) => (t, Panics msg)
  end.

Definition emit (e : event) : M unit := ([e], Returned tt).
Definition os_Exit {A} (code : Z) : M A := ([], Exited code).
Definition panic {A} (msg : string) : M A := ([], Panics msg).

Definition trace {A} (m : M A) : list event := fst m.
Definition ending {A} (m : M A) : outcome A := snd m.

(** [log.Fatal], [log.Fatalf]: print, then [os.Exit(1)]. *)
Definition log_Fatal {A} (msg : string) : M A :=
  bind (emit (Print msg)) (fun _ => os_Exit 1).

(** Modelled from the spec: [fatal] is a helper of the package that is not
    among the sources.  Configuration errors "fail fast before any worker
    starts; surfaced to the caller as a validation failure, run never
    begins": the helper reports the error and ends the process. *)
Definition fatal {A} (err : string) : M A :=
  bind (emit (Print err)) (fun _ => os_Exit 1).

(** [if err != nil { handler(err) }]. *)
Definition check (err : option string) (handler : string -> M unit)
  : M unit :=
  match err with
  | Some e => handler e
  | None => ret tt
  end.

(** What the calls that leave the package answer in one run. *)
Record World : Type := {
  Validate : Config -> option string;
  os_Create : string -> option string;
  hdf5_OpenFile : string -> option string;
  createSchema_err : option string;
  OpenDataset_train : option string;
  import_err : option string;
  load_neighbors : Go.result (list (list Z));
  load_test : Go.result (list (list float32));
  updateEf_err : Z -> option string;
  benchmark : BenchmarkCall -> Results;
  Seconds : Z -> float64;
  filepath_Base : string -> string;
  time_Now_Unix : Z;
  MarshalIndent_err : option string;
  os_WriteFile : string -> option string
}.

End Cmd.

Declare Scope cmd_scope.
Delimit Scope cmd_scope with cmd.
Notation "x <- m ;; k" := (Cmd.bind m (fun x => k))
  (at level 100, m at next level, right associativity, only parsing)
  : cmd_scope.
Notation "m ;; k" := (Cmd.bind m (fun _ => k))
  (at level 100, right associativity, only parsing) : cmd_scope.

(** [strings.Replace(s, old, new, -1)] for a one-character [old]. *)
Fixpoint replace_char (c : ascii) (new : string) (s : string) : string :=
  match s with
  | EmptyString => EmptyString
  | String a rest =>
      if Ascii.eqb a c then new +:+ replace_char c new rest
      else String a (replace_char c new rest)
  end.

Definition time_Second : Z := 1000000000.

(** [sleepDuration := 5 & time.Second] in [loadANNBenchmarksFile]. *)
Definition sleepDuration : Z := Z.land 5 time_Second.

Definition efCandidates : list Z := [16; 24; 32; 48; 64; 96; 128; 256; 512].

Section Commands.

Variable w : Cmd.World.
Variable json_float32 : float32 -> option string.
Variable draw : nat -> float32.

Local Open Scope cmd_scope.

(** The random-vectors command. *)
Definition randomVectorsCmd (globalConfig : Config) : Cmd.M unit :=
  let cfg := globalConfig in
  let cfg := set_Mode "random-vectors" cfg in
  Cmd.check (Cmd.Validate w cfg)
    (fun err => Cmd.emit (Cmd.Print err) ;; Cmd.os_Exit 1) ;;
  let cfg :=
    if (0 <? String.length (WhereFilter cfg))%nat then
      let filter := ", where: { " +:+ WhereFilter cfg +:+ " }" in
      set_WhereFilter
        (replace_char "034"%char (Go.backslash +:+ Go.dquote) filter) cfg
    else cfg in
  if String.eqb (DB cfg) "weaviate" then
    (if String.eqb (OutputFile cfg) EmptyString then Cmd.ret tt
     else
       Cmd.emit (Cmd.CreateFile (OutputFile cfg)) ;;
       Cmd.check (Cmd.os_Create w (OutputFile cfg)) Cmd.fatal) ;;
    let call := benchmarkNearVector json_float32 draw cfg in
    Cmd.emit (Cmd.RunBenchmark call) ;;
    let result := Cmd.benchmark w call in
    (if String.eqb (OutputFormat cfg) "json"
     then Cmd.emit (Cmd.WriteJSONTo result)
     else if String.eqb (OutputFormat cfg) "text"
     then Cmd.emit (Cmd.WriteTextTo result)
     else Cmd.ret tt) ;;
    (if negb (String.eqb (OutputFile cfg) EmptyString)
     then Cmd.emit (Cmd.Print "results succesfully written")
     else Cmd.ret tt)
  else
    Cmd.emit (Cmd.Print "unrecognized db") ;;
    Cmd.os_Exit 1.

(** [createSchema]: every failure of the client panics. *)
Definition createSchema : Cmd.M unit :=
  Cmd.emit Cmd.CreateSchema ;;
  Cmd.check (Cmd.createSchema_err w) Cmd.panic ;;
  Cmd.emit (Cmd.Print "Created class").

(** [updateEf]. *)
Definition updateEf (ef : Z) : Cmd.M unit :=
  Cmd.emit (Cmd.UpdateEf ef) ;;
  Cmd.check (Cmd.updateEf_err w ef) Cmd.panic.

(** [loadANNBenchmarksFile].  The streaming of the train set through the
    channel and the two writers is one event; a failure inside it ends the
    process through [log.Fatal]. *)
Definition loadANNBenchmarksFile : Cmd.M unit :=
  createSchema ;;
  Cmd.check (Cmd.OpenDataset_train w) Cmd.log_Fatal ;;
  Cmd.emit Cmd.ImportTrain ;;
  Cmd.check (Cmd.import_err w) Cmd.log_Fatal ;;
  Cmd.emit (Cmd.Print "Total import time") ;;
  Cmd.emit (Cmd.LogWaiting sleepDuration) ;;
  Cmd.emit (Cmd.Sleep sleepDuration).

(** The body of the loop over [efCandidates]. *)
Definition ann_round (cfg : Config) (runID : string)
    (testData : list (list float32)) (neighbors : list (list Z)) (ef : Z)
  : Cmd.M ResultsJSONBenchmark :=
  updateEf ef ;;
  let call := benchmarkANN cfg testData neighbors in
  Cmd.emit (Cmd.RunBenchmark call) ;;
  let result := Cmd.benchmark w call in
  Cmd.emit (Cmd.Print "mean, qps, recall, api, ef, count, failed") ;;
  let dataset := Cmd.filepath_Base w (BenchmarkFile cfg) in
  Cmd.ret {| Api := API cfg;
             Ef := ef;
             RJEfConstruction := EfConstruction cfg;
             RJMaxConnections := MaxConnections cfg;
             RJMean := Cmd.Seconds w (Mean result);
             RJQueriesPerSecond := QueriesPerSecond result;
             RJShards := Shards cfg;
             Parallelization := Parallel cfg;
             RunID := runID;
             Dataset := dataset;
             RJRecall := Recall result |}.

Fixpoint ann_rounds (cfg : Config) (runID : string)
    (testData : list (list float32)) (neighbors : list (list Z))
    (efs : list Z) : Cmd.M (list ResultsJSONBenchmark) :=
  match efs with
  | [] => Cmd.ret []
  | ef :: rest =>
      r <- ann_round cfg runID testData neighbors ef ;;
      rs <- ann_rounds cfg runID testData neighbors rest ;;
      Cmd.ret (r :: rs)
  end.

Definition load_or_fatal {A} (r : Go.result A) : Cmd.M A :=
  match r with
  | Go.Ok a => Cmd.ret a
  | Go.Err e => Cmd.log_Fatal e
  end.

(** The ann-benchmark command. *)
Definition annBenchmarkCommand (globalConfig : Config) : Cmd.M unit :=
  let cfg := globalConfig in
  let cfg := set_Mode "ann-benchmark" cfg in
  Cmd.check (Cmd.Validate w cfg) Cmd.fatal ;;
  let runID := Go.fmt_d (Cmd.time_Now_Unix w) in
  Cmd.emit (Cmd.OpenHdf5 (BenchmarkFile cfg)) ;;
  Cmd.check (Cmd.hdf5_OpenFile w (BenchmarkFile cfg)) Cmd.log_Fatal ;;
  (if negb (QueryOnly cfg) then
     Cmd.emit (Cmd.Print "Starting import") ;;
     loadANNBenchmarksFile
   else Cmd.ret tt) ;;
  Cmd.emit (Cmd.Print "Starting querying") ;;
  neighbors <- load_or_fatal (Cmd.load_neighbors w) ;;
  testData <- load_or_fatal (Cmd.load_test w) ;;
  benchmarkResults <- ann_rounds cfg runID testData neighbors efCandidates ;;
  Cmd.check (Cmd.MarshalIndent_err w) Cmd.log_Fatal ;;
  Cmd.emit (Cmd.Mkdir "./results") ;;
  let name := "./results/" +:+ runID +:+ ".json" in
  Cmd.emit (Cmd.WriteFile name
              (map marshal_ResultsJSONBenchmark benchmarkResults)) ;;
  Cmd.check (Cmd.os_WriteFile w name) Cmd.log_Fatal.

End Commands.

(** ** The engine behind [benchmark]

    [benchmark] itself, its worker pool, the recall scorer and the
    aggregation are in a file of the package that is not among the sources.
    This module holds their model, written from the specification. *)

Module Engine.

(** Modelled from the spec: the call of the Request Generator by
    [benchmark], which is not among the sources.  The engine "dispatches a
    fixed number of search requests" and obtains each one from one call of
    the generator; the callback of the sources takes the class name.
    [issued call] lists what the [queryCount] calls return, in order. *)
Definition issued (call : BenchmarkCall) : list (Go.exec QueryWithNeighbors) :=
  invoke_all (call_gen call)
    (replicate (Z.to_nat (Queries (call_cfg call)))
               (ClassName (call_cfg call))).

(** Modelled from the spec: the Recall Scorer, which is not among the
    sources.  "Defined as |returned ∩ expected| / |expected| when
    |expected| > 0; when |expected| == 0 recall is not applicable for that
    query". *)
Definition score (returned expected : gset Z) : option Q :=
  if decide (size expected = 0%nat) then None
  else Some (Z.of_nat (size (returned ∩ expected))
             # Pos.of_nat (size expected)).

(** Modelled from the spec: the QueryOutcome of the data model, "elapsed
    duration, success flag, and (if ground truth was supplied) a recall
    fraction". *)
Record QueryOutcome : Type := {
  elapsed : Z;
  success : bool;
  recall : option Q
}.

Definition Qsum (l : list Q) : Q := foldr Qplus (0 # 1) l.

(** Modelled from the spec: the recall of the Aggregator, which is not
    among the sources: the "mean of per-outcome recall values among
    outcomes that had ground truth; if none had ground truth, recall is
    reported as not-applicable". *)
Definition mean_recall (outcomes : list QueryOutcome) : option Q :=
  match omap recall outcomes with
  | [] => None
  | rs => Some (Qsum rs / inject_Z (Z.of_nat (length rs)))%Q
  end.

(** Modelled from the spec: [failed] of the Aggregator, the "count where
    success flag is false". *)
Definition failed (outcomes : list QueryOutcome) : nat :=
  length (filter (fun o => success o = false) outcomes).

(** Modelled from the spec: the Worker Pool, which is not among the
    sources.  "Exactly [parallelism] concurrent workers sharing a single
    monotonically increasing work counter bounded by [queryCount].  Each
    worker repeatedly claims the next unclaimed index (atomic
    fetch-and-increment semantics), stops claiming once the counter
    exceeds [queryCount]"; for a claimed index it runs the query and
    appends a QueryOutcome to the recorder, failed or not.  A worker is
    idle, busy with the index it claimed, or has exited; a step is one
    atomic action of one worker, and the runs of the pool are the
    interleavings of such steps. *)
Inductive worker : Type :=
| Idle
| Busy (index : nat)
| Exited.

Record pool : Type := {
  counter : nat;
  workers : list worker;
  recorder : list QueryOutcome
}.

Definition start (parallelism : nat) : pool :=
  {| counter := 0; workers := replicate parallelism Idle; recorder := [] |}.

Section Pool.

Variable queryCount : nat.
(** The generate, transmit and score cycle of one index. *)
Variable execute : nat -> QueryOutcome.

Inductive step : pool -> pool -> Prop :=
| step_claim s k :
    workers s !! k = Some Idle ->
    (counter s < queryCount)%nat ->
    step s {| counter := S (counter s);
              workers := <[k := Busy (counter s)]> (workers s);
              recorder := recorder s |}
| step_record s k i :
    workers s !! k = Some (Busy i) ->
    step s {| counter := counter s;
              workers := <[k := Idle]> (workers s);
              recorder := recorder s ++ [execute i] |}
| step_exit s k :
    workers s !! k = Some Idle ->
    (queryCount <= counter s)%nat ->
    step s {| counter := counter s;
              workers := <[k := Exited]> (workers s);
              recorder := recorder s |}.

(** What the pool can reach from its start. *)
Definition reachable (parallelism : nat) (s : pool) : Prop :=
  rtc step (start parallelism) s.

End Pool.

Definition has_exited (x : worker) : bool :=
  match x with
  | Exited => true
  | _ => false
  end.

(** The pool has drained: every worker has exited (the join). *)
Definition drained (s : pool) : bool := forallb has_exited (workers s).

(** The indices the busy workers hold. *)
Fixpoint in_flight (ws : list worker) : list nat :=
  match ws with
  | [] => []
  | Busy i :: rest => i :: in_flight rest
  | _ :: rest => in_flight rest
  end.

(** What every reachable state of the pool satisfies: the counter never
    passes [queryCount], it has reached it as soon as one worker has exited,
    and the indices claimed so far are exactly those recorded together with
    those still held by a busy worker. *)
Definition pool_invariant (queryCount : nat) (execute : nat -> QueryOutcome)
    (parallelism : nat) (s : pool) : Prop :=
  length (workers s) = parallelism /\
  (counter s <= queryCount)%nat /\
  (Exited ∈ workers s -> counter s = queryCount) /\
  map execute (seq 0 (counter s))
  ≡ₚ recorder s ++ map execute (in_flight (workers s)).

End Engine.

(** ** Reading traces, and two sample runs *)

(** The durations slept, in order. *)
Definition sleeps (t : list Cmd.event) : list Z :=
  omap (fun e => match e with Cmd.Sleep d => Some d | _ => None end) t.

(** The configurations [benchmark] was called with, in order. *)
Definition benchmarks (t : list Cmd.event) : list Config :=
  omap (fun e => match e with
                 | Cmd.RunBenchmark call => Some (call_cfg call)
                 | _ => None
                 end) t.

Definition sample_config : Config :=
  {| Mode := EmptyString; Queries := 100; Parallel := 8; Limit := 10;
     Dimensions := 2; WhereFilter := EmptyString; ClassName := "Vector";
     DB := "weaviate"; API := "grpc"; Origin := "localhost:50051";
     OutputFormat := "text"; OutputFile := EmptyString;
     Tenant := EmptyString; BenchmarkFile := "sift.hdf5";
     QueryOnly := false; EfConstruction := 256; MaxConnections := 16;
     Shards := 1; DistanceMetric := "cosine"; BatchSize := 1000 |}.

Definition sample_results : Results :=
  {| Mean := 2000000; QueriesPerSecond := 0; Recall := 0;
     Total := 2; Failed := 0 |}.

(** A run in which every call outside the package succeeds, except that
    [Validate] answers [validation]. *)
Definition sample_world (validation : option string) : Cmd.World :=
  {| Cmd.Validate := fun _ => validation;
     Cmd.os_Create := fun _ => None;
     Cmd.hdf5_OpenFile := fun _ => None;
     Cmd.createSchema_err := None;
     Cmd.OpenDataset_train := None;
     Cmd.import_err := None;
     Cmd.load_neighbors := Go.Ok [[10; 11]; [20; 21]];
     Cmd.load_test := Go.Ok [[1; 2]; [3; 4]];
     Cmd.updateEf_err := fun _ => None;
     Cmd.benchmark := fun _ => sample_results;
     Cmd.Seconds := fun _ => 0;
     Cmd.filepath_Base := fun s => s;
     Cmd.time_Now_Unix := 1700000000;
     Cmd.MarshalIndent_err := None;
     Cmd.os_WriteFile := fun _ => None |}.

Definition sample_record : ResultsJSONBenchmark :=
  {| Api := "grpc"; Ef := 16; RJEfConstruction := 256;
     RJMaxConnections := 16; RJMean := 0; RJQueriesPerSecond := 0;
     RJShards := 1; Parallelization := 8; RunID := "1700000000";
     Dataset := "sift.hdf5"; RJRecall := 0 |}.

(** ** Further definitions: what the remaining functions need *)

(** A [float32] bit pattern: 32 bits. *)
Definition is_bits32 (f : float32) : Prop := 0 <= f < 2 ^ 32.

(** The configuration [randomVectorsCmd] goes on with once validation has
    passed: the mode set, and a where filter wrapped and escaped. *)
Definition randomVectors_cfg (globalConfig : Config) : Config :=
  let cfg := set_Mode "random-vectors" globalConfig in
  if (0 <? String.length (WhereFilter cfg))%nat then
    set_WhereFilter
      (replace_char "034"%char (Go.backslash +:+ Go.dquote)
         (", where: { " +:+ WhereFilter cfg +:+ " }")) cfg
  else cfg.

(** Whether every double quote of [s] comes right after a backslash;
    [after_backslash] tells whether the character before [s] is one. *)
Fixpoint quotes_escaped (after_backslash : bool) (s : string) : bool :=
  match s with
  | EmptyString => true
  | String c rest =>
      (if Ascii.eqb c "034"%char then after_backslash else true)
      && quotes_escaped (Ascii.eqb c "092"%char) rest
  end.

(** The number of double quotes in [s]. *)
Fixpoint count_quotes (s : string) : nat :=
  match s with
  | EmptyString => 0%nat
  | String c rest =>
      ((if Ascii.eqb c "034"%char then 1 else 0) + count_quotes rest)%nat
  end.

(** The files written, in order: name and records. *)
Definition written (t : list Cmd.event)
  : list (string * list json_object) :=
  omap (fun e => match e with
                 | Cmd.WriteFile name records => Some (name, records)
                 | _ => None
                 end) t.

(** The [ef] values the schema was updated to, in order. *)
Definition ef_updates (t : list Cmd.event) : list Z :=
  omap (fun e => match e with Cmd.UpdateEf ef => Some ef | _ => None end) t.

(** The events of the import: schema creation, the streaming of the train
    set, and the pause that follows. *)
Definition is_import_event (e : Cmd.event) : bool :=
  match e with
  | Cmd.CreateSchema | Cmd.ImportTrain | Cmd.LogWaiting _ | Cmd.Sleep _ => true
  | _ => false
  end.

Definition import_events (t : list Cmd.event) : list Cmd.event :=
  List.filter is_import_event t.

(** [sample_config] with the import switched off ([--query]). *)
Definition sample_config_query_only : Config :=
  {| Mode := EmptyString; Queries := 100; Parallel := 8; Limit := 10;
     Dimensions := 2; WhereFilter := EmptyString; ClassName := "Vector";
     DB := "weaviate"; API := "grpc"; Origin := "localhost:50051";
     OutputFormat := "text"; OutputFile := EmptyString;
     Tenant := EmptyString; BenchmarkFile := "sift.hdf5";
     QueryOnly := true; EfConstruction := 256; MaxConnections := 16;
     Shards := 1; DistanceMetric := "cosine"; BatchSize := 1000 |}.

(** [sample_config] with a tenant. *)
Definition sample_config_tenant : Config :=
  {| Mode := EmptyString; Queries := 100; Parallel := 8; Limit := 10;
     Dimensions := 2; WhereFilter := EmptyString; ClassName := "Vector";
     DB := "weaviate"; API := "grpc"; Origin := "localhost:50051";
     OutputFormat := "text"; OutputFile := EmptyString;
     Tenant := "tenantA"; BenchmarkFile := "sift.hdf5";
     QueryOnly := false; EfConstruction := 256; MaxConnections := 16;
     Shards := 1; DistanceMetric := "cosine"; BatchSize := 1000 |}.

(** Whether [api] is one of the APIs [benchmarkNearVector] builds queries
    for. *)
Definition known_API (api : string) : bool :=
  String.eqb api "graphql" || String.eqb api "rest" || String.eqb api "grpc".

(** [sample_config] with [--dimensions 0]. *)
Definition sample_config_no_dimensions : Config :=
  {| Mode := EmptyString; Queries := 100; Parallel := 8; Limit := 10;
     Dimensions := 0; WhereFilter := EmptyString; ClassName := "Vector";
     DB := "weaviate"; API := "grpc"; Origin := "localhost:50051";
     OutputFormat := "text"; OutputFile := EmptyString;
     Tenant := EmptyString; BenchmarkFile := "sift.hdf5";
     QueryOnly := false; EfConstruction := 256; MaxConnections := 16;
     Shards := 1; DistanceMetric := "cosine"; BatchSize := 1000 |}.

(** ** ann_benchmark: writing a batch *)

(** Arithmetic on a Go [int] wraps at 64 bits. *)
Definition to_int (z : Z) : Z := (z + 2 ^ 63) mod 2 ^ 64 - 2 ^ 63.

Record Batch : Type := {
  Vectors : list (list float32);
  Offset : Z
}.

Record BatchObject : Type := {
  ObjectUuid : string;
  ObjectVector : list float32;
  ObjectClassName : string
}.

(** One entry of the reply to a batch: the index of the object and the
    error reported for it, empty when there is none. *)
Record BatchResult : Type := {
  ResultIndex : Z;
  ResultError : string
}.

(** The first loop of [writeChunk]: [objects[i]] for the vectors from index
    [i] on. *)
Fixpoint writeChunk_objects (className : string) (offset : Z) (i : Z)
    (vectors : list (list float32)) : Go.exec (list BatchObject) :=
  match vectors with
  | [] => Go.Done []
  | vector :: rest =>
      Go.bind (uuidFromInt (to_int (i + offset))) (fun uuid =>
      Go.bind (writeChunk_objects className offset (i + 1) rest) (fun objects =>
      Go.Done ({| ObjectUuid := uuid;
                  ObjectVector := vector;
                  ObjectClassName := className |} :: objects)))
  end.

(** The line logged for one entry of the reply. *)
Definition result_line (r : BatchResult) : string :=
  if negb (String.eqb (ResultError r) EmptyString)
  then "Error for index " +:+ Go.fmt_d (ResultIndex r)
       +:+ ": " +:+ ResultError r
  else "Successfully processed object at index " +:+ Go.fmt_d (ResultIndex r).

(** The second loop of [writeChunk]. *)
Fixpoint log_results (results : list BatchResult) : Cmd.M unit :=
  match results with
  | [] => Cmd.ret tt
  | r :: rest =>
      Cmd.bind (Cmd.emit (Cmd.Print (result_line r)))
               (fun _ => log_results rest)
  end.

(** [writeChunk].  [BatchObjects] is what the server answers to the batch
    request within the ten seconds of the context: the reply, or the error
    of the call. *)
Definition writeChunk
    (BatchObjects : list BatchObject -> Go.result (list BatchResult))
    (className : string) (chunk : Batch) : Cmd.M unit :=
  match writeChunk_objects className (Offset chunk) 0 (Vectors chunk) with
  | Go.Panicked msg => Cmd.panic msg
  | Go.Done objects =>
      match BatchObjects objects with
      | Go.Err e => Cmd.log_Fatal ("could not send batch: " +:+ e)
      | Go.Ok results => log_results results
      end
  end.

(** ** ann_benchmark: reading a data set at once *)

(** [s[lo:hi]] on a slice whose capacity is its length, for [int] bounds. *)
Definition slice_range {A} (s : list A) (lo hi : Z) : Go.exec (list A) :=
  if (0 <=? lo) && (lo <=? hi) && (hi <=? Z.of_nat (length s))
  then Go.Done (take (Z.to_nat (hi - lo)) (drop (Z.to_nat lo) s))
  else Go.Panicked "slice bounds out of range".

(** The loop [for i := range chunkData] of the three loaders, from row [i]
    on, for [n] more rows:
    [chunkData[i] = chunkData1D[i*int(dimensions) : (i+1)*int(dimensions)]],
    in the arithmetic of [int]. *)
Fixpoint rows_from {A} (chunkData1D : list A) (dimensions : Z)
    (i n : nat) : Go.exec (list (list A)) :=
  match n with
  | O => Go.Done []
  | S n' =>
      Go.bind (slice_range chunkData1D
                 (to_int (Z.of_nat i * to_int dimensions))
                 (to_int ((Z.of_nat i + 1) * to_int dimensions)))
        (fun row =>
      Go.bind (rows_from chunkData1D dimensions (S i) n') (fun rest =>
      Go.Done (row :: rest)))
  end.

(** The largest allocation the Go runtime accepts, [maxAlloc] of
    runtime/malloc.go, on the 64-bit platforms with 48 address bits. *)
Definition maxAlloc : Z := 2 ^ 48.

(** How [make([]T, len)] ends. *)
Inductive made : Type :=
| Made
| MakePanic
| MakeOutOfMemory.

(** [make([]T, len)] for an unsigned [len] and elements of [elem_size]
    bytes, as [makeslice] of the runtime does it: the length is read as an
    [int]; a negative one, or one whose bytes pass [maxAlloc], panics; no
    bytes at all need no memory; otherwise [served] tells whether the
    allocator has the memory, the process dying when it has not. *)
Definition makeslice (served : bool) (elem_size len : Z) : made :=
  if (to_int len <? 0) || (maxAlloc <? elem_size * len) then MakePanic
  else if (elem_size * len =? 0) || served then Made
  else MakeOutOfMemory.

(** What the allocator answers in one run: whether it has the memory for
    the flat buffer [chunkData1D] and for the rows [chunkData], asked for
    in the round of the streaming loop that starts at a given row (row 0
    for the loaders without a loop). *)
Record Heap : Type := {
  serves_chunkData1D : Z -> bool;
  serves_chunkData : Z -> bool
}.

(** [make] inside a command: the panic, or the end of the process on
    "fatal error: runtime: out of memory" with status 2. *)
Definition make_or_die (served : bool) (elem_size len : Z) : Cmd.M unit :=
  match makeslice served elem_size len with
  | Made => Cmd.ret tt
  | MakePanic => Cmd.panic "makeslice: len out of range"
  | MakeOutOfMemory =>
      Cmd.bind (Cmd.emit (Cmd.Print "fatal error: runtime: out of memory"))
               (fun _ => Cmd.os_Exit 2)
  end.

(** What the HDF5 library answers for one data set: whether it opens, the
    extents of its data space (unsigned), and what each position of the
    buffer holds once [Read] has returned. *)
Record Hdf5Dataset (A : Type) : Type := {
  OpenDataset_err : option string;
  SimpleExtentDims : list Z;
  element : nat -> A
}.
Arguments OpenDataset_err {A} _.
Arguments SimpleExtentDims {A} _.
Arguments element {A} _ _.

(** [loadHdf5Float32] and [loadHdf5Neighbors], which differ in the element
    type only, [float32] or [int32], four bytes either way; a slice header
    takes 24 bytes.  The error that [dataset.Read] may return is not looked
    at. *)
Definition loadHdf5 {A} (heap : Heap) (dataset : Hdf5Dataset A)
  : Cmd.M (list (list A)) :=
  match OpenDataset_err dataset with
  | Some e => Cmd.log_Fatal e
  | None =>
      match SimpleExtentDims dataset with
      | [rows; dimensions] =>
          let len := Go.to_uint64 (rows * dimensions) in
          Cmd.bind (make_or_die (serves_chunkData1D heap 0) 4 len) (fun _ =>
          let chunkData1D := map (element dataset) (seq 0 (Z.to_nat len)) in
          Cmd.bind (make_or_die (serves_chunkData heap 0) 24 rows) (fun _ =>
          match rows_from chunkData1D dimensions 0 (Z.to_nat rows) with
          | Go.Done chunkData => Cmd.ret chunkData
          | Go.Panicked msg => Cmd.panic msg
          end))
      | _ => Cmd.log_Fatal "expected 2 dimensions"
      end
  end.

Definition loadHdf5Float32 (heap : Heap) (dataset : Hdf5Dataset float32)
  : Cmd.M (list (list float32)) := loadHdf5 heap dataset.

Definition loadHdf5Neighbors (heap : Heap) (dataset : Hdf5Dataset Z)
  : Cmd.M (list (list Z)) := loadHdf5 heap dataset.

(** Row [r] of a flat buffer of rows of [dimensions] elements. *)
Definition row_of {A} (chunkData1D : list A) (dimensions r : nat) : list A :=
  take dimensions (drop (r * dimensions) chunkData1D).

(** A heap that serves every request. *)
Definition sample_heap : Heap :=
  {| serves_chunkData1D := fun _ => true; serves_chunkData := fun _ => true |}.

(** ** ann_benchmark: streaming the train set *)

(** What [loadHdf5Streaming] does for the rest of the process: the shape of
    the data set and the progress lines it logs, and the batches it sends
    on the channel. *)
Inductive stream_event : Type :=
| DatasetShape (rows dimensions : Z)
| Sent (chunk : Batch)
| Progress (imported rows : Z).

(** How the loop stands when the fuel given to it is used up or before:
    it has finished, the process was ended by [log.Fatal], [make] or a
    slice expression panicked, the process ran out of memory, or the loop
    is still running. *)
Inductive stream_end : Type :=
| Finished
| Fatal (msg : string)
| SlicePanic (msg : string)
| OutOfMemory
| StillRunning.

(** What the HDF5 library answers for the train set: the extents of its
    data space (unsigned), whether the memory space can be created, and,
    for the hyperslab that starts at a given row, whether it can be
    selected and what [ReadSubset] stores at each position of the buffer. *)
Record TrainSet : Type := {
  train_dims : list Z;
  CreateSimpleDataspace_err : option string;
  SelectHyperslab_err : Z -> option string;
  ReadSubset : Z -> Go.result (nat -> float32)
}.

(** The end of one round on a [make] that did not succeed. *)
Definition make_failed (m : made) : stream_end :=
  match m with
  | MakeOutOfMemory => OutOfMemory
  | _ => SlicePanic "makeslice: len out of range"
  end.

(** One batch: the rows [chunkData] made and cut out of the buffer. *)
Definition stream_batch (served : bool) (dimensions batchSize : Z)
    (chunkData1D : list float32) (i : Z) : stream_end + Batch :=
  match makeslice served 24 batchSize with
  | Made =>
      match rows_from chunkData1D dimensions 0 (Z.to_nat batchSize) with
      | Go.Done chunkData =>
          inr {| Vectors := chunkData; Offset := to_int i |}
      | Go.Panicked msg => inl (SlicePanic msg)
      end
  | failed => inl (make_failed failed)
  end.

(** The loop [for i := uint(0); i < rows; i += batchSize], from [i] on, for
    at most [fuel] iterations. *)
Fixpoint streaming_loop (heap : Heap) (train : TrainSet)
    (rows dimensions batchSize : Z) (fuel : nat) (i : Z)
  : list stream_event * stream_end :=
  match fuel with
  | O => ([], StillRunning)
  | S fuel' =>
      if i <? rows then
        match SelectHyperslab_err train i with
        | Some e => ([], Fatal e)
        | None =>
            let len := Go.to_uint64 (batchSize * dimensions) in
            match makeslice (serves_chunkData1D heap i) 4 len with
            | Made =>
                match ReadSubset train i with
                | Go.Err e => ([], Fatal e)
                | Go.Ok content =>
                    let chunkData1D := map content (seq 0 (Z.to_nat len)) in
                    match stream_batch (serves_chunkData heap i) dimensions
                            batchSize chunkData1D i with
                    | inl ending => ([], ending)
                    | inr chunk =>
                        let progress :=
                          if Go.to_uint64 (i + batchSize) mod 10000 =? 0
                          then [Progress (Go.to_uint64 (i + batchSize)) rows]
                          else [] in
                        let '(events, ending) :=
                          streaming_loop heap train rows dimensions batchSize
                            fuel' (Go.to_uint64 (i + batchSize)) in
                        (progress ++ Sent chunk :: events, ending)
                    end
                end
            | failed => ([], make_failed failed)
            end
        end
      else ([], Finished)
  end.

(** [loadHdf5Streaming], for a batch size flag [BatchSize]. *)
Definition loadHdf5Streaming (heap : Heap) (train : TrainSet) (BatchSize : Z)
    (fuel : nat) : list stream_event * stream_end :=
  match train_dims train with
  | [rows; dimensions] =>
      let batchSize := Go.to_uint64 BatchSize in
      match CreateSimpleDataspace_err train with
      | Some e => ([DatasetShape rows dimensions], Fatal e)
      | None =>
          let '(events, ending) :=
            streaming_loop heap train rows dimensions batchSize fuel 0 in
          (DatasetShape rows dimensions :: events, ending)
      end
  | _ => ([], Fatal "expected 2 dimensions")
  end.

(** The batches sent, in order. *)
Definition sent (events : list stream_event) : list Batch :=
  omap (fun e => match e with Sent chunk => Some chunk | _ => None end) events.

(** The batch the loop sends for the hyperslab at row [i], when the read
    delivers [content]. *)
Definition batch_at (dimensions batchSize : Z) (content : nat -> float32)
    (i : Z) : Batch :=
  {| Vectors :=
       map (row_of (map content
                      (seq 0 (Z.to_nat (batchSize * dimensions))))
                   (Z.to_nat dimensions))
           (seq 0 (Z.to_nat batchSize));
     Offset := i |}.

(** A train set all of whose hyperslabs can be selected and read. *)
Definition readable (train : TrainSet) (content : Z -> nat -> float32)
  : Prop :=
  CreateSimpleDataspace_err train = None /\
  forall i : Z,
    SelectHyperslab_err train i = None /\
    ReadSubset train i = Go.Ok (content i).

(** How the hyperslab at row [i] fails to arrive: it cannot be selected,
    or it cannot be read. *)
Definition read_fails (train : TrainSet) (i : Z) (e : string) : Prop :=
  SelectHyperslab_err train i = Some e \/
  (SelectHyperslab_err train i = None /\ ReadSubset train i = Go.Err e).

(** A train set of 5 rows of 2 numbers, row [r] holding [10 r] and
    [10 r + 1]; reading past the end delivers the numbers that would follow. *)
Definition sample_train : TrainSet :=
  {| train_dims := [5; 2];
     CreateSimpleDataspace_err := None;
     SelectHyperslab_err := fun _ => None;
     ReadSubset := fun i =>
       Go.Ok (fun p => 10 * (i + Z.of_nat (p / 2)) + Z.of_nat (p mod 2)) |}.

Definition sample_train_content (i : Z) (p : nat) : float32 :=
  10 * (i + Z.of_nat (p / 2)) + Z.of_nat (p mod 2).

(** [sample_train], except that the library refuses the hyperslab that
    reaches past the last row. *)
Definition sample_train_strict : TrainSet :=
  {| train_dims := [5; 2];
     CreateSimpleDataspace_err := None;
     SelectHyperslab_err := fun i =>
       if 5 <? i + 2 then Some "hyperslab out of bounds" else None;
     ReadSubset := fun i =>
       Go.Ok (fun p => 10 * (i + Z.of_nat (p / 2)) + Z.of_nat (p mod 2)) |}.

(** ** Metrics: waiting for the tombstones to go *)

(** What one round of [waitTombstonesEmpty] meets: the GET fails, the
    status is not 200, the body cannot be read, the text cannot be parsed,
    or the metrics arrive, the family "vector_index_tombstones" being
    absent from them or present with the gauge values of its samples. *)
Inductive poll : Type :=
| GetFailed (err : string)
| BadStatus (code : Z)
| ReadFailed (err : string)
| ParseFailed (err : string)
| MetricsRead (tombstones : option (list float64)).

(** How the wait stands: it returned nil, it returned an error, or it is
    still polling. *)
Inductive wait_end : Type :=
| ReturnedNil
| ReturnedError (err : string)
| StillWaiting.

Section Tombstones.

(** Whether the floating-point sum of some gauge values differs from 0. *)
Variable sum_differs_from_zero : list float64 -> bool.

(** [totalSum != 0]: the sum starts at 0 and only the samples of the family
    are added to it. *)
Definition tombstones_left (p : poll) : bool :=
  match p with
  | MetricsRead (Some (v :: vs)) => sum_differs_from_zero (v :: vs)
  | _ => false
  end.

(** The [for] loop, from the k-th request on, for at most [fuel] rounds. *)
Fixpoint wait_loop (polls : nat -> poll) (fuel k : nat)
  : list Cmd.event * wait_end :=
  match fuel with
  | O => ([], StillWaiting)
  | S fuel' =>
      match polls k with
      | GetFailed err => ([], ReturnedError err)
      | BadStatus code =>
          ([], ReturnedError ("HTTP request failed with status code "
                              +:+ Go.fmt_d code))
      | ReadFailed err => ([], ReturnedError err)
      | ParseFailed err => ([], ReturnedError err)
      | MetricsRead tombstones =>
          if tombstones_left (MetricsRead tombstones) then
            let '(events, ending) := wait_loop polls fuel' (S k) in
            (Cmd.Sleep (time_Second * 10) :: events, ending)
          else ([], ReturnedNil)
      end
  end.

(** [waitTombstonesEmpty]; [polls k] is what the k-th request to the
    metrics address meets. *)
Definition waitTombstonesEmpty (polls : nat -> poll) (fuel : nat)
  : list Cmd.event * wait_end :=
  let '(events, ending) := wait_loop polls fuel 0 in
  (Cmd.Print "Waiting to allow for tombstone cleanup"
     :: events
     ++ match ending with
        | ReturnedNil => [Cmd.Print "Tombstones empty"]
        | _ => []
        end,
   ending).

(** What the wait returns when round [k] is the one that ends it. *)
Definition wait_result (p : poll) : wait_end :=
  match p with
  | GetFailed err => ReturnedError err
  | BadStatus code =>
      ReturnedError ("HTTP request failed with status code " +:+ Go.fmt_d code)
  | ReadFailed err => ReturnedError err
  | ParseFailed err => ReturnedError err
  | MetricsRead _ => ReturnedNil
  end.

End Tombstones.

(** ** Flag defaults *)

(** A flag registered with [IntVarP], [StringVarP], [BoolVarP] and the like
    stores its default in the field of [globalConfig] it is bound to, at
    registration.  [globalConfig] is kept here field by field, under the
    names of the fields. *)
Inductive flag_value : Type :=
| FInt (n : Z)
| FString (s : string)
| FBool (b : bool).

Definition register (flags : list (string * flag_value))
    (globalConfig : gmap string flag_value) : gmap string flag_value :=
  foldl (fun g flag => <[fst flag := snd flag]> g) globalConfig flags.

(** The fields and defaults of [initRandomVectors], in its order. *)
Definition randomVectors_flags : list (string * flag_value) :=
  [ ("Queries", FInt 100); ("Parallel", FInt 8); ("Limit", FInt 10);
    ("Dimensions", FInt 768); ("WhereFilter", FString EmptyString);
    ("ClassName", FString EmptyString); ("DB", FString "weaviate");
    ("API", FString "graphql"); ("Origin", FString "http://localhost:8080");
    ("OutputFormat", FString "text"); ("OutputFile", FString EmptyString) ].

(** The fields and defaults of [initAnnBenchmark], in its order. *)
Definition annBenchmark_flags : list (string * flag_value) :=
  [ ("Labels", FString EmptyString); ("BenchmarkFile", FString EmptyString);
    ("ClassName", FString "Vector"); ("DistanceMetric", FString EmptyString);
    ("QueryOnly", FBool false); ("EfConstruction", FInt 256);
    ("MaxConnections", FInt 16); ("Shards", FInt 1);
    ("BatchSize", FInt 1000); ("Parallel", FInt 8);
    ("API", FString "grpc"); ("Origin", FString "localhost:50051");
    ("OutputFormat", FString "text"); ("OutputFile", FString EmptyString) ].

Definition initRandomVectors (globalConfig : gmap string flag_value)
  : gmap string flag_value :=
  register randomVectors_flags globalConfig.

Definition initAnnBenchmark (globalConfig : gmap string flag_value)
  : gmap string flag_value :=
  register annBenchmark_flags globalConfig.

(** The last default given to [field] in [flags]. *)
Fixpoint last_default (field : string) (flags : list (string * flag_value))
  : option flag_value :=
  match flags with
  | [] => None
  | (k, v) :: rest =>
      match last_default field rest with
      | Some v' => Some v'
      | None => if String.eqb k field then Some v else None
      end
  end.

(** ** Metrics: the heap gauges *)

Record Memstats : Type := {
  HeapAllocBytes : float64;
  HeapInuseBytes : float64;
  HeapSysBytes : float64
}.

(** What the request of [readMemoryMetrics] meets; the metrics that arrive
    are a map from the name of a family to its samples, the first one and
    those after it, a sample being given by the value of its gauge (0 when
    it is not a gauge).  The parser returns no family without a sample. *)
Inductive scrape : Type :=
| ScrapeGetFailed (err : string)
| ScrapeBadStatus (code : Z)
| ScrapeReadFailed (err : string)
| ScrapeParseFailed (err : string)
| Scraped (metrics : gmap string (float64 * list float64)).

(** [if metric, ok := metrics[name]; ok { field = metric.Metric[0]... }],
    the field being 0 before. *)
Definition first_gauge (metrics : gmap string (float64 * list float64))
    (name : string) : float64 :=
  match metrics !! name with
  | None => 0
  | Some (v, _) => v
  end.

(** [readMemoryMetrics]: the statistics, or the error returned. *)
Definition readMemoryMetrics (s : scrape) : Go.result Memstats :=
  match s with
  | ScrapeGetFailed err => Go.Err err
  | ScrapeBadStatus code =>
      Go.Err ("HTTP request failed with status code " +:+ Go.fmt_d code)
  | ScrapeReadFailed err => Go.Err err
  | ScrapeParseFailed err => Go.Err err
  | Scraped metrics =>
      Go.Ok {| HeapAllocBytes :=
                 first_gauge metrics "go_memstats_heap_alloc_bytes";
               HeapInuseBytes :=
                 first_gauge metrics "go_memstats_heap_inuse_bytes";
               HeapSysBytes :=
                 first_gauge metrics "go_memstats_heap_sys_bytes" |}
  end.

(* ===================================================================== *)
(** * Part II: theorems                                                   *)
(* ===================================================================== *)

Example uuidFromInt_7 :
  uuidFromInt 7 = Go.Done "00000000-0000-0000-0000-000000000007".
Proof. reflexivity. Qed.

Example int32FromUUID_ff :
  int32FromUUID "00000000-0000-0000-0000-0000000000ff" = Go.Done 255.
Proof. reflexivity. Qed.

(** ** Identifiers: bytes, hexadecimal text and back *)

(** Settle every integer comparison of the goal from the context. *)
Ltac decide_cmp :=
  repeat match goal with
         | |- context [?a <=? ?b] =>
             first [ rewrite (proj2 (Z.leb_le a b)) by lia
                   | rewrite (proj2 (Z.leb_gt a b)) by lia ]
         | |- context [?a <? ?b] =>
             first [ rewrite (proj2 (Z.ltb_lt a b)) by lia
                   | rewrite (proj2 (Z.ltb_ge a b)) by lia ]
         end.

Section Bytes.

Lemma to_byte_is_byte v : is_byte (Go.to_byte v).
Proof.
  unfold is_byte, Go.to_byte. change 255 with (Z.ones 8).
  rewrite Z.land_ones by lia. apply Z.mod_pos_bound. lia.
Qed.

(** Bit [n] of the byte taken at offset [k] and put back there. *)
Lemma testbit_byte_at v k n :
  0 <= k -> 0 <= n ->
  Z.testbit (Z.shiftl (Go.to_byte (Z.shiftr v k)) k) n
  = (k <=? n) && (n <? k + 8) && Z.testbit v n.
Proof.
  intros Hk Hn. unfold Go.to_byte. rewrite Z.shiftl_spec by lia.
  destruct (Z.leb_spec k n) as [Hle | Hlt].
  - rewrite Z.land_spec, Z.shiftr_spec by lia.
    change 255 with (Z.ones 8). rewrite Z.testbit_ones_nonneg by lia.
    replace (n - k + k) with n by lia.
    destruct (Z.ltb_spec (n - k) 8), (Z.ltb_spec n (k + 8)); try lia;
      cbn; now rewrite ?andb_true_r, ?andb_false_r.
  - now rewrite Z.testbit_neg_r by lia.
Qed.

Lemma high_bits_clear v n :
  0 <= v < 2 ^ 64 -> 64 <= n -> Z.testbit v n = false.
Proof.
  intros Hv Hn. rewrite <- (Z.mod_small v (2 ^ 64)) by lia.
  apply Z.mod_pow2_bits_high. lia.
Qed.

Lemma Uint64_PutUint64 v :
  0 <= v < 2 ^ 64 ->
  Binary.BigEndian_Uint64 (Binary.BigEndian_PutUint64 v) = Go.Done v.
Proof.
  intros Hv. unfold Binary.BigEndian_PutUint64, Binary.BigEndian_Uint64.
  f_equal. apply Z.bits_inj'. intros n Hn.
  rewrite <- (Z.shiftl_0_r (Go.to_byte v)).
  rewrite <- (Z.shiftr_0_r v) at 1.
  rewrite !Z.lor_spec, !testbit_byte_at by lia.
  destruct (Z.testbit v n) eqn:Hb.
  - assert (n < 64).
    { destruct (Z.lt_ge_cases n 64) as [|Hge]; [assumption|].
      rewrite (high_bits_clear v n Hv Hge) in Hb. discriminate. }
    assert (Hcase : 0 <= n < 8 \/ 8 <= n < 16 \/ 16 <= n < 24 \/
                    24 <= n < 32 \/ 32 <= n < 40 \/ 40 <= n < 48 \/
                    48 <= n < 56 \/ 56 <= n < 64) by lia.
    repeat destruct Hcase as [Hcase | Hcase]; decide_cmp; reflexivity.
  - now rewrite !andb_false_r.
Qed.

(** Every byte survives the two hexadecimal characters it is printed as. *)
Lemma xtob_hexchar b :
  is_byte b ->
  UUID.xtob (UUID.hexchar (Z.shiftr b 4)) (UUID.hexchar (Z.land b 15))
  = (b, true).
Proof.
  intros Hb.
  assert (Hall : forallb (fun n : nat =>
            let z := Z.of_nat n in
            let '(v, ok) := UUID.xtob (UUID.hexchar (Z.shiftr z 4))
                                      (UUID.hexchar (Z.land z 15)) in
            (v =? z) && ok) (seq 0 256) = true) by (vm_compute; reflexivity).
  rewrite forallb_forall in Hall.
  specialize (Hall (Z.to_nat b)).
  rewrite Z2Nat.id in Hall by (unfold is_byte in Hb; lia).
  cbv zeta in Hall.
  destruct (UUID.xtob _ _) as [v ok].
  assert (Hin : In (Z.to_nat b) (seq 0 256)).
  { apply in_seq. unfold is_byte in Hb. lia. }
  apply Hall in Hin. apply andb_true_iff in Hin as [Hv Hok].
  apply Z.eqb_eq in Hv. now subst.
Qed.

Lemma Parse_String (u : UUID.UUID) :
  length u = 16%nat -> Forall is_byte u ->
  UUID.Parse (UUID.String_ u) = Go.Ok u.
Proof.
  intros Hlen Hall.
  do 16 (destruct u as [|? u]; [discriminate Hlen|]).
  destruct u; [|discriminate Hlen].
  repeat match goal with
         | H : Forall _ (_ :: _) |- _ => apply Forall_cons_1 in H as [? H]
         end.
  cbv -[UUID.xtob UUID.hexchar Z.shiftr Z.land].
  rewrite !xtob_hexchar by assumption. reflexivity.
Qed.

End Bytes.

(** C9. For every integer [val] with [0 <= val < 2^31], turning it into a
    UUID string with [uuidFromInt] and reading that string back with
    [int32FromUUID] gives [val] again: neither call panics, and the value is
    carried big-endian by the last eight bytes of the UUID. *)
Theorem int32FromUUID_uuidFromInt (val : Z) :
  0 <= val < 2 ^ 31 ->
  exists s : string,
    uuidFromInt val = Go.Done s /\
    int32FromUUID s = Go.Done val /\
    UUID.Parse s
    = Go.Ok (replicate 8 0 ++ Binary.BigEndian_PutUint64 val).
Proof.
  intros Hval.
  assert (Hu : Go.to_uint64 val = val).
  { unfold Go.to_uint64. apply Z.mod_small. lia. }
  assert (Hparse : UUID.Parse (UUID.String_
            (replicate 8 0 ++ Binary.BigEndian_PutUint64 val))
          = Go.Ok (replicate 8 0 ++ Binary.BigEndian_PutUint64 val)).
  { apply Parse_String; [reflexivity|].
    unfold Binary.BigEndian_PutUint64. cbn [replicate app].
    repeat (apply Forall_cons; split);
      try apply to_byte_is_byte; try (unfold is_byte; lia).
    apply Forall_nil. exact I. }
  exists (UUID.String_ (replicate 8 0 ++ Binary.BigEndian_PutUint64 val)).
  split; [|split].
  - unfold uuidFromInt. rewrite Hu. reflexivity.
  - unfold int32FromUUID. rewrite Hparse.
    change (drop 8 (replicate 8 0 ++ Binary.BigEndian_PutUint64 val))
      with (Binary.BigEndian_PutUint64 val).
    rewrite Uint64_PutUint64 by lia. cbn [Go.bind].
    f_equal. unfold Go.to_int32.
    rewrite Z.mod_small by lia. lia.
  - exact Hparse.
Qed.

Lemma int32FromUUID_uuidFromInt_witness :
  exists s : string,
    uuidFromInt 305419896 = Go.Done s /\
    int32FromUUID s = Go.Done 305419896 /\
    UUID.Parse s
    = Go.Ok (replicate 8 0 ++ Binary.BigEndian_PutUint64 305419896).
Proof. apply (int32FromUUID_uuidFromInt 305419896). lia. Defined.

(** ** The pause after the import *)

Example loadANNBenchmarksFile_sample :
  loadANNBenchmarksFile (sample_world None)
  = ([Cmd.CreateSchema; Cmd.Print "Created class"; Cmd.ImportTrain;
      Cmd.Print "Total import time"; Cmd.LogWaiting 0; Cmd.Sleep 0],
     Cmd.Returned tt).
Proof. reflexivity. Qed.


(** ** The bytes of a vector *)

Lemma float32_bytes_decode (f : float32) :
  is_bits32 f ->
  Z.lor (Go.to_byte f)
    (Z.lor (Z.shiftl (Go.to_byte (Z.shiftr f 8)) 8)
       (Z.lor (Z.shiftl (Go.to_byte (Z.shiftr f 16)) 16)
              (Z.shiftl (Go.to_byte (Z.shiftr f 24)) 24)))
  = f.
Proof.
  intros Hf. apply Z.bits_inj'. intros n Hn.
  rewrite <- (Z.shiftl_0_r (Go.to_byte f)).
  rewrite <- (Z.shiftr_0_r f) at 1.
  rewrite !Z.lor_spec, !testbit_byte_at by lia.
  destruct (Z.testbit f n) eqn:Hb.
  - assert (n < 32).
    { destruct (Z.lt_ge_cases n 32) as [|Hge]; [assumption|].
      rewrite <- (Z.mod_small f (2 ^ 32)) in Hb by exact Hf.
      rewrite Z.mod_pow2_bits_high in Hb by lia. discriminate. }
    assert (Hcase : 0 <= n < 8 \/ 8 <= n < 16 \/ 16 <= n < 24 \/
                    24 <= n < 32) by lia.
    repeat destruct Hcase as [Hcase | Hcase]; decide_cmp; reflexivity.
  - now rewrite !andb_false_r.
Qed.

Lemma float32_bytes_inj (f g : float32) :
  is_bits32 f -> is_bits32 g ->
  float32_bytes f = float32_bytes g -> f = g.
Proof.
  intros Hf Hg Heq. unfold float32_bytes in Heq.
  rewrite <- (float32_bytes_decode f Hf), <- (float32_bytes_decode g Hg).
  assert (H4 : forall a b c d a' b' c' d' : Z,
             [a; b; c; d] = [a'; b'; c'; d'] ->
             a = a' /\ b = b' /\ c = c' /\ d = d')
    by (intros; repeat split; congruence).
  apply H4 in Heq as (-> & -> & -> & ->). reflexivity.
Qed.

Lemma concat_float32_bytes_inj (v1 : list float32) :
  forall v2 : list float32,
    Forall is_bits32 v1 -> Forall is_bits32 v2 ->
    concat (map float32_bytes v1) = concat (map float32_bytes v2) ->
    v1 = v2.
Proof.
  induction v1 as [|f v1 IH]; intros [|g v2] H1 H2 Heq;
    try reflexivity; try discriminate Heq.
  apply Forall_cons_1 in H1 as [Hf H1]. apply Forall_cons_1 in H2 as [Hg H2].
  cbn [map concat] in Heq.
  change (float32_bytes f ++ concat (map float32_bytes v1))
    with (Go.to_byte f :: Go.to_byte (Z.shiftr f 8)
          :: Go.to_byte (Z.shiftr f 16) :: Go.to_byte (Z.shiftr f 24)
          :: concat (map float32_bytes v1)) in Heq.
  change (float32_bytes g ++ concat (map float32_bytes v2))
    with (Go.to_byte g :: Go.to_byte (Z.shiftr g 8)
          :: Go.to_byte (Z.shiftr g 16) :: Go.to_byte (Z.shiftr g 24)
          :: concat (map float32_bytes v2)) in Heq.
  assert (H5 : forall (a b c d a' b' c' d' : Z) (r r' : list Z),
             a :: b :: c :: d :: r = a' :: b' :: c' :: d' :: r' ->
             [a; b; c; d] = [a'; b'; c'; d'] /\ r = r')
    by (intros; split; congruence).
  apply H5 in Heq as [Hhead Htail].
  f_equal; [now apply float32_bytes_inj | now apply IH].
Qed.

(** The request [nearVectorQueryGrpc] hands to [proto.Marshal] for a vector
    that is not empty: the tenant field holds the tenant given, set or
    not. *)
Lemma nearVectorQueryGrpc_request
    (className : string) (vec : list float32) (limit : Z) (tenant : string) :
  vec <> [] ->
  nearVectorQueryGrpc className vec limit tenant
  = Go.Done (Proto {| Collection := className;
                      SearchLimit := Go.to_uint32 limit;
                      VectorBytes := concat (map float32_bytes vec);
                      Metadata := {| Certainty := false; Distance := false;
                                     Uuid := true |};
                      SearchTenant := tenant |}).
Proof.
  intros Hvec. destruct vec as [|f vec]; [congruence|].
  unfold nearVectorQueryGrpc. cbn [encodeUnsafe Go.bind].
  destruct (String.eqb tenant EmptyString) eqn:E; cbn [negb]; [|reflexivity].
  apply String.eqb_eq in E. now subst tenant.
Qed.

(** ** The two call sites of the gRPC builder *)



Example call_sites_tenant_sample :
  fst (gen_call (call_gen (benchmarkNearVector (fun _ => None)
                             (fun n => Z.of_nat (S n)) sample_config_tenant))
         0%nat "Vector")
  = Go.Done {| Query := Proto {| Collection := "Vector"; SearchLimit := 10;
                                 VectorBytes := [1; 0; 0; 0; 2; 0; 0; 0];
                                 Metadata := {| Certainty := false;
                                                Distance := false;
                                                Uuid := true |};
                                 SearchTenant := "tenantA" |};
               Neighbors := [] |} /\
  fst (gen_call (call_gen (benchmarkANN sample_config_tenant [[1; 2]] [[7]]))
         0%nat "Vector")
  = Go.Done {| Query := Proto {| Collection := "Vector"; SearchLimit := 10;
                                 VectorBytes := [1; 0; 0; 0; 2; 0; 0; 0];
                                 Metadata := {| Certainty := false;
                                                Distance := false;
                                                Uuid := true |};
                                 SearchTenant := EmptyString |};
               Neighbors := [7] |}.
Proof. split; reflexivity. Qed.

(** ** The records of the ann-benchmark results file *)

(** C3, as the code has it.  Every record of the structured output of the
    ann-benchmark command has exactly the members api, ef, efConstruction,
    maxConnections, mean, qps, shards, parallelization, run_id,
    dataset_file and recall, in this order and whatever the values: the
    names are the same for all runs.  Of the names the specification lists
    only recall is among them. *)
Theorem ResultsJSONBenchmark_fields (r : ResultsJSONBenchmark) :
  json_keys (marshal_ResultsJSONBenchmark r)
  = ["api"; "ef"; "efConstruction"; "maxConnections"; "mean"; "qps";
     "shards"; "parallelization"; "run_id"; "dataset_file"; "recall"] /\
  (forall r' : ResultsJSONBenchmark,
     json_keys (marshal_ResultsJSONBenchmark r')
     = json_keys (marshal_ResultsJSONBenchmark r)) /\
  filter (fun k => bool_decide (k ∈ json_keys (marshal_ResultsJSONBenchmark r)))
         ["queries_per_second"; "mean_latency_seconds"; "recall";
          "total"; "failed"]
  = ["recall"].
Proof. split; [reflexivity|]. split; [intros r'; reflexivity|]. reflexivity. Qed.

(** The names the specification asks for are not all there. *)
Lemma ResultsJSONBenchmark_lacks_spec_names :
  ~ (forall k, In k ["queries_per_second"; "mean_latency_seconds"; "recall";
                     "total"; "failed"] ->
               In k (json_keys (marshal_ResultsJSONBenchmark sample_record))).
Proof.
  intros H. specialize (H "queries_per_second" (or_introl eq_refl)).
  cbn in H. repeat (destruct H as [H | H]; [discriminate H|]). exact H.
Qed.

(** ** The query builders, before and after the where filter *)

Lemma append_assoc (a b c : string) : (a +:+ b) +:+ c = a +:+ (b +:+ c).
Proof.
  induction a as [|x a IH]; [reflexivity|].
  change (String x ((a +:+ b) +:+ c) = String x (a +:+ (b +:+ c))).
  now rewrite IH.
Qed.

Example nearVectorQueryJSONRest_sample :
  nearVectorQueryJSONRest (fun _ => Some "0.5") "Vector" [1; 2] 10
  = "{" +:+ Go.newline +:+ Go.tab +:+ Go.tab +:+
    Go.dquote +:+ "nearVector" +:+ Go.dquote +:+ ":{" +:+
    Go.dquote +:+ "vector" +:+ Go.dquote +:+ ":[0.5,0.5]}," +:+ Go.newline +:+
    Go.tab +:+ Go.tab +:+ Go.dquote +:+ "limit" +:+ Go.dquote +:+ ":10" +:+
    Go.newline +:+ "}".
Proof. vm_compute. reflexivity. Qed.

(** C8, as the code has it.  For every class name, vector and limit the two
    versions of [nearVectorQueryJSONRest] give the same bytes.  The new
    [nearVectorQueryJSONGraphQL] with an empty where filter and the old
    one give the same bytes up to the closing line: the old payload has one
    more byte, a space between the quote that closes the query and the line
    feed, so the two are never equal byte for byte. *)
Theorem query_builders_old_and_new
    (json_float32 : float32 -> option string)
    (className : string) (vec : list float32) (limit : Z) :
  nearVectorQueryJSONRest json_float32 className vec limit
  = old_nearVectorQueryJSONRest json_float32 className vec limit /\
  (exists head : string,
     nearVectorQueryJSONGraphQL json_float32 className vec limit EmptyString
     = head +:+ Go.newline +:+ "}" /\
     old_nearVectorQueryJSONGraphQL json_float32 className vec limit
     = head +:+ " " +:+ Go.newline +:+ "}") /\
  nearVectorQueryJSONGraphQL json_float32 className vec limit EmptyString
  <> old_nearVectorQueryJSONGraphQL json_float32 className vec limit.
Proof.
  set (head :=
    "{" +:+ Go.newline +:+
    Go.dquote +:+ "query" +:+ Go.dquote +:+ ": " +:+
    Go.dquote +:+ "{ Get { " +:+ className +:+
    "(limit: " +:+ Go.fmt_d limit +:+
    ", nearVector: {vector:" +:+ vecJSON_string json_float32 vec +:+
    "}) { _additional { id } } } }" +:+ Go.dquote).
  assert (Hnew : nearVectorQueryJSONGraphQL json_float32 className vec limit
                   EmptyString = head +:+ Go.newline +:+ "}").
  { unfold head. rewrite !append_assoc. reflexivity. }
  assert (Hold : old_nearVectorQueryJSONGraphQL json_float32 className vec limit
                 = head +:+ " " +:+ Go.newline +:+ "}").
  { unfold head. rewrite !append_assoc. reflexivity. }
  split; [reflexivity|]. split; [exists head; split; assumption|].
  rewrite Hnew, Hold. intros Heq.
  apply String.app_inj in Heq. discriminate Heq.
Qed.

(** The new GraphQL builder without a filter against the old one. *)
Lemma nearVectorQueryJSONGraphQL_differs :
  nearVectorQueryJSONGraphQL (fun _ => None) "Vector" [] 10 EmptyString
  <> old_nearVectorQueryJSONGraphQL (fun _ => None) "Vector" [] 10.
Proof. vm_compute. discriminate. Qed.

(** ** The ground-truth generator *)

Section GroundTruth.

Variable cfg : Config.
Variable queries : list (list float32).
Variable neighbors : list (list Z).

Let call := benchmarkANN cfg queries neighbors.

(** The callback does not read its argument. *)
Lemma benchmarkANN_callback_ignores_className (i : nat) (a b : string) :
  benchmarkANN_callback (call_cfg call) queries neighbors i a
  = benchmarkANN_callback (call_cfg call) queries neighbors i b.
Proof. reflexivity. Qed.

(** Calls made from counter [i] on: the k-th of them sees [i + k]. *)
Lemma invoke_from_benchmarkANN (args : list string) :
  forall (i k : nat),
    (k < length args)%nat ->
    invoke_from (call_gen call) i args !! k
    = Some (fst (benchmarkANN_callback (call_cfg call) queries neighbors
                   (i + k) EmptyString)).
Proof.
  induction args as [|a args IH]; intros i k Hk; cbn in Hk; [lia|].
  destruct k as [|k].
  - cbn. now rewrite Nat.add_0_r.
  - cbn [invoke_from]. cbn [call benchmarkANN call_gen gen_call].
    unfold benchmarkANN_callback at 1. cbn [lookup list_lookup].
    change (invoke_from (call_gen call) (S i) args !! k = 
            Some (fst (benchmarkANN_callback (call_cfg call) queries neighbors
                         (i + S k) EmptyString))).
    rewrite IH by lia. now replace (S i + k)%nat with (i + S k)%nat by lia.
Qed.

Lemma issued_length : length (Engine.issued call) = length queries.
Proof.
  unfold Engine.issued, invoke_all.
  assert (Hlen : forall args (st : gen_state (call_gen call)),
             length (invoke_from (call_gen call) st args) = length args).
  { induction args as [|a args IH]; intros st; [reflexivity|].
    cbn [invoke_from]. destruct (gen_call (call_gen call) st a) as [r st'].
    cbn. now rewrite IH. }
  rewrite Hlen, length_replicate. cbn. apply Nat2Z.id.
Qed.

Lemma issued_lookup (i : nat) :
  (i < length queries)%nat ->
  Engine.issued call !! i
  = Some (fst (benchmarkANN_callback (call_cfg call) queries neighbors
                 i EmptyString)).
Proof.
  intros Hi. unfold Engine.issued, invoke_all.
  rewrite invoke_from_benchmarkANN; [reflexivity|].
  rewrite length_replicate. cbn. now rewrite Nat2Z.id.
Qed.

End GroundTruth.

Example benchmarkANN_two_calls :
  invoke_all (call_gen (benchmarkANN sample_config [[1]; [2]] [[10]; [20]]))
             ["Vector"; "Vector"]
  = [ Go.Done {| Query := Proto {| Collection := "Vector"; SearchLimit := 10;
                                   VectorBytes := [1; 0; 0; 0];
                                   Metadata := {| Certainty := false;
                                                  Distance := false;
                                                  Uuid := true |};
                                   SearchTenant := EmptyString |};
                 Neighbors := [10] |};
      Go.Done {| Query := Proto {| Collection := "Vector"; SearchLimit := 10;
                                   VectorBytes := [2; 0; 0; 0];
                                   Metadata := {| Certainty := false;
                                                  Distance := false;
                                                  Uuid := true |};
                                   SearchTenant := EmptyString |};
                 Neighbors := [20] |} ].
Proof. reflexivity. Qed.

(** C4, as the code has it.  The callback that [benchmarkANN] hands to the
    engine takes the class name, which it does not read, and counts its own
    calls: the k-th call made (from zero) returns the descriptor of index k,
    made of the search request for [queries[k]] and of [neighbors[k]],
    whatever the arguments of this and of the earlier calls.  What a call
    returns is therefore fixed by the number of calls made before it, not
    by its argument: another call, the k'-th, returns the descriptor of
    index k' whatever its argument, which differs from that of index k when
    the two rows of neighbours differ, and which is made of a different
    search request when the two query vectors differ. *)
Theorem benchmarkANN_callback_counts_calls
    (cfg : Config) (queries : list (list float32)) (neighbors : list (list Z))
    (args : list string) (k : nat) (vec : list float32) (ns : list Z) :
  (k < length args)%nat ->
  queries !! k = Some vec ->
  vec <> [] ->
  neighbors !! k = Some ns ->
  let call := benchmarkANN cfg queries neighbors in
  let request (v : list float32) : SearchRequest :=
    {| Collection := ClassName cfg;
       SearchLimit := Go.to_uint32 (Limit cfg);
       VectorBytes := concat (map float32_bytes v);
       Metadata := {| Certainty := false; Distance := false; Uuid := true |};
       SearchTenant := EmptyString |} in
  invoke_all (call_gen call) args !! k
  = Some (Go.Done {| Query := Proto (request vec); Neighbors := ns |}) /\
  (forall (i : nat) (a b : string),
      gen_call (call_gen call) i a = gen_call (call_gen call) i b) /\
  (forall (i : nat) (a : string), snd (gen_call (call_gen call) i a) = S i) /\
  (forall (k' : nat) (vec' : list float32) (ns' : list Z),
      (k' < length args)%nat ->
      queries !! k' = Some vec' ->
      vec' <> [] ->
      neighbors !! k' = Some ns' ->
      invoke_all (call_gen call) args !! k'
      = Some (Go.Done {| Query := Proto (request vec'); Neighbors := ns' |}) /\
      (ns <> ns' ->
       invoke_all (call_gen call) args !! k
       <> invoke_all (call_gen call) args !! k') /\
      (Forall is_bits32 vec -> Forall is_bits32 vec' -> vec <> vec' ->
       request vec <> request vec')).
Proof.
  intros Hk Hq Hvec Hn call request.
  assert (Hcall : forall (j : nat) (v : list float32) (l : list Z),
             (j < length args)%nat ->
             queries !! j = Some v -> v <> [] -> neighbors !! j = Some l ->
             invoke_all (call_gen call) args !! j
             = Some (Go.Done {| Query := Proto (request v);
                                Neighbors := l |})).
  { intros j v l Hj Hqj Hv Hnj. unfold invoke_all.
    etransitivity;
      [exact (invoke_from_benchmarkANN cfg queries neighbors args 0 j Hj)|].
    f_equal. unfold benchmarkANN_callback, slice_at.
    cbn [Nat.add fst]. rewrite Hqj, Hnj. cbn [Go.bind].
    cbn [benchmarkANN call_cfg ClassName Limit set_Queries].
    rewrite (nearVectorQueryGrpc_request _ _ _ _ Hv). reflexivity. }
  split; [exact (Hcall k vec ns Hk Hq Hvec Hn)|].
  split; [intros i a b; reflexivity|].
  split; [intros i a; reflexivity|].
  intros k' vec' ns' Hk' Hq' Hvec' Hn'.
  split; [exact (Hcall k' vec' ns' Hk' Hq' Hvec' Hn')|]. split.
  - intros Hne Heq.
    rewrite (Hcall k vec ns Hk Hq Hvec Hn) in Heq.
    rewrite (Hcall k' vec' ns' Hk' Hq' Hvec' Hn') in Heq.
    apply Hne.
    exact (f_equal (fun r => match r with
                             | Some (Go.Done d) => Neighbors d
                             | _ => []
                             end) Heq).
  - intros Hb Hb' Hne Heq. apply Hne.
    apply concat_float32_bytes_inj; [exact Hb|exact Hb'|].
    exact (f_equal VectorBytes Heq).
Qed.

Lemma benchmarkANN_callback_counts_calls_witness :
  let call := benchmarkANN sample_config [[1]; [2]] [[10]; [20]] in
  let args := ["Vector"; "Vector"] in
  let request (v : list float32) : SearchRequest :=
    {| Collection := "Vector";
       SearchLimit := 10;
       VectorBytes := concat (map float32_bytes v);
       Metadata := {| Certainty := false; Distance := false; Uuid := true |};
       SearchTenant := EmptyString |} in
  invoke_all (call_gen call) args !! 1%nat
  = Some (Go.Done {| Query := Proto (request [2]); Neighbors := [20] |}) /\
  (forall (i : nat) (a b : string),
      gen_call (call_gen call) i a = gen_call (call_gen call) i b) /\
  (forall (i : nat) (a : string), snd (gen_call (call_gen call) i a) = S i) /\
  (forall (k' : nat) (vec' : list float32) (ns' : list Z),
      (k' < length args)%nat ->
      [[1]; [2]] !! k' = Some vec' ->
      vec' <> [] ->
      [[10]; [20]] !! k' = Some ns' ->
      invoke_all (call_gen call) args !! k'
      = Some (Go.Done {| Query := Proto (request vec'); Neighbors := ns' |}) /\
      ([20] <> ns' ->
       invoke_all (call_gen call) args !! 1%nat
       <> invoke_all (call_gen call) args !! k') /\
      (Forall is_bits32 [2] -> Forall is_bits32 vec' -> [2] <> vec' ->
       request [2] <> request vec')).
Proof.
  apply (benchmarkANN_callback_counts_calls
           sample_config [[1]; [2]] [[10]; [20]] ["Vector"; "Vector"] 1
           [2] [20]).
  - cbn. lia.
  - reflexivity.
  - discriminate.
  - reflexivity.
Defined.

(** Two calls with the same argument, two different descriptors. *)
Lemma benchmarkANN_callback_same_argument_differs :
  exists d0 d1 : QueryWithNeighbors,
    invoke_all (call_gen (benchmarkANN sample_config [[1]; [2]] [[10]; [20]]))
               ["Vector"; "Vector"]
    = [Go.Done d0; Go.Done d1] /\
    d0 <> d1.
Proof.
  eexists. eexists. split; [reflexivity|]. intros H. discriminate H.
Qed.

(** C5, as the code has it.  In the ground-truth mode the queries and the
    neighbours are aligned by index: for every [i] below [len(queries)]
    such that [queries[i]] is not empty and [neighbors] has an entry at
    [i], the i-th call of the generator returns the descriptor whose
    payload is the search request for [queries[i]] and whose neighbours are
    [neighbors[i]].  The run asks for [len(queries)] queries and the
    generator is called that many times. *)
Theorem benchmarkANN_index_aligned
    (cfg : Config) (queries : list (list float32)) (neighbors : list (list Z))
    (i : nat) (vec : list float32) (ns : list Z) :
  queries !! i = Some vec ->
  vec <> [] ->
  neighbors !! i = Some ns ->
  let call := benchmarkANN cfg queries neighbors in
  Engine.issued call !! i
  = Some (Go.Done
            {| Query := Proto {| Collection := ClassName cfg;
                                 SearchLimit := Go.to_uint32 (Limit cfg);
                                 VectorBytes := concat (map float32_bytes vec);
                                 Metadata := {| Certainty := false;
                                                Distance := false;
                                                Uuid := true |};
                                 SearchTenant := EmptyString |};
               Neighbors := ns |}) /\
  length (Engine.issued call) = length queries /\
  Queries (call_cfg call) = Z.of_nat (length queries).
Proof.
  intros Hq Hvec Hn call. split; [|split].
  - unfold call. rewrite issued_lookup by (eapply lookup_lt_Some; eassumption).
    f_equal. unfold benchmarkANN_callback, slice_at. rewrite Hq, Hn.
    destruct vec as [|f vec']; [congruence|]. reflexivity.
  - apply issued_length.
  - reflexivity.
Qed.

Lemma benchmarkANN_index_aligned_witness :
  let call := benchmarkANN sample_config [[1; 2]; [3; 4]] [[10; 11]; [20; 21]] in
  Engine.issued call !! 1%nat
  = Some (Go.Done
            {| Query := Proto {| Collection := "Vector";
                                 SearchLimit := 10;
                                 VectorBytes := [3; 0; 0; 0; 4; 0; 0; 0];
                                 Metadata := {| Certainty := false;
                                                Distance := false;
                                                Uuid := true |};
                                 SearchTenant := EmptyString |};
               Neighbors := [20; 21] |}) /\
  length (Engine.issued call) = 2%nat /\
  Queries (call_cfg call) = 2.
Proof.
  apply (benchmarkANN_index_aligned
           sample_config [[1; 2]; [3; 4]] [[10; 11]; [20; 21]] 1 [3; 4] [20; 21]).
  - reflexivity.
  - discriminate.
  - reflexivity.
Defined.

(** An empty query vector, or a missing row of neighbours, and the call
    panics instead of returning a descriptor. *)
Lemma benchmarkANN_callback_panics :
  Engine.issued (benchmarkANN sample_config [[]] [[7]])
  = [Go.Panicked "index out of range [0] with length 0"] /\
  Engine.issued (benchmarkANN sample_config [[1]] [])
  = [Go.Panicked "index out of range"].
Proof. split; reflexivity. Qed.

(** ** Validation comes first *)

Example randomVectorsCmd_sample :
  randomVectorsCmd (sample_world None) (fun _ => None) (fun _ => 0)
                   sample_config
  = ([Cmd.RunBenchmark
        (benchmarkNearVector (fun _ => None) (fun _ => 0)
           (set_Mode "random-vectors" sample_config));
      Cmd.WriteTextTo sample_results],
     Cmd.Returned tt).
Proof. reflexivity. Qed.

Example annBenchmarkCommand_rejected :
  annBenchmarkCommand (sample_world (Some "no vectors file")) sample_config
  = ([Cmd.Print "no vectors file"], Cmd.Exited 1).
Proof. reflexivity. Qed.

(** C6. Configuration errors are rejected before anything else happens:
    when [Validate] returns an error, the random-vectors command and the
    ann-benchmark command each print it and end the process with status 1,
    and [benchmark] is never called; a run in which [benchmark] is called is
    a run in which [Validate] returned nil. *)
Theorem validation_fails_fast
    (w : Cmd.World) (json_float32 : float32 -> option string)
    (draw : nat -> float32) (globalConfig : Config) :
  (forall err : string,
      Cmd.Validate w (set_Mode "random-vectors" globalConfig) = Some err ->
      randomVectorsCmd w json_float32 draw globalConfig
      = ([Cmd.Print err], Cmd.Exited 1)) /\
  (forall err : string,
      Cmd.Validate w (set_Mode "ann-benchmark" globalConfig) = Some err ->
      annBenchmarkCommand w globalConfig
      = ([Cmd.Print err], Cmd.Exited 1)) /\
  (benchmarks (Cmd.trace (randomVectorsCmd w json_float32 draw globalConfig))
   <> [] ->
   Cmd.Validate w (set_Mode "random-vectors" globalConfig) = None) /\
  (benchmarks (Cmd.trace (annBenchmarkCommand w globalConfig)) <> [] ->
   Cmd.Validate w (set_Mode "ann-benchmark" globalConfig) = None).
Proof.
  assert (Hrv : forall err,
             Cmd.Validate w (set_Mode "random-vectors" globalConfig) = Some err ->
             randomVectorsCmd w json_float32 draw globalConfig
             = ([Cmd.Print err], Cmd.Exited 1)).
  { intros err Herr. unfold randomVectorsCmd. rewrite Herr. reflexivity. }
  assert (Hann : forall err,
             Cmd.Validate w (set_Mode "ann-benchmark" globalConfig) = Some err ->
             annBenchmarkCommand w globalConfig
             = ([Cmd.Print err], Cmd.Exited 1)).
  { intros err Herr. unfold annBenchmarkCommand. rewrite Herr. reflexivity. }
  repeat split; try assumption.
  - intros Hrun.
    destruct (Cmd.Validate w (set_Mode "random-vectors" globalConfig))
      as [err|] eqn:Hv; [|reflexivity].
    rewrite (Hrv err eq_refl) in Hrun. now contradict Hrun.
  - intros Hrun.
    destruct (Cmd.Validate w (set_Mode "ann-benchmark" globalConfig))
      as [err|] eqn:Hv; [|reflexivity].
    rewrite (Hann err eq_refl) in Hrun. now contradict Hrun.
Qed.

Lemma validation_fails_fast_witness :
  randomVectorsCmd (sample_world (Some "invalid")) (fun _ => None)
                   (fun _ => 0) sample_config
  = ([Cmd.Print "invalid"], Cmd.Exited 1) /\
  annBenchmarkCommand (sample_world (Some "invalid")) sample_config
  = ([Cmd.Print "invalid"], Cmd.Exited 1) /\
  Cmd.Validate (sample_world None) (set_Mode "random-vectors" sample_config)
  = None /\
  Cmd.Validate (sample_world None) (set_Mode "ann-benchmark" sample_config)
  = None.
Proof.
  pose proof (validation_fails_fast (sample_world (Some "invalid"))
                (fun _ => None) (fun _ => 0) sample_config) as Hbad.
  pose proof (validation_fails_fast (sample_world None)
                (fun _ => None) (fun _ => 0) sample_config) as Hok.
  destruct Hbad as (Hrv & Hann & _ & _).
  destruct Hok as (_ & _ & Hrv' & Hann').
  split; [apply Hrv; reflexivity|].
  split; [apply Hann; reflexivity|].
  split; [apply Hrv'; vm_compute; discriminate|].
  apply Hann'; vm_compute; discriminate.
Defined.

(** ** The worker pool *)

Section PoolInvariant.

Import Engine.

Variable queryCount : nat.
Variable execute : nat -> QueryOutcome.
Variable parallelism : nat.

Lemma in_flight_claim (ws : list worker) (k i : nat) :
  ws !! k = Some Idle ->
  in_flight (<[k := Busy i]> ws) ≡ₚ i :: in_flight ws.
Proof.
  revert k. induction ws as [|x ws IH]; intros [|k] Hk; try discriminate Hk.
  - cbn in Hk. injection Hk as ->. reflexivity.
  - cbn in Hk. cbn [list_insert insert in_flight].
    destruct x; cbn [in_flight]; rewrite (IH k Hk); [reflexivity| |reflexivity].
    apply perm_swap.
Qed.

Lemma in_flight_record (ws : list worker) (k i : nat) :
  ws !! k = Some (Busy i) ->
  in_flight ws ≡ₚ i :: in_flight (<[k := Idle]> ws).
Proof.
  revert k. induction ws as [|x ws IH]; intros [|k] Hk; try discriminate Hk.
  - cbn in Hk. injection Hk as ->. reflexivity.
  - cbn in Hk. cbn [list_insert insert in_flight].
    destruct x; cbn [in_flight]; rewrite (IH k Hk); [reflexivity| |reflexivity].
    apply perm_swap.
Qed.

Lemma in_flight_exit (ws : list worker) (k : nat) :
  ws !! k = Some Idle ->
  in_flight (<[k := Exited]> ws) = in_flight ws.
Proof.
  revert k. induction ws as [|x ws IH]; intros [|k] Hk; try discriminate Hk.
  - cbn in Hk. injection Hk as ->. reflexivity.
  - cbn in Hk. cbn [list_insert insert in_flight].
    destruct x; cbn [in_flight];
      first [exact (IH k Hk) | f_equal; exact (IH k Hk)].
Qed.

Lemma exited_after_insert (ws : list worker) (k : nat) (x : worker) :
  x <> Exited -> Exited ∈ <[k := x]> ws -> Exited ∈ ws.
Proof.
  intros Hx. revert k. induction ws as [|y ws IH]; intros k Hin.
  - exact Hin.
  - destruct k as [|k]; cbn in Hin; apply elem_of_cons in Hin as [Heq | Hin].
    + congruence.
    + now right.
    + subst y. now left.
    + right. now apply (IH k).
Qed.

Lemma in_flight_replicate_Idle (n : nat) : in_flight (replicate n Idle) = [].
Proof. induction n as [|n IH]; [reflexivity|exact IH]. Qed.

Lemma pool_invariant_start :
  pool_invariant queryCount execute parallelism (start parallelism).
Proof.
  unfold pool_invariant, start. cbn. repeat split.
  - apply length_replicate.
  - lia.
  - intros Hin. apply elem_of_replicate in Hin as [Heq _]. discriminate Heq.
  - now rewrite in_flight_replicate_Idle.
Qed.

Lemma pool_invariant_step (s s' : pool) :
  step queryCount execute s s' ->
  pool_invariant queryCount execute parallelism s ->
  pool_invariant queryCount execute parallelism s'.
Proof.
  intros Hstep (Hlen & Hle & Hex & Hperm).
  destruct Hstep as [s k Hk Hlt | s k i Hk | s k Hk Hge];
    unfold pool_invariant; cbn [counter workers recorder].
  - repeat split.
    + now rewrite length_insert.
    + lia.
    + intros Hin. apply exited_after_insert in Hin; [|discriminate].
      apply Hex in Hin. lia.
    + rewrite seq_S, map_app, Hperm, (in_flight_claim _ _ _ Hk). cbn.
      rewrite <- app_assoc. apply Permutation_app_head.
      symmetry. apply Permutation_cons_append.
  - repeat split.
    + now rewrite length_insert.
    + exact Hle.
    + intros Hin. apply exited_after_insert in Hin; [|discriminate].
      now apply Hex.
    + rewrite Hperm, (in_flight_record _ _ _ Hk). cbn.
      rewrite <- app_assoc. reflexivity.
  - repeat split.
    + now rewrite length_insert.
    + exact Hle.
    + intros _. lia.
    + now rewrite (in_flight_exit _ _ Hk).
Qed.

Lemma pool_invariant_reachable (s : pool) :
  reachable queryCount execute parallelism s ->
  pool_invariant queryCount execute parallelism s.
Proof.
  unfold reachable. revert s.
  apply (rtc_ind_r (pool_invariant queryCount execute parallelism)).
  - apply pool_invariant_start.
  - intros s1 s2 _ Hstep IH. now apply (pool_invariant_step s1 s2).
Qed.

Lemma drained_in_flight (ws : list worker) :
  forallb has_exited ws = true -> in_flight ws = [].
Proof.
  induction ws as [|x ws IH]; [reflexivity|].
  cbn. destruct x; cbn; try discriminate. exact IH.
Qed.

Lemma drained_has_exited (ws : list worker) :
  (1 <= length ws)%nat -> forallb has_exited ws = true -> Exited ∈ ws.
Proof.
  destruct ws as [|x ws]; cbn; [lia|]. intros _.
  destruct x; cbn; try discriminate. intros _. now left.
Qed.

(** Safety: a drained pool has recorded the outcome of every index. *)
Lemma drained_recorder (s : pool) :
  (1 <= parallelism)%nat ->
  reachable queryCount execute parallelism s ->
  drained s = true ->
  recorder s ≡ₚ map execute (seq 0 queryCount).
Proof.
  intros HP Hrun Hdr.
  destruct (pool_invariant_reachable s Hrun) as (Hlen & _ & Hex & Hperm).
  unfold drained in Hdr.
  rewrite (drained_in_flight _ Hdr), app_nil_r in Hperm.
  assert (Hne : (1 <= length (workers s))%nat) by lia.
  rewrite <- (Hex (drained_has_exited (workers s) Hne Hdr)).
  now symmetry.
Qed.

(** Liveness, first half: worker 0 alone can take every remaining index. *)
Lemma worker0_runs (rest : list worker) (m : nat) :
  forall (c : nat) (rec : list QueryOutcome),
    (c + m = queryCount)%nat ->
    rtc (step queryCount execute)
        {| counter := c; workers := Idle :: rest; recorder := rec |}
        {| counter := queryCount; workers := Idle :: rest;
           recorder := rec ++ map execute (seq c m) |}.
Proof.
  induction m as [|m IH]; intros c rec Hc.
  - replace c with queryCount by lia. cbn. rewrite app_nil_r. apply rtc_refl.
  - eapply rtc_l.
    { apply (step_claim queryCount execute
               {| counter := c; workers := Idle :: rest; recorder := rec |} 0);
        cbn; [reflexivity|lia]. }
    eapply rtc_l.
    { apply (step_record queryCount execute
               {| counter := S c; workers := Busy c :: rest; recorder := rec |}
               0 c). reflexivity. }
    cbn. replace (rec ++ execute c :: map execute (seq (S c) m))
      with ((rec ++ [execute c]) ++ map execute (seq (S c) m))
      by now rewrite <- app_assoc.
    apply IH. lia.
Qed.

(** Liveness, second half: once the counter is at [queryCount], the idle
    workers exit one after the other. *)
Lemma workers_exit (rec : list QueryOutcome) (todo : nat) :
  forall done : list worker,
    rtc (step queryCount execute)
        {| counter := queryCount; workers := done ++ replicate todo Idle;
           recorder := rec |}
        {| counter := queryCount; workers := done ++ replicate todo Exited;
           recorder := rec |}.
Proof.
  induction todo as [|todo IH]; intros done; [apply rtc_refl|].
  eapply rtc_l.
  { apply (step_exit queryCount execute
             {| counter := queryCount;
                workers := done ++ replicate (S todo) Idle;
                recorder := rec |} (length done)); cbn.
    - now apply list_lookup_middle.
    - lia. }
  cbn. replace (length done) with (length done + 0)%nat by lia.
  rewrite insert_app_r. cbn.
  rewrite !(cons_middle _ done), !app_assoc. apply (IH (done ++ [Exited])).
Qed.

Lemma pool_drains :
  (1 <= parallelism)%nat ->
  exists s : pool,
    reachable queryCount execute parallelism s /\ drained s = true.
Proof.
  intros HP.
  exists {| counter := queryCount; workers := replicate parallelism Exited;
            recorder := map execute (seq 0 queryCount) |}.
  split.
  - unfold reachable, start. destruct parallelism as [|p]; [lia|].
    eapply rtc_trans.
    + apply (worker0_runs (replicate p Idle) queryCount 0 []). lia.
    + apply (workers_exit _ (S p) []).
  - unfold drained. cbn. clear HP.
    induction parallelism as [|p IH]; [reflexivity|exact IH].
Qed.

End PoolInvariant.

Lemma failed_map_execute (execute : nat -> Engine.QueryOutcome) (l : list nat) :
  Engine.failed (map execute l)
  = length (filter (fun i => Engine.success (execute i) = false) l).
Proof.
  unfold Engine.failed. induction l as [|i l IH]; [reflexivity|].
  cbn [map]. rewrite !filter_cons.
  destruct (decide (Engine.success (execute i) = false)); cbn; now rewrite IH.
Qed.

(** C2. For every run with [queryCount = N] and [parallelism = P >= 1] the
    pool does drain, and whenever it has drained the recorder holds exactly
    N outcomes: the outcomes of the indices 0 .. N-1, each once, in some
    order.  Failed outcomes are among them like the others, so the number
    of failures recorded is the number of indices whose query failed. *)
Theorem pool_records_every_query
    (queryCount parallelism : nat) (execute : nat -> Engine.QueryOutcome) :
  (1 <= parallelism)%nat ->
  (exists s : Engine.pool,
      Engine.reachable queryCount execute parallelism s /\
      Engine.drained s = true) /\
  (forall s : Engine.pool,
      Engine.reachable queryCount execute parallelism s ->
      Engine.drained s = true ->
      length (Engine.recorder s) = queryCount /\
      Engine.recorder s ≡ₚ map execute (seq 0 queryCount) /\
      Engine.failed (Engine.recorder s)
      = length (filter (fun i => Engine.success (execute i) = false)
                       (seq 0 queryCount))).
Proof.
  intros HP. split; [now apply pool_drains|].
  intros s Hrun Hdr.
  pose proof (drained_recorder queryCount execute parallelism s HP Hrun Hdr)
    as Hperm.
  split; [|split].
  - rewrite Hperm, length_map. apply length_seq.
  - exact Hperm.
  - rewrite <- failed_map_execute. unfold Engine.failed. now rewrite Hperm.
Qed.

Lemma pool_records_every_query_witness :
  let execute := fun i : nat =>
    {| Engine.elapsed := 5; Engine.success := Nat.even i;
       Engine.recall := None |} in
  (exists s : Engine.pool,
      Engine.reachable 3 execute 2 s /\ Engine.drained s = true) /\
  (forall s : Engine.pool,
      Engine.reachable 3 execute 2 s ->
      Engine.drained s = true ->
      length (Engine.recorder s) = 3%nat /\
      Engine.recorder s ≡ₚ map execute (seq 0 3) /\
      Engine.failed (Engine.recorder s)
      = length (filter (fun i => Engine.success (execute i) = false)
                       (seq 0 3))).
Proof.
  intros execute. apply (pool_records_every_query 3 2 execute). lia.
Defined.

(** ** Recall *)



Example score_no_ground_truth : Engine.score {[1; 2; 3]} ∅ = None.
Proof. vm_compute. reflexivity. Qed.

(** Ten queries with ground truth {0,1,2}: five answered {0,1}, five
    answered {9}; the mean recall is a third. *)
Example mean_recall_end_to_end :
  let outcome := fun returned : gset Z =>
    {| Engine.elapsed := 1; Engine.success := true;
       Engine.recall := Engine.score returned {[0; 1; 2]} |} in
  exists q : Q,
    Engine.mean_recall (replicate 5 (outcome {[0; 1]})
                        ++ replicate 5 (outcome {[9]})) = Some q /\
    (q == 1 # 3)%Q.
Proof. eexists. split; [vm_compute; reflexivity|reflexivity]. Qed.






(* ===================================================================== *)
(** * Part III: further properties of the code                            *)
(* ===================================================================== *)

(** ** Identifiers beyond the int32 range *)

Lemma uuidFromInt_unfold (val : Z) :
  uuidFromInt val
  = Go.Done (UUID.String_
               (replicate 8 0 ++ Binary.BigEndian_PutUint64 (Go.to_uint64 val))).
Proof. reflexivity. Qed.

Lemma Parse_String_PutUint64 (v : Z) :
  UUID.Parse (UUID.String_ (replicate 8 0 ++ Binary.BigEndian_PutUint64 v))
  = Go.Ok (replicate 8 0 ++ Binary.BigEndian_PutUint64 v).
Proof.
  apply Parse_String; [reflexivity|].
  unfold Binary.BigEndian_PutUint64. cbn [replicate app].
  repeat (apply Forall_cons; split);
    try apply to_byte_is_byte; try (unfold is_byte; lia).
  apply Forall_nil. exact I.
Qed.

Lemma to_uint64_range (val : Z) : 0 <= Go.to_uint64 val < 2 ^ 64.
Proof. unfold Go.to_uint64. apply Z.mod_pos_bound. lia. Qed.

Lemma to_int32_to_uint64 (val : Z) :
  Go.to_int32 (Go.to_uint64 val) = Go.to_int32 val.
Proof.
  unfold Go.to_int32, Go.to_uint64. f_equal.
  rewrite Zplus_mod, (Z.mod_mod_divide val (2 ^ 64) (2 ^ 32))
    by (exists (2 ^ 32); reflexivity).
  now rewrite <- Zplus_mod.
Qed.

Lemma int32FromUUID_String_PutUint64 (v : Z) :
  0 <= v < 2 ^ 64 ->
  int32FromUUID
    (UUID.String_ (replicate 8 0 ++ Binary.BigEndian_PutUint64 v))
  = Go.Done (Go.to_int32 v).
Proof.
  intros Hv. unfold int32FromUUID. rewrite Parse_String_PutUint64.
  change (drop 8 (replicate 8 0 ++ Binary.BigEndian_PutUint64 v))
    with (Binary.BigEndian_PutUint64 v).
  now rewrite Uint64_PutUint64.
Qed.

(** X1.  For every [int] the round trip through the UUID keeps the low 32
    bits, read as a signed number: it gives the value back exactly when the
    value fits an [int32], and wraps otherwise. *)
Theorem int32FromUUID_uuidFromInt_truncates (val : Z) :
  exists s : string,
    uuidFromInt val = Go.Done s /\
    int32FromUUID s = Go.Done (Go.to_int32 val) /\
    (int32FromUUID s = Go.Done val <-> - 2 ^ 31 <= val < 2 ^ 31).
Proof.
  eexists. split; [apply uuidFromInt_unfold|].
  assert (Hrt : int32FromUUID
            (UUID.String_
               (replicate 8 0 ++ Binary.BigEndian_PutUint64 (Go.to_uint64 val)))
          = Go.Done (Go.to_int32 val)).
  { rewrite int32FromUUID_String_PutUint64 by apply to_uint64_range.
    now rewrite to_int32_to_uint64. }
  split; [exact Hrt|]. rewrite Hrt. unfold Go.to_int32. split.
  - intros Heq. injection Heq as Heq.
    pose proof (Z.mod_pos_bound (val + 2 ^ 31) (2 ^ 32)). lia.
  - intros Hval. f_equal. rewrite Z.mod_small by lia. lia.
Qed.

Example int32FromUUID_wraps_at_2_31 :
  Go.bind (uuidFromInt 2147483648) int32FromUUID = Go.Done (-2147483648).
Proof. vm_compute. reflexivity. Qed.

Lemma uuidFromInt_to_uint64 (a b : Z) :
  uuidFromInt a = uuidFromInt b -> Go.to_uint64 a = Go.to_uint64 b.
Proof.
  rewrite !uuidFromInt_unfold. intros Heq.
  assert (Hdone : forall x y : string, Go.Done x = Go.Done y -> x = y)
    by (intros x y Hxy; congruence).
  apply Hdone in Heq. apply (f_equal UUID.Parse) in Heq.
  rewrite !Parse_String_PutUint64 in Heq.
  assert (Hok : forall x y : UUID.UUID, Go.Ok x = Go.Ok y -> x = y)
    by (intros x y Hxy; congruence).
  apply Hok, app_inv_head in Heq.
  apply (f_equal Binary.BigEndian_Uint64) in Heq.
  rewrite !Uint64_PutUint64 in Heq by apply to_uint64_range.
  congruence.
Qed.

(** X2.  Two different [int]s never get the same UUID. *)
Theorem uuidFromInt_injective (a b : Z) :
  - 2 ^ 63 <= a < 2 ^ 63 ->
  - 2 ^ 63 <= b < 2 ^ 63 ->
  a <> b ->
  uuidFromInt a <> uuidFromInt b.
Proof.
  intros Ha Hb Hne Heq. apply uuidFromInt_to_uint64 in Heq.
  unfold Go.to_uint64 in Heq.
  pose proof (Z.mod_pos_bound a (2 ^ 64)).
  pose proof (Z.mod_pos_bound b (2 ^ 64)).
  rewrite (Z.mod_eq a), (Z.mod_eq b) in * by lia. lia.
Qed.

Lemma uuidFromInt_injective_witness : uuidFromInt (-1) <> uuidFromInt 1.
Proof. apply (uuidFromInt_injective (-1) 1); lia. Defined.

(** X3.  [uuidFromInt] never panics: it returns the 36 characters of a UUID
    whose first eight bytes are zero, and [uuid.Parse] reads the sixteen bytes
    back from them. *)
Theorem uuidFromInt_shape (val : Z) :
  exists s : string,
    uuidFromInt val = Go.Done s /\
    String.length s = 36%nat /\
    String.substring 0 19 s = "00000000-0000-0000-" /\
    UUID.Parse s
    = Go.Ok (replicate 8 0
             ++ Binary.BigEndian_PutUint64 (Go.to_uint64 val)).
Proof.
  eexists. split; [apply uuidFromInt_unfold|].
  split; [reflexivity|]. split; [reflexivity|].
  apply Parse_String_PutUint64.
Qed.

(** ** The vector inside the gRPC request *)

(** X4.  For a vector that is not empty [encodeUnsafe] returns four bytes for
    each element, every one of them a byte value. *)
Theorem encodeUnsafe_bytes (fs : list float32) :
  fs <> [] ->
  exists bytes : list Z,
    encodeUnsafe fs = Go.Done bytes /\
    length bytes = (4 * length fs)%nat /\
    Forall is_byte bytes.
Proof.
  intros Hne. exists (concat (map float32_bytes fs)). split; [|split].
  - destruct fs; [contradiction|reflexivity].
  - clear Hne. induction fs as [|f fs IH]; [reflexivity|].
    cbn [map concat]. rewrite length_app, IH. cbn. lia.
  - clear Hne. induction fs as [|f fs IH]; [apply Forall_nil; exact I|].
    cbn [map concat]. apply Forall_app. split; [|exact IH].
    unfold float32_bytes.
    repeat (apply Forall_cons; split); try apply to_byte_is_byte.
    apply Forall_nil. exact I.
Qed.

Lemma encodeUnsafe_bytes_witness :
  exists bytes : list Z,
    encodeUnsafe [1065353216; 3212836864] = Go.Done bytes /\
    length bytes = 8%nat /\
    Forall is_byte bytes.
Proof. apply (encodeUnsafe_bytes [1065353216; 3212836864]). discriminate. Defined.

(** X5.  The bytes determine the vector: two different vectors of 32-bit
    values never get the same result from [encodeUnsafe], be it bytes or
    the panic on the empty vector. *)
Theorem encodeUnsafe_injective (v1 v2 : list float32) :
  Forall is_bits32 v1 -> Forall is_bits32 v2 ->
  v1 <> v2 ->
  encodeUnsafe v1 <> encodeUnsafe v2.
Proof.
  intros H1 H2 Hne Heq. apply Hne.
  destruct v1 as [|f1 v1], v2 as [|f2 v2]; try reflexivity;
    try discriminate Heq.
  apply concat_float32_bytes_inj; [assumption|assumption|].
  unfold encodeUnsafe in Heq.
  exact (f_equal (fun r => match r with
                           | Go.Done bytes => bytes
                           | Go.Panicked _ => []
                           end) Heq).
Qed.

Lemma encodeUnsafe_injective_witness :
  encodeUnsafe [1065353216; 3212836864]
  <> encodeUnsafe [1065353216; 3212836865].
Proof.
  apply (encodeUnsafe_injective [1065353216; 3212836864]
           [1065353216; 3212836865]).
  - repeat (apply Forall_cons; split); try (unfold is_bits32; lia).
    apply Forall_nil. exact I.
  - repeat (apply Forall_cons; split); try (unfold is_bits32; lia).
    apply Forall_nil. exact I.
  - discriminate.
Defined.

(** ** The random-vectors command, case by case *)

Lemma trace_bind {A B} (m : Cmd.M A) (k : A -> Cmd.M B) :
  Cmd.trace (Cmd.bind m k)
  = Cmd.trace m ++ match Cmd.ending m with
                   | Cmd.Returned a => Cmd.trace (k a)
                   | _ => []
                   end.
Proof.
  destruct m as [t [a|c|msg]]; cbn; rewrite ?app_nil_r; try reflexivity.
  now destruct (k a).
Qed.

Lemma ending_bind {A B} (m : Cmd.M A) (k : A -> Cmd.M B) :
  Cmd.ending (Cmd.bind m k)
  = match Cmd.ending m with
    | Cmd.Returned a => Cmd.ending (k a)
    | Cmd.Exited c => Cmd.Exited c
    | Cmd.Panics msg => Cmd.Panics msg
    end.
Proof.
  destruct m as [t [a|c|msg]]; cbn; try reflexivity. now destruct (k a).
Qed.

Lemma benchmarks_app (t1 t2 : list Cmd.event) :
  benchmarks (t1 ++ t2) = benchmarks t1 ++ benchmarks t2.
Proof. unfold benchmarks. apply omap_app. Qed.


Lemma benchmarks_randomVectorsCmd
    (w : Cmd.World) (json_float32 : float32 -> option string)
    (draw : nat -> float32) (globalConfig : Config) :
  benchmarks (Cmd.trace (randomVectorsCmd w json_float32 draw globalConfig))
  = match Cmd.Validate w (set_Mode "random-vectors" globalConfig) with
    | Some _ => []
    | None =>
        if negb (String.eqb (DB globalConfig) "weaviate") then []
        else if String.eqb (OutputFile globalConfig) EmptyString
        then [randomVectors_cfg globalConfig]
        else match Cmd.os_Create w (OutputFile globalConfig) with
             | Some _ => []
             | None => [randomVectors_cfg globalConfig]
             end
    end.
Proof.
  unfold randomVectorsCmd, randomVectors_cfg.
  destruct (Cmd.Validate w (set_Mode "random-vectors" globalConfig));
    [reflexivity|].
  cbn [Cmd.check]. 
  destruct (0 <? String.length (WhereFilter (set_Mode "random-vectors" globalConfig)))%nat;
    cbn [DB OutputFile OutputFormat set_WhereFilter set_Mode];
    destruct (String.eqb (DB globalConfig) "weaviate"); try reflexivity;
    destruct (String.eqb (OutputFile globalConfig) EmptyString);
    try destruct (Cmd.os_Create w (OutputFile globalConfig));
    try destruct (String.eqb (OutputFormat globalConfig) "json");
    try destruct (String.eqb (OutputFormat globalConfig) "text");
    reflexivity.
Qed.

(** X6.  [benchmark] is called at most once by the random-vectors command, and
    it is called exactly when validation passes, the database is "weaviate"
    and the output file, if one is asked for, can be created. *)
Theorem randomVectorsCmd_benchmark_calls
    (w : Cmd.World) (json_float32 : float32 -> option string)
    (draw : nat -> float32) (globalConfig : Config) :
  let run := randomVectorsCmd w json_float32 draw globalConfig in
  (length (benchmarks (Cmd.trace run)) <= 1)%nat /\
  (benchmarks (Cmd.trace run) <> [] <->
   Cmd.Validate w (set_Mode "random-vectors" globalConfig) = None /\
   DB globalConfig = "weaviate" /\
   (OutputFile globalConfig = EmptyString \/
    Cmd.os_Create w (OutputFile globalConfig) = None)).
Proof.
  cbv zeta. rewrite benchmarks_randomVectorsCmd.
  destruct (Cmd.Validate w (set_Mode "random-vectors" globalConfig)) as [e|].
  { split; [cbn; lia|]. split; [congruence|]. intros (H & _). discriminate H. }
  destruct (String.eqb_spec (DB globalConfig) "weaviate") as [Hdb|Hdb]; cbn [negb].
  2:{ split; [cbn; lia|]. split; [congruence|]. intros (_ & H & _). contradiction. }
  destruct (String.eqb_spec (OutputFile globalConfig) EmptyString) as [Hof|Hof].
  { split; [cbn; lia|]. split; [auto|]. intros _. discriminate. }
  destruct (Cmd.os_Create w (OutputFile globalConfig)) as [e|].
  - split; [cbn; lia|]. split; [congruence|].
    intros (_ & _ & [H|H]); [contradiction|discriminate H].
  - split; [cbn; lia|]. split; [auto|]. intros _. discriminate.
Qed.

Lemma string_length_app (a b : string) :
  String.length (a +:+ b) = (String.length a + String.length b)%nat.
Proof.
  induction a as [|x a IH]; [reflexivity|].
  change (S (String.length (a +:+ b))
          = S (String.length a + String.length b)). now rewrite IH.
Qed.

Lemma replace_char_quote (s : string) :
  replace_char "034"%char (Go.backslash +:+ Go.dquote) (String "034"%char s)
  = String "092"%char
      (String "034"%char
         (replace_char "034"%char (Go.backslash +:+ Go.dquote) s)).
Proof. reflexivity. Qed.

Lemma replace_char_other (c : ascii) (s : string) :
  Ascii.eqb c "034"%char = false ->
  replace_char "034"%char (Go.backslash +:+ Go.dquote) (String c s)
  = String c (replace_char "034"%char (Go.backslash +:+ Go.dquote) s).
Proof. intros Hc. cbn [replace_char]. now rewrite Hc. Qed.

Lemma replace_char_app (a b : string) :
  replace_char "034"%char (Go.backslash +:+ Go.dquote) (a +:+ b)
  = replace_char "034"%char (Go.backslash +:+ Go.dquote) a
    +:+ replace_char "034"%char (Go.backslash +:+ Go.dquote) b.
Proof.
  induction a as [|c a IH]; [reflexivity|].
  change (String c a +:+ b) with (String c (a +:+ b)).
  destruct (Ascii.eqb c "034"%char) eqn:Hc.
  - apply Ascii.eqb_eq in Hc. subst c.
    rewrite !replace_char_quote, IH. reflexivity.
  - rewrite !replace_char_other, IH by assumption. reflexivity.
Qed.

Lemma quotes_escaped_replace_char (s : string) :
  forall b : bool,
    quotes_escaped b
      (replace_char "034"%char (Go.backslash +:+ Go.dquote) s) = true.
Proof.
  induction s as [|c s IH]; intros b; [reflexivity|].
  destruct (Ascii.eqb c "034"%char) eqn:Hc.
  - apply Ascii.eqb_eq in Hc. subst c. rewrite replace_char_quote.
    cbn [quotes_escaped]. cbn. apply IH.
  - rewrite replace_char_other by assumption.
    cbn [quotes_escaped]. rewrite Hc. cbn. apply IH.
Qed.

Lemma length_replace_char (s : string) :
  String.length (replace_char "034"%char (Go.backslash +:+ Go.dquote) s)
  = (String.length s + count_quotes s)%nat.
Proof.
  induction s as [|c s IH]; [reflexivity|].
  destruct (Ascii.eqb c "034"%char) eqn:Hc.
  - apply Ascii.eqb_eq in Hc. subst c. rewrite replace_char_quote.
    cbn [String.length count_quotes]. rewrite IH. cbn. lia.
  - rewrite replace_char_other by assumption.
    cbn [String.length count_quotes]. rewrite IH, Hc. lia.
Qed.

(** X7.  The where filter that reaches [benchmark]: absent when none was
    given, otherwise the given text with a backslash put before each of its
    double quotes (and nothing else changed), between ", where: { " and " }".
    Every double quote of it comes right after a backslash. *)
Theorem randomVectorsCmd_where_filter
    (w : Cmd.World) (json_float32 : float32 -> option string)
    (draw : nat -> float32) (globalConfig : Config) (cfg : Config) :
  In cfg (benchmarks
            (Cmd.trace (randomVectorsCmd w json_float32 draw globalConfig))) ->
  let given := WhereFilter globalConfig in
  let escaped :=
    replace_char "034"%char (Go.backslash +:+ Go.dquote) given in
  WhereFilter cfg
  = (if String.eqb given EmptyString then EmptyString
     else ", where: { " +:+ escaped +:+ " }") /\
  quotes_escaped false (WhereFilter cfg) = true /\
  String.length escaped = (String.length given + count_quotes given)%nat /\
  Mode cfg = "random-vectors".
Proof.
  intros Hin given escaped.
  assert (Hcfg : cfg = randomVectors_cfg globalConfig).
  { rewrite benchmarks_randomVectorsCmd in Hin.
    destruct (Cmd.Validate w _); [contradiction|].
    destruct (negb _); [contradiction|].
    destruct (String.eqb (OutputFile globalConfig) EmptyString).
    - destruct Hin as [Hin|[]]. now symmetry.
    - destruct (Cmd.os_Create w _); [contradiction|].
      destruct Hin as [Hin|[]]. now symmetry. }
  subst cfg. unfold randomVectors_cfg.
  cbn [WhereFilter set_Mode]. fold given.
  assert (Hform : WhereFilter
            (if (0 <? String.length given)%nat
             then set_WhereFilter
                    (replace_char "034"%char (Go.backslash +:+ Go.dquote)
                       (", where: { " +:+ given +:+ " }"))
                    (set_Mode "random-vectors" globalConfig)
             else set_Mode "random-vectors" globalConfig)
          = (if String.eqb given EmptyString then EmptyString
             else ", where: { " +:+ escaped +:+ " }")).
  { destruct given as [|c rest] eqn:Hg.
    - cbn. exact Hg.
    - cbn [String.length Nat.ltb Nat.leb String.eqb WhereFilter set_WhereFilter].
      rewrite !replace_char_app. reflexivity. }
  split; [exact Hform|]. split; [|split].
  - rewrite Hform. destruct (String.eqb given EmptyString); [reflexivity|].
    change (", where: { " +:+ escaped +:+ " }")
      with (replace_char "034"%char (Go.backslash +:+ Go.dquote) ", where: { "
            +:+ escaped
            +:+ replace_char "034"%char (Go.backslash +:+ Go.dquote) " }").
    unfold escaped. rewrite <- !replace_char_app.
    apply quotes_escaped_replace_char.
  - apply length_replace_char.
  - now destruct (0 <? String.length given)%nat.
Qed.

Lemma randomVectorsCmd_where_filter_witness :
  let globalConfig :=
    set_WhereFilter
      ("path: [" +:+ Go.dquote +:+ "a" +:+ Go.dquote +:+ "]") sample_config in
  let cfg := randomVectors_cfg globalConfig in
  let given := WhereFilter globalConfig in
  let escaped :=
    replace_char "034"%char (Go.backslash +:+ Go.dquote) given in
  WhereFilter cfg
  = (if String.eqb given EmptyString then EmptyString
     else ", where: { " +:+ escaped +:+ " }") /\
  quotes_escaped false (WhereFilter cfg) = true /\
  String.length escaped = (String.length given + count_quotes given)%nat /\
  Mode cfg = "random-vectors".
Proof.
  intros globalConfig cfg.
  apply (randomVectorsCmd_where_filter (sample_world None) (fun _ => None)
           (fun _ => 0) globalConfig cfg).
  vm_compute. left. reflexivity.
Defined.



(** ** The ann-benchmark command, round by round *)

Section AnnRounds.

Variable w : Cmd.World.
Variable cfg : Config.
Variable runID : string.
Variable testData : list (list float32).
Variable neighbors : list (list Z).

Let call' := benchmarkANN cfg testData neighbors.
Let cfg' := call_cfg call'.

Lemma ann_rounds_cons_err (ef : Z) (efs : list Z) (e : string) :
  Cmd.updateEf_err w ef = Some e ->
  ann_rounds w cfg runID testData neighbors (ef :: efs)
  = ([Cmd.UpdateEf ef], Cmd.Panics e).
Proof.
  intros Herr. cbn [ann_rounds]. unfold ann_round, updateEf.
  rewrite Herr. reflexivity.
Qed.

Lemma ann_rounds_cons_ok (ef : Z) (efs : list Z) :
  Cmd.updateEf_err w ef = None ->
  ann_rounds w cfg runID testData neighbors (ef :: efs)
  = (Cmd.UpdateEf ef :: Cmd.RunBenchmark call'
       :: Cmd.Print "mean, qps, recall, api, ef, count, failed"
       :: Cmd.trace (ann_rounds w cfg runID testData neighbors efs),
     match Cmd.ending (ann_rounds w cfg runID testData neighbors efs) with
     | Cmd.Returned rs =>
         Cmd.Returned
           ({| Api := API cfg;
               Ef := ef;
               RJEfConstruction := EfConstruction cfg;
               RJMaxConnections := MaxConnections cfg;
               RJMean := Cmd.Seconds w (Mean (Cmd.benchmark w call'));
               RJQueriesPerSecond := QueriesPerSecond (Cmd.benchmark w call');
               RJShards := Shards cfg;
               Parallelization := Parallel cfg;
               RunID := runID;
               Dataset := Cmd.filepath_Base w (BenchmarkFile cfg);
               RJRecall := Recall (Cmd.benchmark w call') |} :: rs)
     | Cmd.Exited c => Cmd.Exited c
     | Cmd.Panics msg => Cmd.Panics msg
     end).
Proof.
  intros Herr. cbn [ann_rounds]. unfold ann_round, updateEf.
  rewrite Herr.
  destruct (ann_rounds w cfg runID testData neighbors efs) as [t [rs|c|msg]];
    cbn; rewrite ?app_nil_r; reflexivity.
Qed.

(** What a sequence of rounds leaves behind: one schema update for each
    round started, one benchmark for each round finished, nothing
    imported and nothing written; if all rounds finish, one record for
    each candidate. *)
Lemma ann_rounds_trace (efs : list Z) :
  let run := ann_rounds w cfg runID testData neighbors efs in
  exists k : nat,
    (k <= length efs)%nat /\
    benchmarks (Cmd.trace run) = replicate k cfg' /\
    (ef_updates (Cmd.trace run) = take k efs \/
     ef_updates (Cmd.trace run) = take (S k) efs) /\
    written (Cmd.trace run) = [] /\
    import_events (Cmd.trace run) = [] /\
    match Cmd.ending run with
    | Cmd.Returned rs =>
        k = length efs /\
        map Ef rs = efs /\
        Forall (fun r => RunID r = runID /\ Api r = API cfg /\
                         Parallelization r = Parallel cfg /\
                         RJRecall r = Recall (Cmd.benchmark w call') /\
                         RJQueriesPerSecond r
                         = QueriesPerSecond (Cmd.benchmark w call')) rs
    | Cmd.Exited _ => False
    | Cmd.Panics _ => (k < length efs)%nat
    end.
Proof.
  induction efs as [|ef efs IH]; cbv zeta.
  - exists 0%nat. cbn. repeat split; auto.
  - destruct IH as (k & Hk & Hb & Hu & Hw & Hi & Hend).
    destruct (Cmd.updateEf_err w ef) as [e|] eqn:Herr.
    + rewrite (ann_rounds_cons_err ef efs e Herr).
      exists 0%nat. cbn. repeat split; auto; lia.
    + rewrite (ann_rounds_cons_ok ef efs Herr).
      exists (S k). cbn [Cmd.trace Cmd.ending fst snd length].
      split; [lia|].
      split; [change (cfg' :: benchmarks
                (Cmd.trace (ann_rounds w cfg runID testData neighbors efs))
              = cfg' :: replicate k cfg'); now rewrite Hb|].
      split.
      { change (ef :: ef_updates
                  (Cmd.trace (ann_rounds w cfg runID testData neighbors efs))
                = ef :: take k efs
                \/ ef :: ef_updates
                     (Cmd.trace (ann_rounds w cfg runID testData neighbors efs))
                = ef :: take (S k) efs).
        destruct Hu as [Hu|Hu]; rewrite Hu; auto. }
      split; [exact Hw|]. split; [exact Hi|].
      destruct (Cmd.ending (ann_rounds w cfg runID testData neighbors efs))
        as [rs|c|msg].
      * destruct Hend as (-> & Hef & Hall).
        split; [reflexivity|]. split; [cbn; now rewrite Hef|].
        apply Forall_cons. split; [|exact Hall]. cbn. repeat split.
      * contradiction.
      * lia.
Qed.

End AnnRounds.

Lemma written_app (t1 t2 : list Cmd.event) :
  written (t1 ++ t2) = written t1 ++ written t2.
Proof. unfold written. apply omap_app. Qed.

Lemma written_cons (e : Cmd.event) (t : list Cmd.event) :
  written (e :: t)
  = match e with
    | Cmd.WriteFile name records => [(name, records)]
    | _ => []
    end ++ written t.
Proof. now destruct e. Qed.

Lemma benchmarks_cons (e : Cmd.event) (t : list Cmd.event) :
  benchmarks (e :: t)
  = match e with
    | Cmd.RunBenchmark call => [call_cfg call]
    | _ => []
    end ++ benchmarks t.
Proof. now destruct e. Qed.

Lemma import_events_app (t1 t2 : list Cmd.event) :
  import_events (t1 ++ t2) = import_events t1 ++ import_events t2.
Proof. unfold import_events. apply List.filter_app. Qed.

Lemma import_events_cons (e : Cmd.event) (t : list Cmd.event) :
  import_events (e :: t)
  = (if is_import_event e then [e] else []) ++ import_events t.
Proof. unfold import_events. cbn. now destruct (is_import_event e). Qed.

Ltac run_cmd :=
  cbn [Cmd.bind Cmd.check Cmd.emit Cmd.ret Cmd.log_Fatal Cmd.fatal
       Cmd.os_Exit Cmd.panic load_or_fatal app fst snd Cmd.trace Cmd.ending
       negb QueryOnly set_Mode BenchmarkFile].

(** Reduce the readers of a trace made of known events around the trace
    [t] of the rounds. *)
Ltac read_trace :=
  rewrite ?written_cons, ?written_app, ?written_cons,
          ?benchmarks_cons, ?benchmarks_app, ?benchmarks_cons,
          ?import_events_cons, ?import_events_app, ?import_events_cons;
  cbn [app is_import_event written benchmarks import_events omap list_omap
       List.filter].

Ltac dead :=
  let H := fresh in
  intros H; cbn [Cmd.trace fst] in H;
  rewrite ?written_cons, ?written_app, ?written_cons in H;
  cbn [app written omap list_omap] in H;
  repeat match goal with
         | Hw : written _ = [] |- _ => cbn [Cmd.trace fst] in Hw; rewrite Hw in H
         end;
  cbn in H; contradiction.

(** X9.  The results file is written only by a run in which both data sets
    were loaded and all nine rounds finished: it is written once, under the
    name "./results/<run id>.json", with one record for each [ef] candidate in
    the order of the candidates, after nine calls of [benchmark], each for as
    many queries as there are test vectors. *)
Theorem annBenchmarkCommand_results_file
    (w : Cmd.World) (globalConfig : Config)
    (name : string) (records : list json_object) :
  In (name, records)
     (written (Cmd.trace (annBenchmarkCommand w globalConfig))) ->
  exists (testData : list (list float32)) (neighbors : list (list Z))
         (results : list ResultsJSONBenchmark),
    Cmd.load_test w = Go.Ok testData /\
    Cmd.load_neighbors w = Go.Ok neighbors /\
    name = "./results/" +:+ Go.fmt_d (Cmd.time_Now_Unix w) +:+ ".json" /\
    records = map marshal_ResultsJSONBenchmark results /\
    map Ef results = efCandidates /\
    Forall (fun r => RunID r = Go.fmt_d (Cmd.time_Now_Unix w) /\
                     Api r = API globalConfig /\
                     Parallelization r = Parallel globalConfig) results /\
    benchmarks (Cmd.trace (annBenchmarkCommand w globalConfig))
    = replicate 9 (set_Queries (Z.of_nat (length testData))
                     (set_Mode "ann-benchmark" globalConfig)) /\
    written (Cmd.trace (annBenchmarkCommand w globalConfig))
    = [(name, records)].
Proof.
  unfold annBenchmarkCommand, loadANNBenchmarksFile, createSchema.
  destruct (Cmd.Validate w (set_Mode "ann-benchmark" globalConfig)) as [e|];
    run_cmd; [dead|].
  destruct (Cmd.hdf5_OpenFile w (BenchmarkFile globalConfig)) as [e|];
    run_cmd; [dead|].
  destruct (QueryOnly globalConfig); run_cmd;
    try (destruct (Cmd.createSchema_err w) as [e|]; run_cmd; [dead|]);
    try (destruct (Cmd.OpenDataset_train w) as [e|]; run_cmd; [dead|]);
    try (destruct (Cmd.import_err w) as [e|]; run_cmd; [dead|]).
  all: destruct (Cmd.load_neighbors w) as [neighbors|e]; run_cmd; [|dead].
  all: destruct (Cmd.load_test w) as [testData|e]; run_cmd; [|dead].
  all: pose proof (ann_rounds_trace w (set_Mode "ann-benchmark" globalConfig)
                  (Go.fmt_d (Cmd.time_Now_Unix w)) testData neighbors
                  efCandidates) as (k & Hk & Hb & _ & Hw & _ & Hend).
  all: destruct (ann_rounds w (set_Mode "ann-benchmark" globalConfig)
                  (Go.fmt_d (Cmd.time_Now_Unix w)) testData neighbors
                  efCandidates) as [t [rs|c|msg]]; run_cmd;
    cbn [Cmd.trace Cmd.ending fst snd] in Hb, Hw, Hend; [|dead|dead].
  all: destruct (Cmd.MarshalIndent_err w) as [e|]; run_cmd; [dead|].
  all: destruct Hend as (-> & Hef & Hall).
  all: destruct (Cmd.os_WriteFile w _) as [e|]; run_cmd.
  all: read_trace; rewrite Hb, Hw; cbn [app].
  all: intros [Heq|[]]; injection Heq as <- <-.
  all: exists testData, neighbors, rs.
  all: repeat split; try reflexivity; try assumption.
  all: eapply Forall_impl; [exact Hall|]; cbn; intros r (? & ? & ? & _);
    repeat split; assumption.
Qed.

Lemma annBenchmarkCommand_results_file_witness :
  exists (name : string) (records : list json_object),
    In (name, records)
       (written (Cmd.trace (annBenchmarkCommand (sample_world None)
                              sample_config))) /\
    exists (testData : list (list float32)) (neighbors : list (list Z))
           (results : list ResultsJSONBenchmark),
      Cmd.load_test (sample_world None) = Go.Ok testData /\
      Cmd.load_neighbors (sample_world None) = Go.Ok neighbors /\
      name = "./results/"
             +:+ Go.fmt_d (Cmd.time_Now_Unix (sample_world None))
             +:+ ".json" /\
      records = map marshal_ResultsJSONBenchmark results /\
      map Ef results = efCandidates /\
      Forall (fun r => RunID r
                       = Go.fmt_d (Cmd.time_Now_Unix (sample_world None)) /\
                       Api r = API sample_config /\
                       Parallelization r = Parallel sample_config) results /\
      benchmarks (Cmd.trace (annBenchmarkCommand (sample_world None)
                               sample_config))
      = replicate 9 (set_Queries (Z.of_nat (length testData))
                       (set_Mode "ann-benchmark" sample_config)) /\
      written (Cmd.trace (annBenchmarkCommand (sample_world None)
                            sample_config))
      = [(name, records)].
Proof.
  eexists. eexists. split.
  - vm_compute. left. reflexivity.
  - apply (annBenchmarkCommand_results_file (sample_world None) sample_config).
    vm_compute. left. reflexivity.
Defined.

(** X10.  With [--query] the ann-benchmark command never touches the schema or
    the stored objects: no schema creation, no import and no pause occur in
    the run, however it ends. *)
Theorem annBenchmarkCommand_query_only
    (w : Cmd.World) (globalConfig : Config) :
  QueryOnly globalConfig = true ->
  import_events (Cmd.trace (annBenchmarkCommand w globalConfig)) = [].
Proof.
  intros Hq. unfold annBenchmarkCommand. cbn [QueryOnly set_Mode]. rewrite Hq.
  destruct (Cmd.Validate w (set_Mode "ann-benchmark" globalConfig)) as [e|];
    run_cmd; [reflexivity|].
  destruct (Cmd.hdf5_OpenFile w (BenchmarkFile globalConfig)) as [e|];
    run_cmd; [reflexivity|].
  destruct (Cmd.load_neighbors w) as [neighbors|e]; run_cmd; [|reflexivity].
  destruct (Cmd.load_test w) as [testData|e]; run_cmd; [|reflexivity].
  pose proof (ann_rounds_trace w (set_Mode "ann-benchmark" globalConfig)
                (Go.fmt_d (Cmd.time_Now_Unix w)) testData neighbors
                efCandidates) as (k & _ & _ & _ & _ & Hi & _).
  destruct (ann_rounds w (set_Mode "ann-benchmark" globalConfig)
              (Go.fmt_d (Cmd.time_Now_Unix w)) testData neighbors
              efCandidates) as [t [rs|c|msg]]; run_cmd;
    cbn [Cmd.trace fst] in Hi.
  - destruct (Cmd.MarshalIndent_err w) as [e|]; run_cmd;
      [|destruct (Cmd.os_WriteFile w _) as [e|]; run_cmd];
      read_trace; rewrite Hi; reflexivity.
  - read_trace. now rewrite Hi.
  - read_trace. now rewrite Hi.
Qed.

Lemma annBenchmarkCommand_query_only_witness :
  import_events
    (Cmd.trace (annBenchmarkCommand (sample_world None)
                  sample_config_query_only)) = [].
Proof.
  apply (annBenchmarkCommand_query_only (sample_world None)
           sample_config_query_only).
  reflexivity.
Defined.

(** X11.  Without [--query], once validation has passed and the file is open,
    the first thing the ann-benchmark command does is to create the schema
    anew, before any data is read or any query is sent. *)
Theorem annBenchmarkCommand_recreates_schema
    (w : Cmd.World) (globalConfig : Config) :
  QueryOnly globalConfig = false ->
  Cmd.Validate w (set_Mode "ann-benchmark" globalConfig) = None ->
  Cmd.hdf5_OpenFile w (BenchmarkFile globalConfig) = None ->
  exists rest : list Cmd.event,
    Cmd.trace (annBenchmarkCommand w globalConfig)
    = Cmd.OpenHdf5 (BenchmarkFile globalConfig)
        :: Cmd.Print "Starting import" :: Cmd.CreateSchema :: rest /\
    (Cmd.createSchema_err w <> None ->
     rest = [] /\
     benchmarks (Cmd.trace (annBenchmarkCommand w globalConfig)) = []).
Proof.
  intros Hq Hv Ho. unfold annBenchmarkCommand, loadANNBenchmarksFile,
    createSchema.
  cbn [QueryOnly set_Mode BenchmarkFile]. rewrite Hq, Hv, Ho. run_cmd.
  destruct (Cmd.createSchema_err w) as [e|]; run_cmd.
  { exists []. split; [reflexivity|]. intros _. split; reflexivity. }
  destruct (Cmd.OpenDataset_train w) as [e|]; run_cmd.
  { eexists. split; [reflexivity|]. intros H. congruence. }
  destruct (Cmd.import_err w) as [e|]; run_cmd.
  { eexists. split; [reflexivity|]. intros H. congruence. }
  match goal with
  | |- context [Cmd.bind (load_or_fatal ?x) ?k] =>
      destruct (Cmd.bind (load_or_fatal x) k) as [t o]
  end.
  eexists. split; [reflexivity|]. intros H. congruence.
Qed.

Lemma annBenchmarkCommand_recreates_schema_witness :
  exists rest : list Cmd.event,
    Cmd.trace (annBenchmarkCommand (sample_world None) sample_config)
    = Cmd.OpenHdf5 "sift.hdf5"
        :: Cmd.Print "Starting import" :: Cmd.CreateSchema :: rest /\
    (Cmd.createSchema_err (sample_world None) <> None ->
     rest = [] /\
     benchmarks (Cmd.trace (annBenchmarkCommand (sample_world None)
                              sample_config)) = []).
Proof.
  apply (annBenchmarkCommand_recreates_schema (sample_world None)
           sample_config); reflexivity.
Defined.

(** ** The random-vectors generator *)

Section RandomGenerator.

Variable json_float32 : float32 -> option string.
Variable draw : nat -> float32.
Variable cfg : Config.

Let g := call_gen (benchmarkNearVector json_float32 draw cfg).
Let dims := Z.to_nat (Dimensions cfg).

Lemma benchmarkNearVector_callback_state (st : nat) (a : string) :
  snd (benchmarkNearVector_callback json_float32 draw cfg st a)
  = if known_API (API cfg) then (st + dims)%nat else st.
Proof.
  unfold benchmarkNearVector_callback, known_API, randomVector.
  destruct (String.eqb (API cfg) "graphql"); [reflexivity|].
  destruct (String.eqb (API cfg) "rest"); [reflexivity|].
  destruct (String.eqb (API cfg) "grpc"); reflexivity.
Qed.

Lemma benchmarkNearVector_callback_ignores_className (st : nat) (a b : string) :
  benchmarkNearVector_callback json_float32 draw cfg st a
  = benchmarkNearVector_callback json_float32 draw cfg st b.
Proof. reflexivity. Qed.

Lemma invoke_from_benchmarkNearVector (args : list string) :
  forall (st k : nat),
    (k < length args)%nat ->
    invoke_from g st args !! k
    = Some (fst (benchmarkNearVector_callback json_float32 draw cfg
                   (st + k * (if known_API (API cfg) then dims else 0))
                   EmptyString)).
Proof.
  induction args as [|a args IH]; intros st k Hk; cbn in Hk; [lia|].
  cbn [invoke_from]. 
  change (gen_call g st a)
    with (benchmarkNearVector_callback json_float32 draw cfg st a).
  pose proof (benchmarkNearVector_callback_state st a) as Hst.
  destruct (benchmarkNearVector_callback json_float32 draw cfg st a)
    as [r st'] eqn:Hcall.
  cbn [snd] in Hst. subst st'.
  destruct k as [|k].
  - cbn. rewrite Nat.add_0_r.
    rewrite (benchmarkNearVector_callback_ignores_className st EmptyString a).
    now rewrite Hcall.
  - cbn [lookup list_lookup].
    change (invoke_from g
              (if known_API (API cfg) then (st + dims)%nat else st) args !! k
            = Some (fst (benchmarkNearVector_callback json_float32 draw cfg
                      (st + S k * (if known_API (API cfg) then dims else 0))
                      EmptyString))).
    rewrite IH by lia. do 3 f_equal.
    destruct (known_API (API cfg)); lia.
Qed.

End RandomGenerator.

(** X12.  Every query of the random-vectors benchmark gets random numbers
    of its own.  With d the number of dimensions, the k-th call of the
    generator, whatever its argument, returns the query built from the
    vector of the draws k*d .. k*d+d-1 and no neighbours: the GraphQL text
    for the API graphql, the REST text for rest, and for grpc (with d above
    zero) the search request whose vector bytes are those of that vector
    and whose tenant is the tenant of the configuration.  For any other
    API it returns the descriptor without a query. *)
Theorem benchmarkNearVector_draws
    (json_float32 : float32 -> option string) (draw : nat -> float32)
    (cfg : Config) (args : list string) (k : nat) :
  (k < length args)%nat ->
  let d := Z.to_nat (Dimensions cfg) in
  let vec := map draw (seq (k * d) d) in
  let answer :=
    invoke_all (call_gen (benchmarkNearVector json_float32 draw cfg)) args
      !! k in
  (API cfg = "graphql" ->
   answer
   = Some (Go.Done {| Query := Text (nearVectorQueryJSONGraphQL json_float32
                                       (ClassName cfg) vec (Limit cfg)
                                       (WhereFilter cfg));
                      Neighbors := [] |})) /\
  (API cfg = "rest" ->
   answer
   = Some (Go.Done {| Query := Text (nearVectorQueryJSONRest json_float32
                                       (ClassName cfg) vec (Limit cfg));
                      Neighbors := [] |})) /\
  (API cfg = "grpc" -> (0 < d)%nat ->
   answer
   = Some (Go.Done
             {| Query := Proto {| Collection := ClassName cfg;
                                  SearchLimit := Go.to_uint32 (Limit cfg);
                                  VectorBytes :=
                                    concat (map float32_bytes vec);
                                  Metadata := {| Certainty := false;
                                                 Distance := false;
                                                 Uuid := true |};
                                  SearchTenant := Tenant cfg |};
                Neighbors := [] |})) /\
  (known_API (API cfg) = false ->
   answer = Some (Go.Done {| Query := NoPayload; Neighbors := [] |})).
Proof.
  intros Hk d vec answer.
  assert (Hcall : answer
                  = Some (fst (benchmarkNearVector_callback json_float32 draw
                                 cfg
                                 (k * (if known_API (API cfg) then d else 0))
                                 EmptyString))).
  { unfold answer, invoke_all.
    etransitivity;
      [exact (invoke_from_benchmarkNearVector json_float32 draw cfg args
                0 k Hk)|].
    reflexivity. }
  rewrite Hcall. unfold benchmarkNearVector_callback, known_API, randomVector.
  split; [|split; [|split]].
  - intros ->. reflexivity.
  - intros ->. reflexivity.
  - intros -> Hd. cbn [String.eqb Ascii.eqb Bool.eqb orb fst].
    fold d. fold vec.
    rewrite nearVectorQueryGrpc_request; [reflexivity|].
    unfold vec. destruct d as [|d']; [lia|]. discriminate.
  - intros Hno.
    destruct (String.eqb (API cfg) "graphql"); [discriminate Hno|].
    destruct (String.eqb (API cfg) "rest"); [discriminate Hno|].
    destruct (String.eqb (API cfg) "grpc"); [discriminate Hno|].
    reflexivity.
Qed.

Lemma benchmarkNearVector_draws_witness :
  let cfg := sample_config_tenant in
  let d := Z.to_nat (Dimensions cfg) in
  let vec := map (fun n => Z.of_nat n) (seq (2 * d) d) in
  let answer :=
    invoke_all (call_gen (benchmarkNearVector (fun _ => None)
                            (fun n => Z.of_nat n) cfg))
               ["Vector"; "Vector"; "Vector"] !! 2%nat in
  (API cfg = "graphql" ->
   answer
   = Some (Go.Done {| Query := Text (nearVectorQueryJSONGraphQL
                                       (fun _ => None)
                                       (ClassName cfg) vec (Limit cfg)
                                       (WhereFilter cfg));
                      Neighbors := [] |})) /\
  (API cfg = "rest" ->
   answer
   = Some (Go.Done {| Query := Text (nearVectorQueryJSONRest (fun _ => None)
                                       (ClassName cfg) vec (Limit cfg));
                      Neighbors := [] |})) /\
  (API cfg = "grpc" -> (0 < d)%nat ->
   answer
   = Some (Go.Done
             {| Query := Proto {| Collection := ClassName cfg;
                                  SearchLimit := Go.to_uint32 (Limit cfg);
                                  VectorBytes :=
                                    concat (map float32_bytes vec);
                                  Metadata := {| Certainty := false;
                                                 Distance := false;
                                                 Uuid := true |};
                                  SearchTenant := Tenant cfg |};
                Neighbors := [] |})) /\
  (known_API (API cfg) = false ->
   answer = Some (Go.Done {| Query := NoPayload; Neighbors := [] |})).
Proof.
  apply (benchmarkNearVector_draws (fun _ => None) (fun n => Z.of_nat n)
           sample_config_tenant ["Vector"; "Vector"; "Vector"] 2).
  cbn. lia.
Defined.

Example benchmarkNearVector_draws_sample :
  invoke_all (call_gen (benchmarkNearVector (fun _ => None)
                          (fun n => Z.of_nat n) sample_config_tenant))
             ["Vector"; "Vector"; "Vector"]
  = map (fun bytes =>
           Go.Done {| Query := Proto {| Collection := "Vector";
                                        SearchLimit := 10;
                                        VectorBytes := bytes;
                                        Metadata := {| Certainty := false;
                                                       Distance := false;
                                                       Uuid := true |};
                                        SearchTenant := "tenantA" |};
                      Neighbors := [] |})
        [ [0; 0; 0; 0; 1; 0; 0; 0]; [2; 0; 0; 0; 3; 0; 0; 0];
          [4; 0; 0; 0; 5; 0; 0; 0] ].
Proof. reflexivity. Qed.

(** X13.  With no dimensions ([--dimensions] zero or negative) the vector is
    empty: over gRPC every call of the generator panics, over GraphQL and REST
    the query is built with the empty vector [[]]. *)
Theorem benchmarkNearVector_no_dimensions
    (json_float32 : float32 -> option string) (draw : nat -> float32)
    (cfg : Config) (st : nat) (a : string) :
  Dimensions cfg <= 0 ->
  let r := fst (benchmarkNearVector_callback json_float32 draw cfg st a) in
  (API cfg = "grpc" ->
   r = Go.Panicked "index out of range [0] with length 0") /\
  (API cfg = "graphql" ->
   r = Go.Done {| Query := Text (nearVectorQueryJSONGraphQL json_float32
                                   (ClassName cfg) [] (Limit cfg)
                                   (WhereFilter cfg));
                  Neighbors := [] |}) /\
  (API cfg = "rest" ->
   r = Go.Done {| Query := Text (nearVectorQueryJSONRest json_float32
                                   (ClassName cfg) [] (Limit cfg));
                  Neighbors := [] |}) /\
  vecJSON_string json_float32 [] = "[]".
Proof.
  intros Hd r. unfold r, benchmarkNearVector_callback, randomVector.
  assert (Hn : Z.to_nat (Dimensions cfg) = 0%nat) by lia.
  rewrite Hn. cbn [seq map fst].
  repeat split; intros ->; reflexivity.
Qed.

Lemma benchmarkNearVector_no_dimensions_witness :
  fst (benchmarkNearVector_callback (fun _ => None) (fun _ => 0)
         (set_Queries 1 sample_config_no_dimensions) 0 "Vector")
  = Go.Panicked "index out of range [0] with length 0".
Proof.
  apply (benchmarkNearVector_no_dimensions (fun _ => None) (fun _ => 0)
           (set_Queries 1 sample_config_no_dimensions) 0 "Vector").
  - cbn. lia.
  - reflexivity.
Defined.

(** ** Writing a batch *)

Lemma int32FromUUID_of_uuidFromInt (v : Z) (s : string) :
  uuidFromInt v = Go.Done s ->
  int32FromUUID s = Go.Done (Go.to_int32 v).
Proof.
  rewrite uuidFromInt_unfold. intros Hs.
  assert (Hdone : forall x y : string, Go.Done x = Go.Done y -> x = y)
    by (intros x y Hxy; congruence).
  apply Hdone in Hs. subst s.
  rewrite int32FromUUID_String_PutUint64 by apply to_uint64_range.
  now rewrite to_int32_to_uint64.
Qed.

Lemma writeChunk_objects_spec (className : string) (offset : Z)
    (vectors : list (list float32)) :
  forall i : Z,
    0 <= i + offset ->
    i + offset + Z.of_nat (length vectors) <= 2 ^ 31 ->
    exists objects : list BatchObject,
      writeChunk_objects className offset i vectors = Go.Done objects /\
      map ObjectVector objects = vectors /\
      forall (j : nat) (o : BatchObject),
        objects !! j = Some o ->
        int32FromUUID (ObjectUuid o) = Go.Done (i + offset + Z.of_nat j) /\
        ObjectClassName o = className.
Proof.
  induction vectors as [|vector rest IH]; intros i Hlo Hhi.
  - exists []. split; [reflexivity|]. split; [reflexivity|].
    intros j o Hj. discriminate Hj.
  - cbn [length] in Hhi.
    destruct (IH (i + 1)) as (objects & Hobj & Hvec & Hids); [lia|lia|].
    cbn [writeChunk_objects]. rewrite Hobj.
    assert (Hint : to_int (i + offset) = i + offset).
    { unfold to_int. rewrite Z.mod_small by lia. lia. }
    rewrite Hint.
    destruct (uuidFromInt (i + offset)) as [uuid|msg] eqn:Huuid;
      [|rewrite uuidFromInt_unfold in Huuid; discriminate Huuid].
    cbn [Go.bind]. eexists. split; [reflexivity|].
    split; [cbn; now rewrite Hvec|].
    intros [|n] o Hn; cbn in Hn.
    + injection Hn as <-. cbn [ObjectUuid ObjectClassName].
      split; [|reflexivity].
      rewrite (int32FromUUID_of_uuidFromInt _ _ Huuid). f_equal.
      unfold Go.to_int32. rewrite Z.mod_small by lia. lia.
    + destruct (Hids n o Hn) as [Hid Hcn]. split; [|exact Hcn].
      rewrite Hid. f_equal. lia.
Qed.

(** X14.  The objects of a batch carry their row numbers: while the numbers
    stay below 2^31, [writeChunk] builds one object for each vector, in order,
    whose UUID reads back through [int32FromUUID] as the offset of the batch
    plus the position of the vector, so that no two objects of the batch share
    a UUID. *)
Theorem writeChunk_objects_ids (className : string) (chunk : Batch) :
  0 <= Offset chunk ->
  Offset chunk + Z.of_nat (length (Vectors chunk)) <= 2 ^ 31 ->
  exists objects : list BatchObject,
    writeChunk_objects className (Offset chunk) 0 (Vectors chunk)
    = Go.Done objects /\
    map ObjectVector objects = Vectors chunk /\
    (forall (j : nat) (o : BatchObject),
        objects !! j = Some o ->
        int32FromUUID (ObjectUuid o)
        = Go.Done (Offset chunk + Z.of_nat j) /\
        ObjectClassName o = className) /\
    NoDup (map ObjectUuid objects).
Proof.
  intros Hlo Hhi.
  destruct (writeChunk_objects_spec className (Offset chunk) (Vectors chunk) 0)
    as (objects & Hobj & Hvec & Hids); [lia|lia|].
  exists objects. split; [exact Hobj|]. split; [exact Hvec|]. split.
  - intros j o Hj. destruct (Hids j o Hj) as [Hid Hcn].
    split; [|exact Hcn]. rewrite Hid. f_equal.
  - apply NoDup_alt. intros j1 j2 u H1 H2.
    rewrite list_lookup_fmap in H1, H2.
    destruct (objects !! j1) as [o1|] eqn:Ho1; [|discriminate H1].
    destruct (objects !! j2) as [o2|] eqn:Ho2; [|discriminate H2].
    cbn in H1, H2. injection H1 as H1. injection H2 as H2.
    destruct (Hids j1 o1 Ho1) as [Hid1 _].
    destruct (Hids j2 o2 Ho2) as [Hid2 _].
    rewrite H1 in Hid1. rewrite H2 in Hid2. rewrite Hid1 in Hid2.
    injection Hid2 as Hid2. lia.
Qed.

Lemma writeChunk_objects_ids_witness :
  exists objects : list BatchObject,
    writeChunk_objects "Vector" 1000 0 [[1; 2]; [3; 4]] = Go.Done objects /\
    map ObjectVector objects = [[1; 2]; [3; 4]] /\
    (forall (j : nat) (o : BatchObject),
        objects !! j = Some o ->
        int32FromUUID (ObjectUuid o) = Go.Done (1000 + Z.of_nat j) /\
        ObjectClassName o = "Vector") /\
    NoDup (map ObjectUuid objects).
Proof.
  apply (writeChunk_objects_ids "Vector"
           {| Vectors := [[1; 2]; [3; 4]]; Offset := 1000 |}); cbn; lia.
Defined.

Lemma log_results_run (results : list BatchResult) :
  log_results results
  = (map (fun r => Cmd.Print (result_line r)) results, Cmd.Returned tt).
Proof.
  induction results as [|r rest IH]; [reflexivity|].
  cbn [log_results map]. rewrite IH. reflexivity.
Qed.

(** X15.  Once the batch call itself has succeeded, [writeChunk] returns
    normally whatever the reply says: an object the server rejected costs one
    logged line, like an object it stored, and the import goes on.  Only the
    failure of the call ends the process. *)
Theorem writeChunk_object_errors_are_logged
    (BatchObjects : list BatchObject -> Go.result (list BatchResult))
    (className : string) (chunk : Batch) (objects : list BatchObject) :
  writeChunk_objects className (Offset chunk) 0 (Vectors chunk)
  = Go.Done objects ->
  match BatchObjects objects with
  | Go.Ok results =>
      Cmd.ending (writeChunk BatchObjects className chunk) = Cmd.Returned tt /\
      Cmd.trace (writeChunk BatchObjects className chunk)
      = map (fun r => Cmd.Print (result_line r)) results /\
      length (Cmd.trace (writeChunk BatchObjects className chunk))
      = length results
  | Go.Err e =>
      writeChunk BatchObjects className chunk
      = ([Cmd.Print ("could not send batch: " +:+ e)], Cmd.Exited 1)
  end.
Proof.
  intros Hobj. unfold writeChunk. rewrite Hobj.
  destruct (BatchObjects objects) as [results|e]; [|reflexivity].
  rewrite log_results_run. cbn [Cmd.ending Cmd.trace fst snd].
  repeat split. now rewrite length_map.
Qed.

Lemma writeChunk_object_errors_are_logged_witness :
  writeChunk
    (fun objects =>
       Go.Ok (imap (fun i (_ : BatchObject) =>
                      {| ResultIndex := Z.of_nat i;
                         ResultError := "no such class" |}) objects))
    "Vector" {| Vectors := [[1; 2]; [3; 4]]; Offset := 0 |}
  = ([Cmd.Print "Error for index 0: no such class";
      Cmd.Print "Error for index 1: no such class"], Cmd.Returned tt).
Proof.
  pose proof (writeChunk_object_errors_are_logged
                (fun objects =>
                   Go.Ok (imap (fun i (_ : BatchObject) =>
                                  {| ResultIndex := Z.of_nat i;
                                     ResultError := "no such class" |})
                               objects))
                "Vector" {| Vectors := [[1; 2]; [3; 4]]; Offset := 0 |}
                _ eq_refl) as H.
  cbv beta iota in H. destruct H as (Hend & Htrace & _).
  destruct (writeChunk _ _ _) as [t o]. cbn in Hend, Htrace.
  rewrite Hend, Htrace. vm_compute. reflexivity.
Defined.

(** ** Reading a data set at once *)

Lemma to_int_small (z : Z) : 0 <= z < 2 ^ 63 -> to_int z = z.
Proof. intros Hz. unfold to_int. rewrite Z.mod_small by lia. lia. Qed.


Lemma to_uint64_small (z : Z) : 0 <= z < 2 ^ 64 -> Go.to_uint64 z = z.
Proof. intros Hz. unfold Go.to_uint64. now apply Z.mod_small. Qed.


Lemma makeslice_fits (elem_size len : Z) :
  0 <= len < 2 ^ 63 ->
  elem_size * len <= maxAlloc ->
  makeslice true elem_size len = Made.
Proof.
  intros Hlen Hfit. unfold makeslice.
  rewrite to_int_small by exact Hlen.
  rewrite (proj2 (Z.ltb_ge len 0)) by lia.
  rewrite (proj2 (Z.ltb_ge maxAlloc (elem_size * len))) by exact Hfit.
  cbn [orb]. now rewrite orb_true_r.
Qed.

Lemma makeslice_too_large (served : bool) (elem_size len : Z) :
  maxAlloc < elem_size * len ->
  makeslice served elem_size len = MakePanic.
Proof.
  intros Hbig. unfold makeslice.
  rewrite (proj2 (Z.ltb_lt maxAlloc (elem_size * len))) by exact Hbig.
  now rewrite orb_true_r.
Qed.

Lemma makeslice_no_memory (elem_size len : Z) :
  0 < elem_size * len <= maxAlloc ->
  0 <= len < 2 ^ 63 ->
  makeslice false elem_size len = MakeOutOfMemory.
Proof.
  intros Hmem Hlen. unfold makeslice.
  rewrite to_int_small by exact Hlen.
  rewrite (proj2 (Z.ltb_ge len 0)) by lia.
  rewrite (proj2 (Z.ltb_ge maxAlloc (elem_size * len))) by lia.
  rewrite (proj2 (Z.eqb_neq (elem_size * len) 0)) by lia. reflexivity.
Qed.

Section Reshape.

Context {A : Type}.

Lemma rows_from_ok (chunkData1D : list A) (dimensions : Z) (n : nat) :
  forall i : nat,
    0 <= dimensions ->
    (Z.of_nat i + Z.of_nat n) * dimensions
    <= Z.of_nat (length chunkData1D) ->
    Z.of_nat (length chunkData1D) < 2 ^ 63 ->
    rows_from chunkData1D dimensions i n
    = Go.Done (map (row_of chunkData1D (Z.to_nat dimensions)) (seq i n)).
Proof.
  induction n as [|n IH]; intros i Hd Hlen Hsmall; [reflexivity|].
  cbn [rows_from seq map].
  assert (Hdim : to_int dimensions = dimensions)
    by (apply to_int_small; nia).
  rewrite Hdim, !to_int_small by nia.
  unfold slice_range.
  rewrite (proj2 (Z.leb_le 0 _)) by nia.
  rewrite (proj2 (Z.leb_le (Z.of_nat i * dimensions) _)) by nia.
  rewrite (proj2 (Z.leb_le _ (Z.of_nat (length chunkData1D)))) by nia.
  cbn [andb Go.bind].
  rewrite IH by (try assumption; nia). cbn [Go.bind]. unfold row_of at 1.
  replace (Z.to_nat ((Z.of_nat i + 1) * dimensions - Z.of_nat i * dimensions))
    with (Z.to_nat dimensions) by (f_equal; lia).
  replace (Z.to_nat (Z.of_nat i * dimensions))
    with (i * Z.to_nat dimensions)%nat by nia.
  reflexivity.
Qed.

Lemma concat_rows (chunkData1D : list A) (dimensions : nat) (n : nat) :
  forall i : nat,
    concat (map (row_of chunkData1D dimensions) (seq i n))
    = take (n * dimensions) (drop (i * dimensions) chunkData1D).
Proof.
  induction n as [|n IH]; intros i; [reflexivity|].
  cbn [seq map concat]. rewrite IH. unfold row_of.
  replace (S i * dimensions)%nat with (i * dimensions + dimensions)%nat by lia.
  rewrite <- drop_drop, take_take_drop. reflexivity.
Qed.

Lemma row_of_length (chunkData1D : list A) (dimensions r : nat) :
  ((r + 1) * dimensions <= length chunkData1D)%nat ->
  length (row_of chunkData1D dimensions r) = dimensions.
Proof.
  intros Hlen. unfold row_of. rewrite length_take, length_drop. nia.
Qed.

(** Row [r] of a buffer filled by position. *)
Lemma row_of_positions (content : nat -> A) (len dimensions r : nat) :
  ((r + 1) * dimensions <= len)%nat ->
  row_of (map content (seq 0 len)) dimensions r
  = map content (seq (r * dimensions) dimensions).
Proof.
  intros Hlen. unfold row_of.
  replace len with (r * dimensions + (len - r * dimensions))%nat by lia.
  rewrite seq_app, map_app, drop_app_length'
    by (now rewrite length_map, length_seq).
  cbn [Nat.add].
  replace (len - r * dimensions)%nat
    with (dimensions + (len - (r + 1) * dimensions))%nat by lia.
  rewrite seq_app, map_app, take_app_length'
    by (now rewrite length_map, length_seq).
  reflexivity.
Qed.

End Reshape.

Lemma loadHdf5_run {A} (heap : Heap) (dataset : Hdf5Dataset A)
    (rows dimensions : Z) :
  OpenDataset_err dataset = None ->
  SimpleExtentDims dataset = [rows; dimensions] ->
  0 <= rows -> 0 <= dimensions ->
  4 * (rows * dimensions) <= maxAlloc ->
  24 * rows <= maxAlloc ->
  serves_chunkData1D heap 0 = true ->
  serves_chunkData heap 0 = true ->
  loadHdf5 heap dataset
  = ([], Cmd.Returned
           (map (row_of (map (element dataset)
                           (seq 0 (Z.to_nat (rows * dimensions))))
                        (Z.to_nat dimensions))
                (seq 0 (Z.to_nat rows)))).
Proof.
  intros Hopen Hdims Hrows Hd Hbuf Hrs Hs1 Hs2.
  assert (Hmax : maxAlloc = 2 ^ 48) by reflexivity.
  unfold loadHdf5, make_or_die. rewrite Hopen, Hdims, Hs1, Hs2.
  rewrite to_uint64_small by nia.
  rewrite !makeslice_fits by nia.
  cbn [Cmd.bind Cmd.ret app].
  rewrite rows_from_ok; [reflexivity|exact Hd| |];
    rewrite length_map, length_seq; nia.
Qed.

(** X16.  [loadHdf5Float32] and [loadHdf5Neighbors] on a data set that opens
    and has the two extents rows and dimensions.  When the buffer of
    rows * dimensions elements passes the largest allocation of the
    runtime, [make] panics.  When the buffer and the rows fit and the
    allocator has the memory for them, the data set is returned whole and
    in order: as many rows as the first extent says, each as long as the
    second extent says, which put end to end are the buffer as [Read] left
    it, row i holding the positions i*d .. i*d+d-1; whether [Read]
    reported an error is not looked at.  When the allocator has no memory
    for the buffer, the process ends there. *)
Theorem loadHdf5_rows {A} (heap : Heap) (dataset : Hdf5Dataset A)
    (rows dimensions : Z) :
  OpenDataset_err dataset = None ->
  SimpleExtentDims dataset = [rows; dimensions] ->
  0 <= rows < 2 ^ 64 ->
  0 <= dimensions < 2 ^ 64 ->
  (rows * dimensions < 2 ^ 64 ->
   maxAlloc < 4 * (rows * dimensions) ->
   loadHdf5 heap dataset = ([], Cmd.Panics "makeslice: len out of range")) /\
  (4 * (rows * dimensions) <= maxAlloc ->
   24 * rows <= maxAlloc ->
   serves_chunkData1D heap 0 = true ->
   serves_chunkData heap 0 = true ->
   exists chunkData : list (list A),
     loadHdf5 heap dataset = ([], Cmd.Returned chunkData) /\
     length chunkData = Z.to_nat rows /\
     Forall (fun row => length row = Z.to_nat dimensions) chunkData /\
     concat chunkData
     = map (element dataset) (seq 0 (Z.to_nat (rows * dimensions))) /\
     (forall i j : nat,
         (i < Z.to_nat rows)%nat -> (j < Z.to_nat dimensions)%nat ->
         exists row : list A,
           chunkData !! i = Some row /\
           row !! j
           = Some (element dataset (i * Z.to_nat dimensions + j)))) /\
  (0 < 4 * (rows * dimensions) <= maxAlloc ->
   serves_chunkData1D heap 0 = false ->
   loadHdf5 heap dataset
   = ([Cmd.Print "fatal error: runtime: out of memory"], Cmd.Exited 2)).
Proof.
  intros Hopen Hdims Hrows Hd.
  assert (Hmax : maxAlloc = 2 ^ 48) by reflexivity.
  split; [|split].
  - intros Hnowrap Hbig. unfold loadHdf5, make_or_die.
    rewrite Hopen, Hdims, to_uint64_small by nia.
    now rewrite makeslice_too_large by exact Hbig.
  - intros Hbuf Hrs Hs1 Hs2.
    pose proof (loadHdf5_run heap dataset rows dimensions Hopen Hdims
                  (proj1 Hrows) (proj1 Hd) Hbuf Hrs Hs1 Hs2) as Hrun.
    set (buffer := map (element dataset)
                     (seq 0 (Z.to_nat (rows * dimensions)))) in *.
    assert (Hlen : length buffer
                   = (Z.to_nat rows * Z.to_nat dimensions)%nat)
      by (unfold buffer; rewrite length_map, length_seq; nia).
    eexists. split; [exact Hrun|]. split; [|split; [|split]].
    + now rewrite length_map, length_seq.
    + apply Forall_forall. intros row Hin.
      apply list_elem_of_In, in_map_iff in Hin as (r & <- & Hr).
      apply in_seq in Hr. apply row_of_length. rewrite Hlen. nia.
    + rewrite concat_rows. cbn [Nat.mul drop]. apply firstn_all2. lia.
    + intros i j Hi Hj. exists (row_of buffer (Z.to_nat dimensions) i). split.
      * rewrite list_lookup_fmap, lookup_seq_lt by lia. reflexivity.
      * unfold row_of. rewrite lookup_take_lt, lookup_drop by lia.
        unfold buffer. rewrite list_lookup_fmap, lookup_seq_lt by nia.
        reflexivity.
  - intros Hmem Hs1. unfold loadHdf5, make_or_die.
    rewrite Hopen, Hdims, Hs1, to_uint64_small by nia.
    now rewrite makeslice_no_memory by nia.
Qed.

Lemma loadHdf5_rows_witness :
  let dataset :=
    {| OpenDataset_err := None; SimpleExtentDims := [2; 3];
       element := fun n => Z.of_nat n |} in
  exists chunkData : list (list Z),
    loadHdf5 sample_heap dataset = ([], Cmd.Returned chunkData) /\
    length chunkData = Z.to_nat 2 /\
    Forall (fun row => length row = Z.to_nat 3) chunkData /\
    concat chunkData = map (element dataset) (seq 0 (Z.to_nat (2 * 3))) /\
    (forall i j : nat,
        (i < Z.to_nat 2)%nat -> (j < Z.to_nat 3)%nat ->
        exists row : list Z,
          chunkData !! i = Some row /\
          row !! j = Some (element dataset (i * Z.to_nat 3 + j))).
Proof.
  intros dataset.
  apply (loadHdf5_rows sample_heap dataset 2 3);
    try reflexivity; try lia; try discriminate.
Defined.

Example loadHdf5_sample :
  loadHdf5 sample_heap
    {| OpenDataset_err := None; SimpleExtentDims := [2; 3];
       element := fun n => Z.of_nat n |}
  = ([], Cmd.Returned [[0; 1; 2]; [3; 4; 5]]) /\
  loadHdf5 sample_heap
    {| OpenDataset_err := None; SimpleExtentDims := [2 ^ 31; 2 ^ 31];
       element := fun n => Z.of_nat n |}
  = ([], Cmd.Panics "makeslice: len out of range").
Proof. split; vm_compute; reflexivity. Qed.

(** Extents whose product wraps to zero: the buffer is empty, the rows are
    made, and the first slice expression panics. *)
Example loadHdf5_wraps :
  loadHdf5 sample_heap
    {| OpenDataset_err := None; SimpleExtentDims := [2 ^ 32; 2 ^ 32];
       element := fun n => Z.of_nat n |}
  = ([], Cmd.Panics "slice bounds out of range").
Proof.
  unfold loadHdf5, make_or_die.
  cbn [OpenDataset_err SimpleExtentDims sample_heap serves_chunkData1D
       serves_chunkData].
  change (Go.to_uint64 (2 ^ 32 * 2 ^ 32)) with 0.
  change (makeslice true 4 0) with Made.
  change (makeslice true 24 (2 ^ 32)) with Made.
  cbn [Cmd.bind Cmd.ret app Z.to_nat seq map].
  replace (Z.to_nat (2 ^ 32)) with (S (Z.to_nat (2 ^ 32 - 1))) by lia.
  cbn [rows_from].
  change (slice_range [] (to_int (Z.of_nat 0 * to_int (2 ^ 32)))
            (to_int ((Z.of_nat 0 + 1) * to_int (2 ^ 32))))
    with (@Go.Panicked (list Z) "slice bounds out of range").
  reflexivity.
Qed.

(** ** From the data sets to the queries *)

(** X17.  The ground-truth generator on the data the loaders return, for
    data sets that fit the memory.  The call for test row [i] panics when
    the test vectors have no dimension, and panics when the neighbours data
    set has no row [i]; otherwise it returns the search request for the
    numbers of test row [i] together with the numbers of row [i] of the
    neighbours data set. *)
Theorem benchmarkANN_on_loaded_data
    (heap_test heap_truth : Heap) (cfg : Config)
    (test : Hdf5Dataset float32) (truth : Hdf5Dataset Z)
    (rows dimensions truth_rows k : Z) (i : nat) :
  OpenDataset_err test = None ->
  SimpleExtentDims test = [rows; dimensions] ->
  OpenDataset_err truth = None ->
  SimpleExtentDims truth = [truth_rows; k] ->
  0 <= rows -> 0 <= dimensions -> 0 <= truth_rows -> 0 <= k ->
  4 * (rows * dimensions) <= maxAlloc -> 24 * rows <= maxAlloc ->
  4 * (truth_rows * k) <= maxAlloc -> 24 * truth_rows <= maxAlloc ->
  serves_chunkData1D heap_test 0 = true ->
  serves_chunkData heap_test 0 = true ->
  serves_chunkData1D heap_truth 0 = true ->
  serves_chunkData heap_truth 0 = true ->
  (i < Z.to_nat rows)%nat ->
  exists (testData : list (list float32)) (neighbors : list (list Z)),
    loadHdf5Float32 heap_test test = ([], Cmd.Returned testData) /\
    loadHdf5Neighbors heap_truth truth = ([], Cmd.Returned neighbors) /\
    Engine.issued (benchmarkANN cfg testData neighbors) !! i
    = Some
        (if dimensions =? 0
         then Go.Panicked "index out of range [0] with length 0"
         else if truth_rows <=? Z.of_nat i
         then Go.Panicked "index out of range"
         else
           Go.Done
             {| Query :=
                  Proto {| Collection := ClassName cfg;
                           SearchLimit := Go.to_uint32 (Limit cfg);
                           VectorBytes :=
                             concat
                               (map float32_bytes
                                  (map (element test)
                                     (seq (i * Z.to_nat dimensions)
                                          (Z.to_nat dimensions))));
                           Metadata := {| Certainty := false;
                                          Distance := false;
                                          Uuid := true |};
                           SearchTenant := EmptyString |};
                Neighbors :=
                  map (element truth)
                      (seq (i * Z.to_nat k) (Z.to_nat k)) |}).
Proof.
  intros Hto Htd Hno Hnd Hrows Hd Htr Hk Hb1 Hr1 Hb2 Hr2 Hs1 Hs2 Hs3 Hs4 Hi.
  pose proof (loadHdf5_run heap_test test rows dimensions Hto Htd Hrows Hd
                Hb1 Hr1 Hs1 Hs2) as Htrun.
  pose proof (loadHdf5_run heap_truth truth truth_rows k Hno Hnd Htr Hk
                Hb2 Hr2 Hs3 Hs4) as Hnrun.
  eexists. eexists. split; [exact Htrun|]. split; [exact Hnrun|].
  rewrite issued_lookup by now rewrite length_map, length_seq.
  unfold benchmarkANN_callback, slice_at. cbn [fst].
  rewrite !list_lookup_fmap, (lookup_seq_lt 0 (Z.to_nat rows) i Hi).
  cbn [fmap option_fmap option_map Go.bind Nat.add].
  rewrite row_of_positions by nia.
  cbn [benchmarkANN call_cfg ClassName Limit set_Queries].
  destruct (dimensions =? 0) eqn:Hd0.
  - apply Z.eqb_eq in Hd0. subst dimensions. reflexivity.
  - apply Z.eqb_neq in Hd0.
    rewrite nearVectorQueryGrpc_request
      by (destruct (Z.to_nat dimensions) eqn:E; [lia|discriminate]).
    cbn [Go.bind].
    destruct (truth_rows <=? Z.of_nat i) eqn:Hrow.
    + apply Z.leb_le in Hrow. rewrite lookup_seq_ge by lia. reflexivity.
    + apply Z.leb_gt in Hrow. rewrite lookup_seq_lt by lia.
      cbn [fmap option_fmap option_map Go.bind Nat.add].
      rewrite row_of_positions by nia. reflexivity.
Qed.

Lemma benchmarkANN_on_loaded_data_witness :
  let test :=
    {| OpenDataset_err := None; SimpleExtentDims := [2; 3];
       element := fun n => Z.of_nat n |} in
  let truth :=
    {| OpenDataset_err := None; SimpleExtentDims := [2; 4];
       element := fun n => Z.of_nat (10 + n) |} in
  exists (testData : list (list float32)) (neighbors : list (list Z)),
    loadHdf5Float32 sample_heap test = ([], Cmd.Returned testData) /\
    loadHdf5Neighbors sample_heap truth = ([], Cmd.Returned neighbors) /\
    Engine.issued (benchmarkANN sample_config testData neighbors) !! 1%nat
    = Some
        (Go.Done
           {| Query :=
                Proto {| Collection := "Vector";
                         SearchLimit := 10;
                         VectorBytes := [3; 0; 0; 0; 4; 0; 0; 0; 5; 0; 0; 0];
                         Metadata := {| Certainty := false;
                                        Distance := false;
                                        Uuid := true |};
                         SearchTenant := EmptyString |};
              Neighbors := [14; 15; 16; 17] |}).
Proof.
  intros test truth.
  apply (benchmarkANN_on_loaded_data sample_heap sample_heap sample_config
           test truth 2 3 2 4 1);
    try reflexivity; try lia; discriminate.
Defined.

(** ** Streaming the train set *)

Lemma sent_app (e1 e2 : list stream_event) :
  sent (e1 ++ e2) = sent e1 ++ sent e2.
Proof. unfold sent. apply omap_app. Qed.

Section Streaming.

Variable heap : Heap.
Variable train : TrainSet.
Variable content : Z -> nat -> float32.
Variables rows dimensions batchSize : Z.

Hypothesis Hdims : 0 <= dimensions.
Hypothesis Hbatch : 0 < batchSize.
Hypothesis Hnowrap : rows + batchSize <= 2 ^ 63.

(** The buffer cut into rows, when it has the size of the batch. *)
Lemma stream_rows (c : nat -> float32) :
  4 * (batchSize * dimensions) <= maxAlloc ->
  rows_from (map c (seq 0 (Z.to_nat (batchSize * dimensions)))) dimensions
            0 (Z.to_nat batchSize)
  = Go.Done (map (row_of (map c (seq 0 (Z.to_nat (batchSize * dimensions))))
                         (Z.to_nat dimensions))
                 (seq 0 (Z.to_nat batchSize))).
Proof.
  intros Hfit. assert (Hmax : maxAlloc = 2 ^ 48) by reflexivity.
  apply rows_from_ok; [exact Hdims| |];
    rewrite length_map, length_seq; nia.
Qed.

(** One round that selects, allocates and reads. *)
Lemma streaming_loop_round (fuel : nat) (i : Z) (c : nat -> float32) :
  0 <= i < rows ->
  SelectHyperslab_err train i = None ->
  ReadSubset train i = Go.Ok c ->
  4 * (batchSize * dimensions) <= maxAlloc ->
  makeslice (serves_chunkData1D heap i) 4 (batchSize * dimensions) = Made ->
  makeslice (serves_chunkData heap i) 24 batchSize = Made ->
  sent (fst (streaming_loop heap train rows dimensions batchSize (S fuel) i))
  = batch_at dimensions batchSize c i
      :: sent (fst (streaming_loop heap train rows dimensions batchSize fuel
                      (i + batchSize))) /\
  snd (streaming_loop heap train rows dimensions batchSize (S fuel) i)
  = snd (streaming_loop heap train rows dimensions batchSize fuel
           (i + batchSize)).
Proof.
  intros Hi Hsel Hread Hfit Hm1 Hm2.
  assert (Hmax : maxAlloc = 2 ^ 48) by reflexivity.
  cbn [streaming_loop].
  rewrite (proj2 (Z.ltb_lt i rows)) by lia.
  rewrite Hsel, to_uint64_small by nia. rewrite Hm1, Hread.
  unfold stream_batch. rewrite Hm2, stream_rows by exact Hfit.
  rewrite to_int_small, to_uint64_small by lia.
  destruct (streaming_loop heap train rows dimensions batchSize fuel
              (i + batchSize)) as [events ending].
  cbn [fst snd]. split; [|reflexivity].
  rewrite sent_app.
  replace (sent (if (i + batchSize) mod 10000 =? 0
                 then [Progress (i + batchSize) rows] else []))
    with (@nil Batch) by (destruct (_ =? 0); reflexivity).
  reflexivity.
Qed.



(** [m] rounds that select, allocate and read, from row [i] on. *)
Lemma streaming_loop_rounds (m : nat) :
  forall (fuel : nat) (i : Z),
    0 <= i ->
    4 * (batchSize * dimensions) <= maxAlloc ->
    24 * batchSize <= maxAlloc ->
    (forall j : nat, (j < m)%nat ->
       let r := i + Z.of_nat j * batchSize in
       r < rows /\
       SelectHyperslab_err train r = None /\
       ReadSubset train r = Go.Ok (content r) /\
       serves_chunkData1D heap r = true /\
       serves_chunkData heap r = true) ->
    sent (fst (streaming_loop heap train rows dimensions batchSize
                 (m + fuel) i))
    = map (fun j : nat =>
             batch_at dimensions batchSize
               (content (i + Z.of_nat j * batchSize))
               (i + Z.of_nat j * batchSize))
          (seq 0 m)
      ++ sent (fst (streaming_loop heap train rows dimensions batchSize fuel
                      (i + Z.of_nat m * batchSize))) /\
    snd (streaming_loop heap train rows dimensions batchSize (m + fuel) i)
    = snd (streaming_loop heap train rows dimensions batchSize fuel
             (i + Z.of_nat m * batchSize)).
Proof.
  assert (Hmax : maxAlloc = 2 ^ 48) by reflexivity.
  induction m as [|m IH]; intros fuel i Hi Hfit Hfit' Hgood.
  - cbn [Nat.add seq map app].
    replace (i + Z.of_nat 0 * batchSize) with i by lia. now split.
  - destruct (Hgood 0%nat ltac:(lia)) as (Hlt & Hsel & Hread & Hs1 & Hs2).
    cbv zeta in Hlt, Hsel, Hread, Hs1, Hs2.
    replace (i + Z.of_nat 0 * batchSize) with i in * by lia.
    destruct (streaming_loop_round (m + fuel) i (content i)) as [Hsent Hend];
      try assumption; try lia.
    { rewrite Hs1. apply makeslice_fits; nia. }
    { rewrite Hs2. apply makeslice_fits; nia. }
    destruct (IH fuel (i + batchSize)) as [Hsent' Hend'];
      try assumption; try lia.
    { intros j Hj. specialize (Hgood (S j) ltac:(lia)). cbv zeta in *.
      replace (i + batchSize + Z.of_nat j * batchSize)
        with (i + Z.of_nat (S j) * batchSize) by lia.
      exact Hgood. }
    replace (i + batchSize + Z.of_nat m * batchSize)
      with (i + Z.of_nat (S m) * batchSize) in * by lia.
    change (S m + fuel)%nat with (S (m + fuel)).
    rewrite Hsent, Hend, Hsent', Hend'. split; [|reflexivity].
    cbn [seq map app]. f_equal.
    + now replace (i + Z.of_nat 0 * batchSize) with i by lia.
    + f_equal. rewrite <- seq_shift, map_map. apply map_ext. intros j.
      replace (i + batchSize + Z.of_nat j * batchSize)
        with (i + Z.of_nat (S j) * batchSize) by lia.
      reflexivity.
Qed.

(** The round that finds the rows used up. *)
Lemma streaming_loop_finished (fuel : nat) (i : Z) :
  rows <= i ->
  streaming_loop heap train rows dimensions batchSize (S fuel) i
  = ([], Finished).
Proof.
  intros Hi. cbn [streaming_loop].
  now rewrite (proj2 (Z.ltb_ge i rows)) by lia.
Qed.

(** The round whose hyperslab does not arrive. *)
Lemma streaming_loop_read_fails (fuel : nat) (i : Z) (e : string) :
  0 <= i < rows ->
  4 * (batchSize * dimensions) <= maxAlloc ->
  serves_chunkData1D heap i = true ->
  read_fails train i e ->
  streaming_loop heap train rows dimensions batchSize (S fuel) i
  = ([], Fatal e).
Proof.
  assert (Hmax : maxAlloc = 2 ^ 48) by reflexivity.
  intros Hi Hfit Hs1 [Hsel|[Hsel Hread]]; cbn [streaming_loop];
    rewrite (proj2 (Z.ltb_lt i rows)) by lia; rewrite Hsel; [reflexivity|].
  rewrite to_uint64_small, Hs1, makeslice_fits by nia.
  now rewrite Hread.
Qed.

End Streaming.

Lemma batches_needed (rows batchSize : Z) :
  0 <= rows -> 0 < batchSize ->
  let n := (rows + batchSize - 1) / batchSize in
  0 <= n /\ rows <= n * batchSize /\ (n - 1) * batchSize < rows.
Proof.
  intros Hrows Hbatch n.
  pose proof (Z.div_mod (rows + batchSize - 1) batchSize) as Hdm.
  pose proof (Z.mod_pos_bound (rows + batchSize - 1) batchSize Hbatch) as Hm.
  assert (Hn : 0 <= n) by (apply Z.div_pos; lia).
  fold n in Hdm. split; [exact Hn|]. split; nia.
Qed.

Lemma batch_at_shape (dimensions batchSize : Z) (c : nat -> float32) (i : Z) :
  0 <= dimensions -> 0 <= batchSize ->
  length (Vectors (batch_at dimensions batchSize c i)) = Z.to_nat batchSize /\
  Forall (fun vector => length vector = Z.to_nat dimensions)
         (Vectors (batch_at dimensions batchSize c i)).
Proof.
  intros Hd Hb. unfold batch_at. cbn [Vectors]. split.
  - now rewrite length_map, length_seq.
  - apply Forall_forall. intros vector Hv.
    apply list_elem_of_In, in_map_iff in Hv as (r & <- & Hr).
    apply in_seq in Hr. apply row_of_length.
    rewrite length_map, length_seq. nia.
Qed.

(** X18.  [loadHdf5Streaming] with a positive batch size whose buffer fits
    the largest allocation.  It sends one batch for each hyperslab, at the
    offsets 0, batchSize, 2 batchSize, ..., as long as the hyperslab is
    selected and read and the allocator has the memory; every batch sent
    holds exactly batchSize vectors of the width of the data set.  If all
    ceil(rows / batchSize) hyperslabs arrive, the last one reaching past
    the data set when batchSize does not divide rows, the loop ends after
    that many batches; if the hyperslab of round m does not arrive, the
    process ends there through [log.Fatal] with the error of the library,
    after m batches. *)
Theorem loadHdf5Streaming_batches
    (heap : Heap) (train : TrainSet) (content : Z -> nat -> float32)
    (rows dimensions BatchSize : Z) (fuel m : nat) :
  train_dims train = [rows; dimensions] ->
  CreateSimpleDataspace_err train = None ->
  0 <= rows -> 0 <= dimensions -> 0 < BatchSize ->
  rows + BatchSize <= 2 ^ 63 ->
  4 * (BatchSize * dimensions) <= maxAlloc ->
  24 * BatchSize <= maxAlloc ->
  let n := Z.to_nat ((rows + BatchSize - 1) / BatchSize) in
  (m <= n)%nat ->
  (m < fuel)%nat ->
  (forall j : nat, (j < m)%nat ->
     let r := Z.of_nat j * BatchSize in
     SelectHyperslab_err train r = None /\
     ReadSubset train r = Go.Ok (content r) /\
     serves_chunkData1D heap r = true /\
     serves_chunkData heap r = true) ->
  let run := loadHdf5Streaming heap train BatchSize fuel in
  let batches (count : nat) :=
    map (fun j : nat =>
           batch_at dimensions BatchSize (content (Z.of_nat j * BatchSize))
                    (Z.of_nat j * BatchSize))
        (seq 0 count) in
  (m = n -> snd run = Finished /\ sent (fst run) = batches n) /\
  (forall e : string,
      (m < n)%nat ->
      serves_chunkData1D heap (Z.of_nat m * BatchSize) = true ->
      read_fails train (Z.of_nat m * BatchSize) e ->
      snd run = Fatal e /\ sent (fst run) = batches m) /\
  (forall count : nat,
      map Offset (batches count)
      = map (fun j : nat => Z.of_nat j * BatchSize) (seq 0 count) /\
      Forall (fun chunk =>
                length (Vectors chunk) = Z.to_nat BatchSize /\
                Forall (fun vector => length vector = Z.to_nat dimensions)
                       (Vectors chunk))
             (batches count)).
Proof.
  intros Hdims Hmem Hrows Hd Hb Hwrap Hfit Hfit' n Hm Hfuel Hgood run batches.
  assert (Hmax : maxAlloc = 2 ^ 48) by reflexivity.
  destruct (batches_needed rows BatchSize Hrows Hb) as (Hn0 & Hhi & Hlo).
  assert (Hnz : Z.of_nat n = (rows + BatchSize - 1) / BatchSize)
    by (unfold n; apply Z2Nat.id; exact Hn0).
  assert (Hrun : exists f : nat,
             snd run
             = snd (streaming_loop heap train rows dimensions BatchSize (S f)
                      (Z.of_nat m * BatchSize)) /\
             sent (fst run)
             = batches m
               ++ sent (fst (streaming_loop heap train rows dimensions
                               BatchSize (S f) (Z.of_nat m * BatchSize)))).
  { assert (Hf : exists f : nat, fuel = (m + S f)%nat)
      by (exists (fuel - m - 1)%nat; lia).
    destruct Hf as [f Hf]. exists f.
    unfold run, loadHdf5Streaming. rewrite Hdims, Hmem, Hf.
    rewrite to_uint64_small by lia.
    destruct (streaming_loop_rounds heap train content rows dimensions
                BatchSize Hd Hb Hwrap m (S f) 0)
      as [Hsent Hend]; try assumption; try lia.
    { intros j Hj. cbv zeta. rewrite Z.add_0_l.
      destruct (Hgood j Hj) as (Hsel & Hread & Hs1 & Hs2).
      cbv zeta in Hsel, Hread, Hs1, Hs2.
      split; [|now repeat split].
      assert (Z.of_nat j <= Z.of_nat n - 1) by lia. nia. }
    rewrite Z.add_0_l in Hsent, Hend.
    destruct (streaming_loop heap train rows dimensions BatchSize
                (m + S f) 0) as [events ending].
    cbn [fst snd] in *. split; [exact Hend|].
    change (sent (DatasetShape rows dimensions :: events)) with (sent events).
    rewrite Hsent. reflexivity. }
  destruct Hrun as (f & Hend & Hsent).
  split; [|split].
  - intros ->. rewrite Hend, Hsent.
    rewrite streaming_loop_finished by lia.
    cbn [fst snd sent omap list_omap]. now rewrite app_nil_r.
  - intros e Hlt Hs1 Hfail. rewrite Hend, Hsent.
    assert (Hrange : 0 <= Z.of_nat m * BatchSize < rows).
    { assert (Z.of_nat m <= Z.of_nat n - 1) by lia. nia. }
    rewrite streaming_loop_read_fails with (e := e); try assumption.
    cbn [fst snd sent omap list_omap]. now rewrite app_nil_r.
  - intros count. unfold batches. split.
    + rewrite map_map. reflexivity.
    + apply Forall_forall. intros chunk Hin.
      apply list_elem_of_In, in_map_iff in Hin as (j & <- & _).
      apply batch_at_shape; lia.
Qed.

Lemma loadHdf5Streaming_batches_witness :
  let run := loadHdf5Streaming sample_heap sample_train_strict 2 4 in
  snd run = Fatal "hyperslab out of bounds" /\
  sent (fst run)
  = map (fun j : nat =>
           batch_at 2 2 (sample_train_content (Z.of_nat j * 2))
                    (Z.of_nat j * 2))
        (seq 0 2).
Proof.
  apply (proj1 (proj2 (loadHdf5Streaming_batches sample_heap
                         sample_train_strict sample_train_content
                         5 2 2 4 2
                         eq_refl eq_refl ltac:(lia) ltac:(lia) ltac:(lia)
                         ltac:(lia) ltac:(vm_compute; discriminate)
                         ltac:(vm_compute; discriminate)
                         ltac:(vm_compute; lia) ltac:(lia)
                         ltac:(intros [|[|j]] Hj;
                               [repeat split|repeat split|lia]))));
    [vm_compute; lia|reflexivity|left; reflexivity].
Defined.

Example loadHdf5Streaming_sample :
  loadHdf5Streaming sample_heap sample_train 2 4
  = ([ DatasetShape 5 2;
       Sent {| Vectors := [[0; 1]; [10; 11]]; Offset := 0 |};
       Sent {| Vectors := [[20; 21]; [30; 31]]; Offset := 2 |};
       Sent {| Vectors := [[40; 41]; [50; 51]]; Offset := 4 |} ],
     Finished) /\
  loadHdf5Streaming sample_heap sample_train_strict 2 4
  = ([ DatasetShape 5 2;
       Sent {| Vectors := [[0; 1]; [10; 11]]; Offset := 0 |};
       Sent {| Vectors := [[20; 21]; [30; 31]]; Offset := 2 |} ],
     Fatal "hyperslab out of bounds") /\
  loadHdf5Streaming sample_heap sample_train (2 ^ 62) 4
  = ([DatasetShape 5 2], SlicePanic "makeslice: len out of range").
Proof. split; [|split]; vm_compute; reflexivity. Qed.

(** X19.  With a batch size of zero the loop never ends: whatever the number
    of iterations allowed, it is still running after them, having sent that
    many empty batches at offset 0. *)
Theorem loadHdf5Streaming_zero_batch_size
    (heap : Heap) (train : TrainSet) (content : Z -> nat -> float32)
    (rows dimensions : Z) (fuel : nat) :
  train_dims train = [rows; dimensions] ->
  readable train content ->
  0 < rows ->
  let run := loadHdf5Streaming heap train 0 fuel in
  snd run = StillRunning /\
  sent (fst run) = replicate fuel {| Vectors := []; Offset := 0 |}.
Proof.
  intros Hdims [Hmem Hread] Hrows run.
  unfold run, loadHdf5Streaming. rewrite Hdims, Hmem.
  change (Go.to_uint64 0) with 0.
  assert (Hloop : snd (streaming_loop heap train rows dimensions 0 fuel 0)
                  = StillRunning /\
                  sent (fst (streaming_loop heap train rows dimensions 0
                               fuel 0))
                  = replicate fuel {| Vectors := []; Offset := 0 |}).
  { induction fuel as [|fuel IH]; [split; reflexivity|].
    cbn [streaming_loop]. rewrite (proj2 (Z.ltb_lt 0 rows) Hrows).
    destruct (Hread 0) as [Hsel Hrd]. rewrite Hsel.
    change (Go.to_uint64 (0 * dimensions)) with 0.
    change (makeslice (serves_chunkData1D heap 0) 4 0) with Made.
    rewrite Hrd.
    change (stream_batch (serves_chunkData heap 0) dimensions 0
              (map (content 0) (seq 0 (Z.to_nat 0))) 0)
      with (@inr stream_end Batch {| Vectors := []; Offset := 0 |}).
    change (Go.to_uint64 (0 + 0)) with 0.
    destruct (streaming_loop heap train rows dimensions 0 fuel 0)
      as [events ending].
    cbn [fst snd] in *. destruct IH as [Hend Hsent].
    split; [exact Hend|].
    change ({| Vectors := []; Offset := 0 |} :: sent events
            = replicate (S fuel) {| Vectors := []; Offset := 0 |}).
    now rewrite Hsent. }
  destruct (streaming_loop heap train rows dimensions 0 fuel 0)
    as [events ending].
  exact Hloop.
Qed.

Lemma loadHdf5Streaming_zero_batch_size_witness :
  let run := loadHdf5Streaming sample_heap sample_train 0 7 in
  snd run = StillRunning /\
  sent (fst run) = replicate 7 {| Vectors := []; Offset := 0 |}.
Proof.
  apply (loadHdf5Streaming_zero_batch_size sample_heap sample_train
           sample_train_content 5 2 7); try reflexivity; try lia.
  split; [reflexivity|]. intros i. split; reflexivity.
Defined.



(** ** Waiting for the tombstones *)

Section TombstonesFacts.

Variable sum_differs_from_zero : list float64 -> bool.
Variable polls : nat -> poll.

Lemma wait_loop_first_stop (n : nat) :
  forall (fuel k : nat),
    (n < fuel)%nat ->
    (forall j : nat, (j < n)%nat ->
       tombstones_left sum_differs_from_zero (polls (k + j)) = true) ->
    tombstones_left sum_differs_from_zero (polls (k + n)) = false ->
    wait_loop sum_differs_from_zero polls fuel k
    = (replicate n (Cmd.Sleep (time_Second * 10)),
       wait_result (polls (k + n))).
Proof.
  induction n as [|n IH]; intros fuel k Hfuel Hbusy Hstop.
  - destruct fuel as [|fuel]; [lia|]. rewrite Nat.add_0_r in Hstop.
    cbn [wait_loop replicate]. rewrite Nat.add_0_r.
    destruct (polls k) as [e|c|e|e|m]; try reflexivity.
    now rewrite Hstop.
  - destruct fuel as [|fuel]; [lia|].
    pose proof (Hbusy 0%nat ltac:(lia)) as H0. rewrite Nat.add_0_r in H0.
    cbn [wait_loop].
    destruct (polls k) as [e|c|e|e|m]; try discriminate H0.
    rewrite H0, (IH fuel (S k)).
    + cbn [replicate]. do 3 f_equal. lia.
    + lia.
    + intros j Hj. replace (S k + j)%nat with (k + S j)%nat by lia.
      apply Hbusy. lia.
    + now replace (S k + n)%nat with (k + S n)%nat by lia.
Qed.

Lemma wait_loop_forever :
  (forall j : nat, tombstones_left sum_differs_from_zero (polls j) = true) ->
  forall (fuel k : nat),
    wait_loop sum_differs_from_zero polls fuel k
    = (replicate fuel (Cmd.Sleep (time_Second * 10)), StillWaiting).
Proof.
  intros Hbusy. induction fuel as [|fuel IH]; intros k; [reflexivity|].
  cbn [wait_loop]. pose proof (Hbusy k) as Hk.
  destruct (polls k) as [e|c|e|e|m]; try discriminate Hk.
  now rewrite Hk, IH.
Qed.

End TombstonesFacts.

Lemma sleeps_replicate (n : nat) (d : Z) (tail : list Cmd.event) :
  sleeps (replicate n (Cmd.Sleep d) ++ tail) = replicate n d ++ sleeps tail.
Proof.
  induction n as [|n IH]; [reflexivity|].
  cbn [replicate app].
  change (sleeps (Cmd.Sleep d :: replicate n (Cmd.Sleep d) ++ tail))
    with (d :: sleeps (replicate n (Cmd.Sleep d) ++ tail)).
  now rewrite IH.
Qed.

(** X21.  [waitTombstonesEmpty] returns at the first round that does not read
    a non-zero sum of tombstones, having slept ten seconds after each round
    before it: with nil when that round read the metrics (a zero sum, or no
    tombstone family at all), with the error when that round failed. *)
Theorem waitTombstonesEmpty_returns
    (sum_differs_from_zero : list float64 -> bool) (polls : nat -> poll)
    (n fuel : nat) :
  (n < fuel)%nat ->
  (forall j : nat, (j < n)%nat ->
     tombstones_left sum_differs_from_zero (polls j) = true) ->
  tombstones_left sum_differs_from_zero (polls n) = false ->
  let run := waitTombstonesEmpty sum_differs_from_zero polls fuel in
  snd run = wait_result (polls n) /\
  sleeps (fst run) = replicate n 10000000000 /\
  (forall tombstones, polls n = MetricsRead tombstones ->
     run = (Cmd.Print "Waiting to allow for tombstone cleanup"
              :: replicate n (Cmd.Sleep 10000000000)
              ++ [Cmd.Print "Tombstones empty"],
            ReturnedNil)).
Proof.
  intros Hfuel Hbusy Hstop run. unfold run, waitTombstonesEmpty.
  rewrite (wait_loop_first_stop sum_differs_from_zero polls n fuel 0 Hfuel
             Hbusy Hstop).
  cbn [Nat.add fst snd]. change (time_Second * 10) with 10000000000.
  assert (Hsl : forall tail : list Cmd.event,
             sleeps (Cmd.Print "Waiting to allow for tombstone cleanup"
                       :: replicate n (Cmd.Sleep 10000000000) ++ tail)
             = replicate n 10000000000 ++ sleeps tail).
  { intros tail. change (sleeps (Cmd.Print ?s :: ?t)) with (sleeps t).
    apply sleeps_replicate. }
  split; [reflexivity|]. split.
  - rewrite Hsl. destruct (wait_result (polls n)); cbn; now rewrite app_nil_r.
  - intros tombstones Hp. rewrite Hp. reflexivity.
Qed.

Lemma waitTombstonesEmpty_returns_witness :
  let polls := fun k : nat =>
    if (k <? 2)%nat then MetricsRead (Some [1]) else MetricsRead None in
  let run := waitTombstonesEmpty (fun _ => true) polls 5 in
  snd run = wait_result (polls 2%nat) /\
  sleeps (fst run) = replicate 2 10000000000 /\
  (forall tombstones, polls 2%nat = MetricsRead tombstones ->
     run = (Cmd.Print "Waiting to allow for tombstone cleanup"
              :: replicate 2 (Cmd.Sleep 10000000000)
              ++ [Cmd.Print "Tombstones empty"],
            ReturnedNil)).
Proof.
  intros polls.
  apply (waitTombstonesEmpty_returns (fun _ => true) polls 2 5).
  - lia.
  - intros [|[|j]] Hj; try reflexivity. lia.
  - reflexivity.
Defined.

(** X22.  While every round reads a non-zero sum of tombstones the wait does
    not return: after any number of rounds it is still polling, ten seconds of
    sleep behind each round. *)
Theorem waitTombstonesEmpty_never_returns
    (sum_differs_from_zero : list float64 -> bool) (polls : nat -> poll)
    (fuel : nat) :
  (forall j : nat,
     tombstones_left sum_differs_from_zero (polls j) = true) ->
  waitTombstonesEmpty sum_differs_from_zero polls fuel
  = (Cmd.Print "Waiting to allow for tombstone cleanup"
       :: replicate fuel (Cmd.Sleep 10000000000),
     StillWaiting).
Proof.
  intros Hbusy. unfold waitTombstonesEmpty.
  rewrite (wait_loop_forever sum_differs_from_zero polls Hbusy).
  now rewrite app_nil_r.
Qed.

Lemma waitTombstonesEmpty_never_returns_witness :
  waitTombstonesEmpty (fun _ => true) (fun _ => MetricsRead (Some [1])) 3
  = (Cmd.Print "Waiting to allow for tombstone cleanup"
       :: replicate 3 (Cmd.Sleep 10000000000),
     StillWaiting).
Proof.
  apply (waitTombstonesEmpty_never_returns (fun _ => true)
           (fun _ => MetricsRead (Some [1])) 3).
  intros j. reflexivity.
Defined.

(** ** Flag defaults *)

Lemma lookup_register (flags : list (string * flag_value)) :
  forall (g : gmap string flag_value) (field : string),
    register flags g !! field
    = match last_default field flags with
      | Some v => Some v
      | None => g !! field
      end.
Proof.
  unfold register.
  induction flags as [|[k v] flags IH]; intros g field; [reflexivity|].
  cbn [foldl last_default fst snd]. rewrite IH.
  destruct (last_default field flags) as [v'|]; [reflexivity|].
  destruct (String.eqb_spec k field) as [->|Hne].
  - apply lookup_insert_eq.
  - now apply lookup_insert_ne.
Qed.

Ltac by_field field :=
  repeat match goal with
         | |- context [String.eqb ?k field] =>
             destruct (String.eqb_spec k field) as [<-|?]
         end.

(** X23.  The two commands bind their flags to the same configuration, so the
    registration that comes last decides the defaults both commands see.  The
    two orders give the same defaults except for the class name, the API and
    the origin; and since the ann-benchmark command registers no flag for the
    limit, its limit is whatever was there before, the 10 of the
    random-vectors command when that one is registered too. *)
Theorem flag_defaults_depend_on_order
    (globalConfig : gmap string flag_value) (field : string) :
  (field <> "ClassName" -> field <> "API" -> field <> "Origin" ->
   initAnnBenchmark (initRandomVectors globalConfig) !! field
   = initRandomVectors (initAnnBenchmark globalConfig) !! field) /\
  initAnnBenchmark (initRandomVectors globalConfig) !! "API"
  = Some (FString "grpc") /\
  initRandomVectors (initAnnBenchmark globalConfig) !! "API"
  = Some (FString "graphql") /\
  initAnnBenchmark (initRandomVectors globalConfig) !! "ClassName"
  = Some (FString "Vector") /\
  initRandomVectors (initAnnBenchmark globalConfig) !! "ClassName"
  = Some (FString EmptyString) /\
  initAnnBenchmark (initRandomVectors globalConfig) !! "Origin"
  = Some (FString "localhost:50051") /\
  initRandomVectors (initAnnBenchmark globalConfig) !! "Origin"
  = Some (FString "http://localhost:8080") /\
  initAnnBenchmark globalConfig !! "Limit" = globalConfig !! "Limit" /\
  initAnnBenchmark (initRandomVectors globalConfig) !! "Limit"
  = Some (FInt 10).
Proof.
  unfold initAnnBenchmark, initRandomVectors.
  rewrite !lookup_register.
  split; [|repeat split].
  intros Hc Ha Ho.
  unfold annBenchmark_flags, randomVectors_flags. cbn [last_default].
  by_field field; try reflexivity; try congruence.
Qed.

Lemma flag_defaults_depend_on_order_witness :
  initAnnBenchmark (initRandomVectors ∅) !! "Parallel"
  = initRandomVectors (initAnnBenchmark ∅) !! "Parallel".
Proof.
  apply (proj1 (flag_defaults_depend_on_order ∅ "Parallel")); discriminate.
Defined.

(** ** Upper and lower case in UUID strings *)

Lemma xvalues_lower (c : ascii) : UUID.xvalues (UUID.lower c) = UUID.xvalues c.
Proof. destruct c as [[] [] [] [] [] [] [] []]; reflexivity. Qed.

Lemma is_dash_lower (c : ascii) :
  UUID.is_dash (Some (UUID.lower c)) = UUID.is_dash (Some c).
Proof. destruct c as [[] [] [] [] [] [] [] []]; reflexivity. Qed.

Lemma lower_lower (c : ascii) : UUID.lower (UUID.lower c) = UUID.lower c.
Proof. destruct c as [[] [] [] [] [] [] [] []]; reflexivity. Qed.

Lemma xtob_lower (c1 c2 : ascii) :
  UUID.xtob (UUID.lower c1) (UUID.lower c2) = UUID.xtob c1 c2.
Proof. unfold UUID.xtob. now rewrite !xvalues_lower. Qed.

Lemma get_lower_string (s : string) :
  forall i : nat,
    String.get i (UUID.lower_string s) = option_map UUID.lower (String.get i s).
Proof.
  induction s as [|c s IH]; intros i; [reflexivity|].
  destruct i as [|i]; [reflexivity|]. cbn. apply IH.
Qed.

Lemma length_lower_string (s : string) :
  String.length (UUID.lower_string s) = String.length s.
Proof. induction s as [|c s IH]; [reflexivity|]. cbn. now rewrite IH. Qed.

Lemma substring_lower_string (s : string) :
  forall n m : nat,
    String.substring n m (UUID.lower_string s)
    = UUID.lower_string (String.substring n m s).
Proof.
  induction s as [|c s IH]; intros n m.
  - destruct n, m; reflexivity.
  - destruct n as [|n].
    + destruct m as [|m]; [reflexivity|]. cbn. now rewrite IH.
    + cbn. apply IH.
Qed.

Lemma lower_string_idempotent (s : string) :
  UUID.lower_string (UUID.lower_string s) = UUID.lower_string s.
Proof.
  induction s as [|c s IH]; [reflexivity|]. cbn. now rewrite lower_lower, IH.
Qed.

Lemma is_dash_get_lower (s : string) (i : nat) :
  UUID.is_dash (Go.index (UUID.lower_string s) i)
  = UUID.is_dash (Go.index s i).
Proof.
  unfold Go.index. rewrite get_lower_string.
  destruct (String.get i s) as [c|]; [apply is_dash_lower|reflexivity].
Qed.

Lemma parse_pairs_lower (s : string) (offsets : list nat) :
  UUID.parse_pairs (UUID.lower_string s) offsets = UUID.parse_pairs s offsets.
Proof.
  induction offsets as [|x rest IH]; [reflexivity|].
  cbn [UUID.parse_pairs]. unfold Go.index. rewrite !get_lower_string, IH.
  destruct (String.get x s) as [c1|]; [|reflexivity].
  destruct (String.get (S x) s) as [c2|]; [|reflexivity].
  cbn [option_map]. now rewrite xtob_lower.
Qed.

Lemma parse_dashed_lower (s : string) :
  UUID.parse_dashed (UUID.lower_string s) = UUID.parse_dashed s.
Proof.
  unfold UUID.parse_dashed. now rewrite !is_dash_get_lower, parse_pairs_lower.
Qed.

Lemma Parse_lower (s : string) :
  UUID.Parse (UUID.lower_string s) = UUID.Parse s.
Proof.
  unfold UUID.Parse, Go.drop_prefix, UUID.EqualFold_urn.
  rewrite !length_lower_string, !substring_lower_string,
    !parse_dashed_lower, parse_pairs_lower, lower_string_idempotent.
  reflexivity.
Qed.

(** X25.  The case of the hexadecimal digits does not matter to
    [int32FromUUID]: a UUID string and the same string in lower case give the
    same result, be it a number or a panic. *)
Theorem int32FromUUID_ignores_case (uuidStr : string) :
  int32FromUUID (UUID.lower_string uuidStr) = int32FromUUID uuidStr.
Proof. unfold int32FromUUID. now rewrite Parse_lower. Qed.

Example int32FromUUID_upper_case :
  int32FromUUID "00000000-0000-0000-0000-0000000000FF" = Go.Done 255.
Proof. reflexivity. Qed.

(** ** The heap gauges *)



Example readMemoryMetrics_sample :
  readMemoryMetrics
    (Scraped (<["vector_index_tombstones" := (3, [4])]>
                (<["go_memstats_heap_sys_bytes" := (7, [8])]> ∅)))
  = Go.Ok {| HeapAllocBytes := 0; HeapInuseBytes := 0; HeapSysBytes := 7 |} /\
  readMemoryMetrics (ScrapeBadStatus 503)
  = Go.Err "HTTP request failed with status code 503".
Proof. split; reflexivity. Qed.
